(** * The untrusted pixel-stream protocol of the Qubes isolation provider

    A shallow embedding of [dangerzone/isolation_provider/qubes.py]: the
    framed reads ([read_bytes], [read_int], [read_debug_text]), the session
    driver [Qubes._convert] and the dev-mode sidecar [teleport_dz_module],
    followed by the properties of the protocol that the specification states.

    Python values are modelled as the code has them: [int] as [Z], [bytes] as
    [list byte], [str] as [string], [float] (IEEE 754 binary64) as the kernel's
    primitive [float].  Statements run in a state-and-exception monad over a
    [world] that holds the worker's three pipes, the clock, the file-system
    operations performed so far and the progress reports made so far. *)

From Stdlib Require Import ZArith List String Ascii Bool Lia.
From Stdlib Require Import Strings.Byte DecimalString Floats Uint63.
From Stdlib Require DecimalPos DecimalZ.
Import ListNotations.

Local Open Scope string_scope.
Local Open Scope list_scope.
Local Open Scope Z_scope.

(** ** Python values *)

Definition bytes := list byte.

Definition byte_val (b : byte) : Z := Z.of_N (Byte.to_N b).

(** [len(buf)] *)
Definition len {A} (l : list A) : Z := Z.of_nat (List.length l).

(** [int.from_bytes(b, signed=False)]; the byte order defaults to ["big"]. *)
Definition int_from_bytes (b : bytes) : Z :=
  fold_left (fun acc x => acc * 256 + byte_val x) b 0.

Definition byte_of_Z (z : Z) : byte :=
  match Byte.of_N (Z.to_N (z mod 256)) with
  | Some b => b
  | None => x00
  end.

Fixpoint be_digits (n : nat) (z : Z) : bytes :=
  match n with
  | O => []
  | S k => be_digits k (z / 256) ++ [byte_of_Z z]
  end.

(** [z.to_bytes(n)]; the byte order defaults to ["big"].  [None] stands for
    the [OverflowError] Python raises when [z] is negative or does not fit. *)
Definition int_to_bytes (z : Z) (n : nat) : option bytes :=
  if (0 <=? z) && (z <? 256 ^ Z.of_nat n) then Some (be_digits n z) else None.

(** [str(z)] for an [int]. *)
Definition str (z : Z) : string := NilZero.string_of_int (Z.to_int z).

(** [float(z)] for the non-negative [int]s that occur here (file sizes and
    page counts, all below [2^63]). *)
Definition float_of_int (z : Z) : float := PrimFloat.of_uint63 (Uint63.of_Z z).

(** Truthiness of an [Optional[str]]: [None] and the empty string are false. *)
Definition truthy (s : option string) : bool :=
  match s with
  | None => false
  | Some EmptyString => false
  | Some _ => true
  end.

(** ** Exceptions and control flow *)

(** The exceptions that travel through this module.  [ConversionException]
    carries whatever [exception_from_error_code] built; [CollaboratorError]
    whatever the PDF stage raised. *)
Inductive exn : Type :=
| ValueError (msg : string)
| OverflowError
| ConversionException (code : Z) (name : string)
| CollaboratorError (msg : string).

(** How a block of statements ends: it falls through with a value, executes
    [return v] of the enclosing function, or raises. *)
Inductive outcome (A : Type) : Type :=
| Normal (a : A)
| Returned (v : bool)
| Raised (e : exn).
Arguments Normal {A} a.
Arguments Returned {A} v.
Arguments Raised {A} e.

(** ** The world *)

Inductive content : Type :=
| Text (s : string)      (* a file opened with ["w"] *)
| Binary (b : bytes).    (* a file opened with ["wb"] *)

(** File-system operations, in the order the session performs them. *)
Inductive fs_op : Type :=
| Rmtree (path : string)            (* [shutil.rmtree(path)] if it exists *)
| Mkdir (path : string)
| Remove (path : string)            (* [os.remove(path)] if it exists *)
| WriteFile (path : string) (c : content)
| Move (src dst : string).

(** One call of [print_progress_trusted(document, error, text, percentage)]. *)
Record report : Type := mkReport {
  is_error : bool;
  text : string;
  percentage : float
}.

Inductive fd : Type := Stdout | Stderr.

Record world : Type := mkWorld {
  clock : float;              (* monotonic time, in seconds *)
  p_stdin : bytes;            (* what the worker has been sent, oldest first *)
  p_stdout : bytes;           (* worker output the host has not consumed yet *)
  p_stderr : bytes;
  exit_status : Z;            (* what [p.wait()] returns *)
  waited : bool;              (* [p.wait()] has been called *)
  stdout_closed : bool;
  stderr_closed : bool;
  spawned : list (list string); (* [subprocess.Popen] command lines *)
  fs : list fs_op;            (* oldest first *)
  progress : list report;     (* oldest first *)
  logged : list string        (* [log.info] messages, oldest first *)
}.

Definition M (A : Type) : Type := world -> outcome A * world.

Definition ret {A} (a : A) : M A := fun w => (Normal a, w).

Definition bind {A B} (c : M A) (k : A -> M B) : M B :=
  fun w =>
    match c w with
    | (Normal a, w') => k a w'
    | (Returned v, w') => (Returned v, w')
    | (Raised e, w') => (Raised e, w')
    end.

Definition raise {A} (e : exn) : M A := fun w => (Raised e, w).

(** [return v] *)
Definition return_ {A} (v : bool) : M A := fun w => (Returned v, w).

(** [try: c  except ValueError: h] *)
Definition try_except_ValueError {A} (c : M A) (h : M A) : M A :=
  fun w =>
    match c w with
    | (Raised (ValueError _), w') => h w'
    | r => r
    end.

Declare Scope py_scope.
Delimit Scope py_scope with py.
Notation "x <- c ;; k" := (bind c (fun x => k))
  (at level 100, c at next level, right associativity) : py_scope.
Notation "c ;; k" := (bind c (fun _ => k))
  (at level 100, right associativity) : py_scope.
Local Open Scope py_scope.

(** [for x in xs: acc = body(x, acc)] with the accumulator threaded through. *)
Fixpoint for_each {X A} (xs : list X) (body : X -> A -> M A) (acc : A) : M A :=
  match xs with
  | [] => ret acc
  | x :: rest => acc' <- body x acc ;; for_each rest body acc'
  end.

(** [range(lo, hi)] *)
Definition range (lo hi : Z) : list Z :=
  map (fun i => lo + Z.of_nat i) (seq 0 (Z.to_nat (hi - lo))).

(** ** Constants of the module *)

Definition CONVERTED_FILE_PATH : string := "/tmp/safe-output-compressed.pdf".

(** The maximum time a qube takes to start up: [5 * 60] seconds. *)
Definition STARTUP_TIME_SECONDS : float := 300%float.

Definition out_dir : string := "/tmp/dangerzone".

(** ** What the module imports

    The functions below live in other files of the repository
    ([conversion/common.py], [conversion/errors.py], [util.py], [base.py],
    [conversion/pixels_to_pdf.py]).  The session is parameterised by them, and
    by what the isolated worker and the clock do. *)

Record environment : Type := mkEnv {
  (** [calculate_timeout(size, pages=None)] *)
  calculate_timeout : float -> option Z -> float;
  (** [exception_from_error_code(error_code)]: the exception that
      [raise exception_from_error_code(error_code)] propagates *)
  exception_from_error_code : Z -> exn;
  (** [Stopwatch(timeout)] started at [start], asked [remaining] at [now] *)
  Stopwatch_remaining : float -> float -> float -> float;
  (** the pipe and the worker behind it: at time [now], with [pending] bytes
      still to come, a read of [size] bytes with [timeout] sees this many
      bytes arrive in time and blocks for this long *)
  pipe : float -> bytes -> Z -> float -> nat * float;
  (** [MAX_CONVERSION_LOG_CHARS] *)
  MAX_CONVERSION_LOG_CHARS : Z;
  (** [IsolationProvider.sanitize_conversion_str] *)
  sanitize_conversion_str : string -> string;
  (** [asyncio.run(PixelsToPDF(progress_callback).convert(ocr_lang))]: the
      percentages it reports through the callback, and the exception it raises,
      if any *)
  PixelsToPDF_convert : option string -> list fs_op -> list report * option exn;
  (** [getattr(sys, "dangerzone_dev", False)] *)
  dangerzone_dev : bool;
  (** the archive [teleport_dz_module] builds in memory,
      [temp_file.getvalue()] *)
  dz_module_zip : bytes
}.

Record Document : Type := mkDocument {
  input_filename : string;
  output_filename : string;
  input_bytes : bytes       (* the content of [input_filename] *)
}.

Section Session.

Variable E : environment.

(** ** World primitives *)

Definition stream (f : fd) (w : world) : bytes :=
  match f with Stdout => p_stdout w | Stderr => p_stderr w end.

Definition set_stream (f : fd) (s : bytes) (w : world) : world :=
  match f with
  | Stdout => mkWorld (clock w) (p_stdin w) s (p_stderr w) (exit_status w)
                (waited w) (stdout_closed w) (stderr_closed w) (spawned w)
                (fs w) (progress w) (logged w)
  | Stderr => mkWorld (clock w) (p_stdin w) (p_stdout w) s (exit_status w)
                (waited w) (stdout_closed w) (stderr_closed w) (spawned w)
                (fs w) (progress w) (logged w)
  end.

Definition advance (dt : float) (w : world) : world :=
  mkWorld (clock w + dt)%float (p_stdin w) (p_stdout w) (p_stderr w)
    (exit_status w) (waited w) (stdout_closed w) (stderr_closed w) (spawned w)
    (fs w) (progress w) (logged w).

Definition set_closed (f : fd) (w : world) : world :=
  match f with
  | Stdout => mkWorld (clock w) (p_stdin w) (p_stdout w) (p_stderr w)
                (exit_status w) (waited w) true (stderr_closed w) (spawned w)
                (fs w) (progress w) (logged w)
  | Stderr => mkWorld (clock w) (p_stdin w) (p_stdout w) (p_stderr w)
                (exit_status w) (waited w) (stdout_closed w) true (spawned w)
                (fs w) (progress w) (logged w)
  end.

(** Modelled from the spec: [nonblocking_read] of [dangerzone/util.py], which
    is not among the sources.  FramedReader "attempts to accumulate exactly
    [n] bytes from a non-blocking source within [timeout]" and "consumes bytes
    irreversibly from the underlying stream; no peeking or pushback": the read
    takes, from the front of the stream, the bytes that arrive in time, at
    most [size] of them, and the clock moves by the time it blocked. *)
Definition nonblocking_read (f : fd) (size : Z) (timeout : float) : M bytes :=
  fun w =>
    let s := stream f w in
    let '(arrived, dt) := pipe E (clock w) s size timeout in
    let k := Nat.min arrived (Z.to_nat size) in
    (Normal (firstn k s), set_stream f (skipn k s) (advance dt w)).

(** [subprocess.Popen(argv, ...)] *)
Definition Popen (argv : list string) : M unit :=
  fun w => (Normal tt,
            mkWorld (clock w) (p_stdin w) (p_stdout w) (p_stderr w)
              (exit_status w) (waited w) (stdout_closed w) (stderr_closed w)
              (spawned w ++ [argv]) (fs w) (progress w) (logged w)).

(** [wpipe.write(b)] on the worker's stdin; also what the worker reads when
    a file is handed to it as its stdin. *)
Definition stdin_write (b : bytes) : M unit :=
  fun w => (Normal tt,
            mkWorld (clock w) (p_stdin w ++ b) (p_stdout w) (p_stderr w)
              (exit_status w) (waited w) (stdout_closed w) (stderr_closed w)
              (spawned w) (fs w) (progress w) (logged w)).

(** [p.wait()] *)
Definition p_wait : M Z :=
  fun w => (Normal (exit_status w),
            mkWorld (clock w) (p_stdin w) (p_stdout w) (p_stderr w)
              (exit_status w) true (stdout_closed w) (stderr_closed w)
              (spawned w) (fs w) (progress w) (logged w)).

(** [f.close()] *)
Definition close (f : fd) : M unit := fun w => (Normal tt, set_closed f w).

Definition add_op (op : fs_op) (w : world) : world :=
  mkWorld (clock w) (p_stdin w) (p_stdout w) (p_stderr w)
    (exit_status w) (waited w) (stdout_closed w) (stderr_closed w)
    (spawned w) (fs w ++ [op]) (progress w) (logged w).

(** A file-system operation of the session. *)
Definition fs_do (op : fs_op) : M unit := fun w => (Normal tt, add_op op w).

Definition add_reports (rs : list report) (w : world) : world :=
  mkWorld (clock w) (p_stdin w) (p_stdout w) (p_stderr w)
    (exit_status w) (waited w) (stdout_closed w) (stderr_closed w)
    (spawned w) (fs w) (progress w ++ rs) (logged w).

(** [self.print_progress_trusted(document, error, text, percentage)] *)
Definition print_progress_trusted (error : bool) (txt : string) (pct : float)
  : M unit :=
  fun w => (Normal tt, add_reports [mkReport error txt pct] w).

(** [log.info(msg)] *)
Definition log_info (msg : string) : M unit :=
  fun w => (Normal tt,
            mkWorld (clock w) (p_stdin w) (p_stdout w) (p_stderr w)
              (exit_status w) (waited w) (stdout_closed w) (stderr_closed w)
              (spawned w) (fs w) (progress w) (logged w ++ [msg])).

(** ** The framed reads *)

(** [read_bytes(f, size, timeout, exact=True)] *)
Definition read_bytes (f : fd) (size : Z) (timeout : float) (exact : bool)
  : M bytes :=
  buf <- nonblocking_read f size timeout ;;
  if exact && negb (len buf =? size)
  then raise (ValueError "Did not receive exact number of bytes")
  else ret buf.

(** [read_int(f, timeout)] *)
Definition read_int (f : fd) (timeout : float) : M Z :=
  untrusted_int <- read_bytes f 2 timeout true ;;
  ret (int_from_bytes untrusted_int).

(** [b.decode("ascii", errors="replace")]: a byte outside ASCII becomes
    U+FFFD, written here in UTF-8. *)
Definition decode_ascii_replace (b : bytes) : string :=
  fold_right
    (fun x acc =>
       if byte_val x <? 128
       then String (ascii_of_byte x) acc
       else String (ascii_of_byte xef)
              (String (ascii_of_byte xbf) (String (ascii_of_byte xbd) acc)))
    EmptyString b.

(** [read_debug_text(f, size)] *)
Definition read_debug_text (f : fd) (size : Z) : M string :=
  let timeout := calculate_timeout E (float_of_int size) None in
  untrusted_text <- read_bytes f size timeout false ;;
  ret (decode_ascii_replace untrusted_text).

(** ** The dev-mode sidecar *)

(** [Qubes.teleport_dz_module(wpipe)]; the archive comes from the
    environment, the two writes are the code's. *)
Definition teleport_dz_module : M unit :=
  let temp_file := dz_module_zip E in
  match int_to_bytes (len temp_file) 4 with
  | None => raise OverflowError
  | Some bufsize_bytes =>
      stdin_write bufsize_bytes ;;
      stdin_write temp_file
  end.

(** ** The session *)

(** [Stopwatch(timeout)] after [start()]. *)
Record Stopwatch : Type := mkStopwatch {
  sw_timeout : float;
  sw_start : float
}.

Definition Stopwatch_start (timeout : float) : M Stopwatch :=
  fun w => (Normal (mkStopwatch timeout (clock w)), w).

(** [sw.remaining] *)
Definition remaining (sw : Stopwatch) : M float :=
  fun w =>
    (Normal (Stopwatch_remaining E (sw_timeout sw) (sw_start sw) (clock w)), w).

Definition page_path (page : Z) (ext : string) : string :=
  String.append "/tmp/dangerzone/page-" (String.append (str page) ext).

(** Lines 72-112: reset the staging area, launch the worker and feed it. *)
Definition _convert_spawn (document : Document) : M unit :=
  fs_do (Rmtree out_dir) ;;
  fs_do (Mkdir out_dir) ;;
  fs_do (Remove CONVERTED_FILE_PATH) ;;
  if dangerzone_dev E then
    Popen ["/usr/bin/qrexec-client-vm"; "@dispvm:dz-dvm"; "dz.ConvertDev"] ;;
    teleport_dz_module ;;
    stdin_write (input_bytes document)
  else
    Popen ["/usr/bin/qrexec-client-vm"; "@dispvm:dz-dvm"; "dz.Convert"] ;;
    stdin_write (input_bytes document).

(** The body of [for page in range(1, n_pages + 1)], lines 140-161. *)
Definition _convert_page (n_pages : Z) (percentage_per_page : float)
  (sw : Stopwatch) (page : Z) (percentage : float) : M float :=
  t <- remaining sw ;;
  width <- read_int Stdout t ;;
  t <- remaining sw ;;
  height <- read_int Stdout t ;;
  t <- remaining sw ;;
  untrusted_pixels <- read_bytes Stdout (width * height * 3) t true ;;
  fs_do (WriteFile (page_path page ".width") (Text (str width))) ;;
  fs_do (WriteFile (page_path page ".height") (Text (str height))) ;;
  fs_do (WriteFile (page_path page ".rgb") (Binary untrusted_pixels)) ;;
  let percentage := (percentage + percentage_per_page)%float in
  let text :=
    String.append "Converting page "
      (String.append (str page)
         (String.append "/" (String.append (str n_pages) " to pixels"))) in
  print_progress_trusted false text percentage ;;
  ret percentage.

(** Lines 114-161: read the page count, then every page.  The value is the
    accumulated [percentage]. *)
Definition _convert_pixels (document : Document) (ocr_lang : option string)
  (percentage : float) : M float :=
  let size := (float_of_int (len (input_bytes document)) / 1048576)%float in
  let timeout := (calculate_timeout E size None + STARTUP_TIME_SECONDS)%float in
  n_pages <- try_except_ValueError
               (read_int Stdout timeout)
               (error_code <- p_wait ;;
                raise (exception_from_error_code E error_code)) ;;
  if n_pages =? 0 then return_ false else
  let percentage_per_page :=
    if truthy ocr_lang
    then (50 / float_of_int n_pages)%float
    else (100 / float_of_int n_pages)%float in
  let timeout := calculate_timeout E size (Some n_pages) in
  sw <- Stopwatch_start timeout ;;
  for_each (range 1 (n_pages + 1))
    (_convert_page n_pages percentage_per_page sw) percentage.

(** [asyncio.run(PixelsToPDF(progress_callback=...).convert(ocr_lang))] *)
Definition run_PixelsToPDF (ocr_lang : option string) : M unit :=
  fun w =>
    let '(reports, failure) := PixelsToPDF_convert E ocr_lang (fs w) in
    match failure with
    | Some e => (Raised e, add_reports reports w)
    | None => (Normal tt, add_reports reports w)
    end.

Definition newline : string := String (ascii_of_byte x0a) EmptyString.

(** Lines 163-193: close the stream, hand over to the PDF stage, finish. *)
Definition _convert_finish (document : Document) (ocr_lang : option string)
  (percentage : float) : M bool :=
  close Stdout ;;
  print_progress_trusted false "Converted document to pixels" percentage ;;
  (if dangerzone_dev E then
     untrusted_log <- read_debug_text Stderr (MAX_CONVERSION_LOG_CHARS E) ;;
     close Stderr ;;
     log_info
       (String.append "Conversion output (doc to pixels)"
          (String.append newline (sanitize_conversion_str E untrusted_log)))
   else ret tt) ;;
  run_PixelsToPDF ocr_lang ;;
  let percentage := 100%float in
  print_progress_trusted false "Safe PDF created" percentage ;;
  fs_do (Move CONVERTED_FILE_PATH (output_filename document)) ;;
  ret true.

(** A function call: [return v] inside the body is the call's value. *)
Definition call (body : M bool) : M bool :=
  fun w =>
    match body w with
    | (Returned v, w') => (Normal v, w')
    | r => r
    end.

(** [Qubes._convert(document, ocr_lang)] *)
Definition _convert (document : Document) (ocr_lang : option string) : M bool :=
  call (
    let percentage := 0%float in
    _convert_spawn document ;;
    percentage <- _convert_pixels document ocr_lang percentage ;;
    _convert_finish document ocr_lang percentage).

End Session.

(** ** The provider's other entry points *)

(** What [is_qubes_native_conversion] looks at: [running_on_qubes()],
    [getattr(sys, "dangerzone_dev", False)], [os.environ] and whether the
    file [get_resource_path(name)] exists. *)
Record host : Type := mkHost {
  running_on_qubes : bool;
  sys_dangerzone_dev : bool;
  environ : string -> option string;
  resource_exists : string -> bool
}.

(** [os.environ.get(key, default)] *)
Definition environ_get (h : host) (key default : string) : string :=
  match environ h key with
  | Some v => v
  | None => default
  end.

(** [is_qubes_native_conversion()] *)
Definition is_qubes_native_conversion (h : host) : bool :=
  if running_on_qubes h then
    if sys_dangerzone_dev h
    then String.eqb (environ_get h "QUBES_CONVERSION" "0") "1"
    else
      let compressed_container_path := "container.tar.gz" in
      negb (resource_exists h compressed_container_path)
  else false.

(** [Qubes.install()] *)
Definition install : bool := true.

(** [Qubes.get_max_parallel_conversions()] *)
Definition get_max_parallel_conversions : Z := 1.

(** * The vocabulary of the specification *)

(** The world after a read on [f] that took [k] bytes and blocked for [dt]. *)
Definition consume (f : fd) (k : nat) (dt : float) (w : world) : world :=
  set_stream f (skipn k (stream f w)) (advance dt w).

(** A worker that keeps up: whatever is pending and requested arrives in
    time. *)
Definition prompt (E : environment) : Prop :=
  forall (t0 : float) (pending : bytes) (size : Z) (timeout : float),
    (Z.to_nat size <= List.length pending)%nat ->
    (Z.to_nat size <= fst (pipe E t0 pending size timeout))%nat.

(** A page record: the header's two integers and the pixel buffer. *)
Record page : Type := mkPage {
  pg_width : Z;
  pg_height : Z;
  pg_pixels : bytes
}.

Definition well_formed (pg : page) : Prop :=
  0 <= pg_width pg <= 65535 /\ 0 <= pg_height pg <= 65535 /\
  len (pg_pixels pg) = pg_width pg * pg_height pg * 3.

(** The wire format of one page: two big-endian 16-bit integers, then the
    pixels. *)
Definition encode_page (pg : page) : bytes :=
  be_digits 2 (pg_width pg) ++ be_digits 2 (pg_height pg) ++ pg_pixels pg.

Definition encode_pages (pgs : list page) : bytes :=
  List.concat (map encode_page pgs).

(** [sum(width_i * height_i * 3)] *)
Definition pixel_bytes (pgs : list page) : Z :=
  fold_right (fun pg acc => pg_width pg * pg_height pg * 3 + acc) 0 pgs.

(** The wire format of a whole result: the page count, then the pages. *)
Definition encode_stream (n : Z) (pgs : list page) : bytes :=
  be_digits 2 n ++ encode_pages pgs.

(** The three files of page number [i]. *)
Definition page_files (i : Z) (pg : page) : list fs_op :=
  [ WriteFile (page_path i ".width") (Text (str (pg_width pg)));
    WriteFile (page_path i ".height") (Text (str (pg_height pg)));
    WriteFile (page_path i ".rgb") (Binary (pg_pixels pg)) ].

(** The files of consecutive pages, the first one numbered [i]. *)
Fixpoint staged (i : Z) (pgs : list page) : list fs_op :=
  match pgs with
  | [] => []
  | pg :: rest => page_files i pg ++ staged (i + 1) rest
  end.

(** The decimal numeral of an integer, as the staging convention writes page
    numbers and dimensions. *)
Definition decimal (z : Z) : string := NilZero.string_of_int (Z.to_int z).

(** The staging convention of the PDF-assembly stage: [page-<index>.<ext>] in
    the staging directory. *)
Definition page_file (index : Z) (ext : string) : string :=
  String.append "/tmp/dangerzone/page-"
    (String.append (decimal index) (String "." ext)).

(** What is persisted of the page with number [index]: its width, its height
    and its pixel buffer. *)
Definition persisted_page (index : Z) (pg : page) : list fs_op :=
  [ WriteFile (page_file index "width") (Text (decimal (pg_width pg)));
    WriteFile (page_file index "height") (Text (decimal (pg_height pg)));
    WriteFile (page_file index "rgb") (Binary (pg_pixels pg)) ].

(** Pages persisted in order, the first one with number [index]. *)
Fixpoint persisted (index : Z) (pgs : list page) : list fs_op :=
  match pgs with
  | [] => []
  | pg :: rest => persisted_page index pg ++ persisted (index + 1) rest
  end.

(** The report made after page [i] of [n]. *)
Definition page_report (n i : Z) (pct : float) : report :=
  mkReport false
    (String.append "Converting page "
       (String.append (str i)
          (String.append "/" (String.append (str n) " to pixels"))))
    pct.

(** The reports of [k] consecutive pages, the first one numbered [i], from
    the accumulated percentage [pct] and with the increment [inc]. *)
Fixpoint page_reports (n : Z) (inc : float) (i : Z) (pct : float) (k : nat)
  : list report :=
  match k with
  | O => []
  | S k' =>
      page_report n i (pct + inc)%float
      :: page_reports n inc (i + 1) (pct + inc)%float k'
  end.

(** [pct] after [k] more pages. *)
Fixpoint accumulate (inc : float) (pct : float) (k : nat) : float :=
  match k with
  | O => pct
  | S k' => accumulate inc (pct + inc)%float k'
  end.

(** The timeout of the page-count read. *)
Definition initial_timeout (E : environment) (document : Document) : float :=
  (calculate_timeout E (float_of_int (len (input_bytes document)) / 1048576) None
   + STARTUP_TIME_SECONDS)%float.

(** [percentage_per_page] for a page count [n]. *)
Definition increment (ocr_lang : option string) (n : Z) : float :=
  if truthy ocr_lang
  then (50 / float_of_int n)%float
  else (100 / float_of_int n)%float.

(** The page count at the front of the worker's output. *)
Definition page_count (w : world) : Z := int_from_bytes (firstn 2 (p_stdout w)).

(** What the session does to the staging area before it launches the
    worker. *)
Definition reset_ops : list fs_op :=
  [Rmtree out_dir; Mkdir out_dir; Remove CONVERTED_FILE_PATH].

(** What a dev-mode session sends ahead of the document. *)
Definition sidecar (zip : bytes) : bytes := be_digits 4 (len zip) ++ zip.

(** What the worker has been sent once it is launched. *)
Definition sent (E : environment) (document : Document) : bytes :=
  if dangerzone_dev E
  then sidecar (dz_module_zip E) ++ input_bytes document
  else input_bytes document.

(** The report made once the stream is consumed, and the last one. *)
Definition converted_report (pct : float) : report :=
  mkReport false "Converted document to pixels" pct.

Definition final_report : report := mkReport false "Safe PDF created" 100%float.

(** The budget of the page reads, recomputed from the input size and the page
    count [n]: [calculate_timeout(size, n_pages)]. *)
Definition page_budget (E : environment) (document : Document) (n : Z) : float :=
  calculate_timeout E (float_of_int (len (input_bytes document)) / 1048576)%float
    (Some n).

(** The timeout of the dev-mode read of the worker's stderr:
    [calculate_timeout(MAX_CONVERSION_LOG_CHARS)]. *)
Definition debug_timeout (E : environment) : float :=
  calculate_timeout E (float_of_int (MAX_CONVERSION_LOG_CHARS E)) None.

(** Modelled from the spec: the contract of the poll loop of [nonblocking_read]
    ([dangerzone/util.py], not among the sources).  FramedReader reads "within
    [timeout]": a read that starts at [t0] blocks for a time that is not
    negative and has returned by [t0 + timeout]; with a timeout that has run
    out (negative, or not a number) it returns at once. *)
Definition returns_in_time (E : environment) : Prop :=
  forall (t0 : float) (pending : bytes) (size : Z) (timeout : float),
    (0 <=? t0)%float = true ->
    (0 <=? snd (pipe E t0 pending size timeout))%float = true /\
    (t0 + snd (pipe E t0 pending size timeout) <=?
     (if (0 <=? timeout)%float then t0 + timeout else t0))%float = true.

(** Modelled from the spec: the contract of [Stopwatch.remaining]
    ([dangerzone/util.py], not among the sources).  TimeBudget is "an absolute
    deadline plus a remaining accessor": a read that starts at [now], before
    the deadline [start + timeout], and is given the remaining time as its
    timeout has a deadline of its own that is no later. *)
Definition remaining_is_time_left (E : environment) : Prop :=
  forall (timeout start now : float),
    (0 <=? now)%float = true ->
    (now <=? start + timeout)%float = true ->
    (0 <=? Stopwatch_remaining E timeout start now)%float = true ->
    (now + Stopwatch_remaining E timeout start now <=? start + timeout)%float = true.

(** At [t] the clock is past the start [s] of a stopwatch with the budget [T]
    and not past its deadline. *)
Definition within (T s t : float) : Prop :=
  (s <=? t)%float = true /\ (t <=? s + T)%float = true.

(** A computation that leaves the worker's stdin as it found it. *)
Definition keeps_stdin {A} (c : M A) : Prop :=
  forall w, p_stdin (snd (c w)) = p_stdin w.

(** Each percentage is at most the next one. *)
Fixpoint non_decreasing (l : list float) : bool :=
  match l with
  | x :: (y :: _) as rest => (x <=? y)%float && non_decreasing rest
  | _ => true
  end.

(** A binary64 number that is zero, positive or [+infinity]. *)
Definition SFnonneg (x : spec_float) : Prop :=
  match x with
  | S754_zero _ => True
  | S754_infinity s => s = false
  | S754_nan => False
  | S754_finite s _ _ => s = false
  end.

(** A binary64 number that is not a NaN and has its sign bit clear. *)
Definition SFunsigned (x : spec_float) : Prop :=
  match x with
  | S754_zero s => s = false
  | S754_infinity s => s = false
  | S754_nan => False
  | S754_finite s _ _ => s = false
  end.

(** ** The vocabulary of the further properties *)

(** A computation that leaves one component [proj] of the world as it found
    it. *)
Definition keeps {A B} (proj : world -> B) (c : M A) : Prop :=
  forall w, proj (snd (c w)) = proj w.

(** A component of the world that decoding pages does not touch: reading the
    worker's stdout, writing staging files, reporting progress. *)
Definition beyond_decoding {B} (proj : world -> B) : Prop :=
  (forall s dt w, proj (set_stream Stdout s (advance dt w)) = proj w) /\
  (forall op w, proj (add_op op w) = proj w) /\
  (forall rs w, proj (add_reports rs w) = proj w).

(** The command line of the worker. *)
Definition worker_argv (dev : bool) : list string :=
  ["/usr/bin/qrexec-client-vm"; "@dispvm:dz-dvm";
   if dev then "dz.ConvertDev" else "dz.Convert"].

(** The message a dev-mode session logs for the stderr bytes [b]. *)
Definition conversion_log (E : environment) (b : bytes) : string :=
  String.append "Conversion output (doc to pixels)"
    (String.append newline (sanitize_conversion_str E (decode_ascii_replace b))).


(** What is left of the worker's output cannot be a whole page: fewer than
    four bytes, or fewer bytes after the header than the header asks for. *)
Definition cut_short (tail : bytes) : bool :=
  (len tail <? 4)
  || (len tail - 4 <?
      int_from_bytes (firstn 2 tail) * int_from_bytes (firstn 2 (skipn 2 tail)) * 3).

(** The paths of the files that a list of operations writes, in order. *)
Definition written_paths (ops : list fs_op) : list string :=
  flat_map (fun op => match op with WriteFile path _ => [path] | _ => [] end) ops.

(** ** Concrete sessions *)

Module Scenario.

(** A worker that has already written everything it will ever write. *)
Definition keeps_up (t0 : float) (pending : bytes) (size : Z) (timeout : float)
  : nat * float :=
  (List.length pending, 0%float).

(** A ten-byte archive. *)
Definition ten_bytes : bytes := [x50; x4b; x03; x04; x14; x00; x00; x00; x08; x00].

(** An environment with a PDF stage that succeeds and reports nothing. *)
Definition env (dev : bool) : environment :=
  mkEnv (fun size pages => 60%float)
        (fun code => ConversionException code "the worker failed")
        (fun timeout start t => (timeout - (t - start))%float)
        keeps_up
        5000
        (fun s => s)
        (fun ocr_lang staged_files => ([], None))
        dev
        ten_bytes.

(** The world at the start of a session: the worker will write [out] and
    exit with [code]. *)
Definition fresh (out : bytes) (code : Z) : world :=
  mkWorld 0%float [] out [] code false false false [] [] [] [].

Definition doc : Document := mkDocument "in.pdf" "out.pdf" [x25; x50; x44; x46].

(** The world once the worker is launched (no dev mode). *)
Definition launched (out : bytes) (code : Z) : world :=
  snd (_convert_spawn (env false) doc (fresh out code)).

(** One page of 2 by 2 pixels. *)
Definition page_2x2 : page := mkPage 2 2 (repeat xff 12).

(** One page, 2 by 2, then a stray byte. *)
Definition one_page : bytes := encode_stream 1 [page_2x2] ++ [x07].

(** One page of 1 by 1 pixel. *)
Definition page_1x1 : page := mkPage 1 1 [x0a; x0b; x0c].

(** Two pages, 2 by 2 and 1 by 1, then a stray byte. *)
Definition two_pages : bytes := encode_stream 2 [page_2x2; page_1x1] ++ [x07].

(** Six pages of 1 by 1 pixel. *)
Definition six_pages : bytes := encode_stream 6 (repeat page_1x1 6).

(** A launched worker that has written one page and, on its stderr, [ok]
    and a byte outside ASCII. *)
Definition noisy : world :=
  mkWorld 0%float [] one_page [x6f; x6b; xff] 0 false false false [] [] [] [].

(** The second of two announced pages is cut off after two bytes. *)
Definition cut_off : bytes := encode_stream 2 [page_2x2] ++ [x00; x01].

(** A dev-mode environment whose archive has [2^32] bytes. *)
Definition env_huge : environment :=
  mkEnv (fun size pages => 60%float)
        (fun code => ConversionException code "the worker failed")
        (fun timeout start t => (timeout - (t - start))%float)
        keeps_up
        5000
        (fun s => s)
        (fun ocr_lang staged_files => ([], None))
        true
        (repeat x00 (Z.to_nat 4294967296)).

(** A Qubes host running a build that ships no container image. *)
Definition qubes_build : host :=
  mkHost true false (fun _ => None) (fun _ => false).

(** A Qubes host running a development build with [QUBES_CONVERSION=1]. *)
Definition qubes_dev : host :=
  mkHost true true
    (fun key => if String.eqb key "QUBES_CONVERSION" then Some "1" else None)
    (fun _ => true).

(** A worker that has written everything it will ever write, behind a pipe
    that waits: a read that finds fewer bytes than it asks for blocks until
    its timeout has run out. *)
Definition waits (t0 : float) (pending : bytes) (size : Z) (timeout : float)
  : nat * float :=
  (List.length pending,
   if size <=? len pending then 0%float
   else if (0 <=? timeout)%float then timeout else 0%float).

(** A dev-mode environment with that pipe: ten seconds for the pages of any
    document, one second (plus the startup allowance) for the count of a
    document under one MiB, a thousand seconds for anything larger; a
    stopwatch that gives the time left, and none if that would point past its
    deadline. *)
Definition env_timed : environment :=
  mkEnv (fun size pages =>
           match pages with
           | Some _ => 10%float
           | None => if (size <? 1)%float then 1%float else 1000%float
           end)
        (fun code => ConversionException code "the worker failed")
        (fun timeout start t =>
           if (t + (timeout - (t - start)) <=? start + timeout)%float
           then (timeout - (t - start))%float else 0%float)
        waits
        5000
        (fun s => s)
        (fun ocr_lang staged_files => ([], None))
        true
        Scenario.ten_bytes.

End Scenario.

(** * Properties *)

(** ** Integers and bytes *)

Lemma byte_val_range (b : byte) : 0 <= byte_val b < 256.
Proof.
  unfold byte_val. pose proof (Byte.to_N_bounded b). lia.
Qed.

Lemma byte_val_of_Z (z : Z) : byte_val (byte_of_Z z) = z mod 256.
Proof.
  unfold byte_of_Z, byte_val.
  pose proof (Z.mod_pos_bound z 256 ltac:(lia)) as Hm.
  destruct (Byte.of_N (Z.to_N (z mod 256))) as [b|] eqn:Hb.
  - apply Byte.to_of_N in Hb. rewrite Hb. lia.
  - apply Byte.of_N_None_iff in Hb. lia.
Qed.

Lemma int_from_bytes_snoc (b : bytes) (x : byte) :
  int_from_bytes (b ++ [x]) = int_from_bytes b * 256 + byte_val x.
Proof.
  unfold int_from_bytes. rewrite fold_left_app. reflexivity.
Qed.

Lemma int_from_bytes_two (b0 b1 : byte) :
  int_from_bytes [b0; b1] = 256 * byte_val b0 + byte_val b1.
Proof.
  unfold int_from_bytes. cbn [fold_left]. lia.
Qed.

Lemma int_from_bytes_bound (b : bytes) :
  0 <= int_from_bytes b < 256 ^ len b.
Proof.
  induction b as [|x b IH] using rev_ind.
  - unfold len. simpl. unfold int_from_bytes. simpl. lia.
  - rewrite int_from_bytes_snoc. unfold len in *.
    rewrite length_app. simpl List.length.
    replace (Z.of_nat (List.length b + 1)) with (Z.of_nat (List.length b) + 1) by lia.
    rewrite Z.pow_add_r by lia.
    pose proof (byte_val_range x). nia.
Qed.

Lemma be_digits_length (n : nat) (z : Z) : List.length (be_digits n z) = n.
Proof.
  revert z. induction n as [|n IH]; intro z; simpl.
  - reflexivity.
  - rewrite length_app, IH. simpl. lia.
Qed.

(** Decoding what [to_bytes] wrote gives the number back. *)
Lemma int_from_bytes_be_digits (n : nat) (z : Z) :
  0 <= z < 256 ^ Z.of_nat n -> int_from_bytes (be_digits n z) = z.
Proof.
  revert z. induction n as [|n IH]; intros z Hz.
  - simpl in *. unfold int_from_bytes. simpl. lia.
  - cbn [be_digits]. rewrite int_from_bytes_snoc, byte_val_of_Z.
    rewrite IH.
    + pose proof (Z.div_mod z 256 ltac:(lia)). lia.
    + replace (Z.of_nat (S n)) with (Z.of_nat n + 1) in Hz by lia.
      rewrite Z.pow_add_r in Hz by lia.
      split.
      * apply Z.div_pos; lia.
      * apply Z.div_lt_upper_bound; lia.
Qed.

(** Encoding what [from_bytes] read gives the bytes back. *)
Lemma be_digits_int_from_bytes (b : bytes) :
  be_digits (List.length b) (int_from_bytes b) = b.
Proof.
  induction b as [|x b IH] using rev_ind.
  - reflexivity.
  - rewrite length_app. simpl List.length.
    replace (List.length b + 1)%nat with (S (List.length b)) by lia.
    cbn [be_digits]. rewrite int_from_bytes_snoc.
    pose proof (byte_val_range x) as Hx.
    replace ((int_from_bytes b * 256 + byte_val x) / 256) with (int_from_bytes b).
    + rewrite IH. f_equal. f_equal.
      unfold byte_of_Z.
      replace ((int_from_bytes b * 256 + byte_val x) mod 256) with (byte_val x).
      * unfold byte_val. rewrite N2Z.id, Byte.of_to_N. reflexivity.
      * rewrite Z.add_comm, Z.mod_add by lia. rewrite Z.mod_small; lia.
    + rewrite Z.add_comm, Z.div_add by lia. rewrite Z.div_small; lia.
Qed.

(** ** Binary64 arithmetic on non-negative numbers *)

Lemma digits2_pos_bounds (p : positive) :
  2 ^ (Zpos (digits2_pos p) - 1) <= Zpos p < 2 ^ Zpos (digits2_pos p).
Proof.
  induction p as [p IH|p IH|]; cbn [digits2_pos].
  - rewrite Pos2Z.inj_succ.
    replace (Z.succ (Zpos (digits2_pos p)) - 1) with (Z.succ (Zpos (digits2_pos p) - 1)) by lia.
    rewrite !Z.pow_succ_r by lia. lia.
  - rewrite Pos2Z.inj_succ.
    replace (Z.succ (Zpos (digits2_pos p)) - 1) with (Z.succ (Zpos (digits2_pos p) - 1)) by lia.
    rewrite !Z.pow_succ_r by lia. lia.
  - cbn. lia.
Qed.

Lemma Zdigits2_bounds (m : Z) :
  0 < m -> 2 ^ (Zdigits2 m - 1) <= m < 2 ^ Zdigits2 m.
Proof.
  destruct m as [|p|p]; try lia. intros _. apply digits2_pos_bounds.
Qed.

Lemma Zdigits2_pos (m : Z) : 0 < m -> 0 < Zdigits2 m.
Proof. destruct m; cbn; lia. Qed.

(** The more a number weighs, the more digits it has. *)
Lemma Zdigits2_scaled_le (a m k : Z) :
  0 < a -> 0 <= k -> a * 2 ^ k <= m -> Zdigits2 a + k <= Zdigits2 m.
Proof.
  intros Ha Hk Hle.
  assert (Hm : 0 < m) by (pose proof (Z.pow_pos_nonneg 2 k); nia).
  pose proof (Zdigits2_bounds a Ha) as [Hlo _].
  pose proof (Zdigits2_bounds m Hm) as [_ Hhi].
  pose proof (Zdigits2_pos a Ha) as Hda.
  pose proof (Zdigits2_pos m Hm) as Hdm.
  assert (H : 2 ^ (Zdigits2 a - 1 + k) < 2 ^ Zdigits2 m).
  { rewrite Z.pow_add_r by lia. pose proof (Z.pow_pos_nonneg 2 k). nia. }
  apply Z.pow_lt_mono_r_iff in H; lia.
Qed.

Lemma shr_1_m (mrs : shr_record) :
  0 <= shr_m mrs -> shr_m (shr_1 mrs) = shr_m mrs / 2.
Proof.
  destruct mrs as [m r s]. cbn [shr_m]. intro Hm. unfold shr_1.
  destruct m as [|[p|p|]|p]; cbn [shr_m]; try lia.
  - reflexivity.
  - rewrite Pos2Z.inj_xI. apply Z.div_unique with 1; lia.
  - rewrite Pos2Z.inj_xO. apply Z.div_unique with 0; lia.
  - reflexivity.
Qed.

Lemma iter_shr_1_m (p : positive) :
  forall mrs, 0 <= shr_m mrs ->
              shr_m (iter_pos shr_1 p mrs) = shr_m mrs / 2 ^ Zpos p /\
              0 <= shr_m (iter_pos shr_1 p mrs).
Proof.
  assert (Hpow : forall q, 0 < 2 ^ Zpos q) by (intro; apply Z.pow_pos_nonneg; lia).
  induction p as [p IH|p IH|]; intros mrs Hm; cbn [iter_pos].
  - pose proof (shr_1_m mrs Hm) as E0.
    assert (N0 : 0 <= shr_m (shr_1 mrs)) by (rewrite E0; apply Z.div_pos; lia).
    destruct (IH _ N0) as [E1 N1]. destruct (IH _ N1) as [E2 N2].
    split; [|exact N2]. rewrite E2, E1, E0.
    rewrite !Z.div_div by (try apply Hpow; lia).
    f_equal. replace (Zpos p~1) with (Z.succ (2 * Zpos p)) by lia.
    rewrite Z.pow_succ_r, Z.pow_twice_r by lia. lia.
  - destruct (IH _ Hm) as [E1 N1]. destruct (IH _ N1) as [E2 N2].
    split; [|exact N2]. rewrite E2, E1.
    rewrite !Z.div_div by (try apply Hpow; lia).
    f_equal. replace (Zpos p~0) with (2 * Zpos p) by lia.
    rewrite Z.pow_twice_r. lia.
  - rewrite shr_1_m by assumption. split; [reflexivity|apply Z.div_pos; lia].
Qed.

(** Shifting right by [n] digits divides the mantissa by [2 ^ n]. *)
Lemma shr_m_e (mrs : shr_record) (e n : Z) :
  0 <= shr_m mrs ->
  shr_m (fst (shr mrs e n)) = shr_m mrs / 2 ^ Z.max 0 n /\
  snd (shr mrs e n) = e + Z.max 0 n.
Proof.
  intro Hm. unfold shr. destruct n as [|p|p]; cbn [fst snd Z.max Z.compare].
  - rewrite Z.div_1_r. lia.
  - destruct (iter_shr_1_m p mrs Hm) as [-> _]. split; [reflexivity|lia].
  - rewrite Z.div_1_r. lia.
Qed.

Lemma shr_record_of_loc_m (m : Z) (l : location) : shr_m (shr_record_of_loc m l) = m.
Proof. destruct l as [|[| |]]; reflexivity. Qed.

Lemma shr_fexp_m_e (m e : Z) (l : location) :
  0 <= m ->
  let n := Z.max 0 (fexp prec emax (Zdigits2 m + e) - e) in
  shr_m (fst (shr_fexp prec emax m e l)) = m / 2 ^ n /\
  snd (shr_fexp prec emax m e l) = e + n.
Proof.
  intros Hm n. unfold shr_fexp. subst n.
  pose proof (shr_m_e (shr_record_of_loc m l) e
                (fexp prec emax (Zdigits2 m + e) - e)) as H.
  rewrite shr_record_of_loc_m in H. exact (H Hm).
Qed.

Lemma round_nearest_even_ge (m : Z) (l : location) : m <= round_nearest_even m l.
Proof.
  destruct l as [|[| |]]; cbn; try lia. destruct (Z.even m); lia.
Qed.

Lemma fexp_ge_emin (k : Z) : emin <= fexp prec emax k.
Proof. unfold fexp. lia. Qed.

(** What rounding makes of a non-negative mantissa: never a NaN, the sign
    it was given, and at least the truncation of its argument. *)
Lemma binary_round_aux_spec (sx : bool) (mx ex : Z) (lx : location) :
  0 <= mx ->
  let n := Z.max 0 (fexp prec emax (Zdigits2 mx + ex) - ex) in
  match binary_round_aux prec emax sx mx ex lx with
  | S754_nan => False
  | S754_zero s => s = sx /\ mx / 2 ^ n = 0
  | S754_infinity s => s = sx
  | S754_finite s m e =>
      s = sx /\ ex + n <= e /\ (e = ex + n -> mx / 2 ^ n <= Zpos m)
  end.
Proof.
  intros Hmx n. unfold binary_round_aux.
  destruct (shr_fexp_m_e mx ex lx Hmx) as [Hm1 He1]. fold n in Hm1, He1.
  destruct (shr_fexp prec emax mx ex lx) as [mrs1 e1]. cbn [fst snd] in Hm1, He1.
  set (m1 := mx / 2 ^ n) in *.
  assert (Hm1nn : 0 <= m1) by (apply Z.div_pos; [lia|apply Z.pow_pos_nonneg; lia]).
  set (m2 := round_nearest_even (shr_m mrs1) (loc_of_shr_record mrs1)).
  assert (Hm2 : m1 <= m2) by (subst m2; rewrite <- Hm1; apply round_nearest_even_ge).
  destruct (shr_fexp_m_e m2 e1 loc_Exact ltac:(lia)) as [Hm3 He3].
  destruct (shr_fexp prec emax m2 e1 loc_Exact) as [mrs3 e3]. cbn [fst snd] in Hm3, He3.
  set (n' := Z.max 0 (fexp prec emax (Zdigits2 m2 + e1) - e1)) in *.
  assert (Hm3nn : 0 <= shr_m mrs3)
    by (rewrite Hm3; apply Z.div_pos; [lia|apply Z.pow_pos_nonneg; lia]).
  assert (Hpos : 0 < m1 -> 0 < shr_m mrs3).
  { intro Hp. rewrite Hm3.
    assert (Hm2p : 0 < m2) by lia.
    destruct (Z.eq_dec n' 0) as [Hn0|Hn0].
    - rewrite Hn0, Z.div_1_r. exact Hm2p.
    - pose proof (fexp_ge_emin (Zdigits2 mx + ex)) as Hemin.
      assert (He1min : emin <= e1) by lia.
      assert (Hn' : n' = Zdigits2 m2 - prec) by (unfold n', fexp in *; lia).
      pose proof (Zdigits2_bounds m2 Hm2p) as [Hlo _].
      assert (Hsplit : 2 ^ (Zdigits2 m2 - 1) = 2 ^ n' * 2 ^ (prec - 1)).
      { rewrite <- Z.pow_add_r by (unfold prec in *; lia). f_equal. lia. }
      assert (Hq : 2 ^ (prec - 1) <= m2 / 2 ^ n').
      { apply Z.div_le_lower_bound; [apply Z.pow_pos_nonneg; lia|lia]. }
      assert (0 < 2 ^ (prec - 1)) by (apply Z.pow_pos_nonneg; unfold prec; lia).
      lia. }
  destruct (shr_m mrs3) as [|m|m] eqn:Hm; [| |lia].
  - split; [reflexivity|]. destruct (Z.eq_dec m1 0); [assumption|].
    assert (0 < 0) by (apply Hpos; lia). lia.
  - destruct (e3 <=? emax - prec); [|reflexivity].
    split; [reflexivity|]. split; [lia|].
    intro He. assert (Hn0 : n' = 0) by lia.
    rewrite Hn0, Z.div_1_r in Hm3. lia.
Qed.

(** Aligning a mantissa to a smaller exponent multiplies it by a power of 2. *)
Lemma shl_align_fst (m : positive) (e e' : Z) :
  e' <= e -> Zpos (fst (shl_align m e e')) = Zpos m * 2 ^ (e - e').
Proof.
  intro Hle. unfold shl_align.
  destruct (e' - e) as [|d|d] eqn:Hd; cbn [fst]; try lia.
  - replace (e - e') with 0 by lia. lia.
  - replace (e - e') with (Zpos d) by lia. clear.
    induction d as [|d IH] using Pos.peano_ind.
    + change (Zpos m~0 = Zpos m * 2 ^ 1). rewrite Z.pow_1_r. lia.
    + rewrite Pos.iter_succ, Pos2Z.inj_xO, IH, Pos2Z.inj_succ, Z.pow_succ_r by lia. lia.
Qed.

Lemma shl_align_id (m : positive) (e e' : Z) :
  e <= e' -> shl_align m e e' = (m, e).
Proof.
  intro Hle. unfold shl_align. destruct (e' - e) eqn:Hd; try reflexivity. lia.
Qed.

(** The sum of two non-negative binary64 numbers is not below the first. *)
Lemma SF64add_finite_ge (mx my : positive) (ex ey : Z) :
  bounded prec emax mx ex = true ->
  match SF64add (S754_finite false mx ex) (S754_finite false my ey) with
  | S754_infinity s => s = false
  | S754_finite s m e => s = false /\ (ex < e \/ (ex = e /\ (mx <= m)%positive))
  | _ => False
  end.
Proof.
  intro Hb. unfold bounded, canonical_mantissa in Hb.
  apply andb_true_iff in Hb. destruct Hb as [Hcanon _]. apply Z.eqb_eq in Hcanon.
  unfold SF64add, SFadd. cbv zeta. cbn [cond_Zopp].
  set (ez := Z.min ex ey).
  rewrite !shl_align_fst by lia.
  assert (Hpx : 0 < 2 ^ (ex - ez)) by (apply Z.pow_pos_nonneg; lia).
  assert (Hpy : 0 < 2 ^ (ey - ez)) by (apply Z.pow_pos_nonneg; lia).
  destruct (Zpos mx * 2 ^ (ex - ez) + Zpos my * 2 ^ (ey - ez)) as [|m|m] eqn:Hsum; try nia.
  cbn [binary_normalize]. unfold binary_round.
  assert (Hle : Zpos mx * 2 ^ (ex - ez) <= Zpos m) by nia.
  pose proof (Zdigits2_scaled_le (Zpos mx) (Zpos m) (ex - ez) ltac:(lia) ltac:(lia) Hle) as Hd.
  cbn [Zdigits2] in Hd.
  assert (Hfexp : ex <= fexp prec emax (Zpos (digits2_pos m) + ez))
    by (unfold fexp in *; lia).
  rewrite shl_align_id by lia.
  pose proof (binary_round_aux_spec false (Zpos m) ez loc_Exact ltac:(lia)) as H.
  cbv zeta in H. cbn [Zdigits2] in H.
  set (n := Z.max 0 (fexp prec emax (Zpos (digits2_pos m) + ez) - ez)) in *.
  assert (Hn : ex - ez <= n) by lia.
  assert (Hpn : 0 < 2 ^ n) by (apply Z.pow_pos_nonneg; lia).
  assert (Hm1 : ex + 0 = ez + n -> Zpos mx <= Zpos m / 2 ^ n).
  { intro He. replace n with (ex - ez) by lia.
    apply Z.div_le_lower_bound; lia. }
  assert (Hm1pos : 0 < Zpos m / 2 ^ n).
  { apply Z.div_str_pos. split; [assumption|].
    destruct (Z.eq_dec n (ex - ez)) as [->|Hne]; [nia|].
    (* the exponent grew: the sum has more than [prec] digits *)
    assert (Hn' : n = Zpos (digits2_pos m) - prec).
    { unfold n, fexp in *. lia. }
    pose proof (digits2_pos_bounds m) as [Hlo _].
    assert (2 ^ n <= 2 ^ (Zpos (digits2_pos m) - 1))
      by (apply Z.pow_le_mono_r; unfold prec in *; lia).
    lia. }
  destruct (binary_round_aux prec emax false (Zpos m) ez loc_Exact) as [s|s| |s m' e'].
  - lia.
  - exact H.
  - exact H.
  - destruct H as (Hs & He & Hm). split; [exact Hs|].
    destruct (Z.eq_dec ex e') as [Heq|Hne]; [right|left; lia].
    split; [exact Heq|].
    assert (Zpos mx <= Zpos m') by (etransitivity; [apply Hm1|apply Hm]; lia).
    lia.
Qed.

Lemma SFnonneg_leb (x : spec_float) :
  SFleb (S754_zero false) x = true <-> SFnonneg x.
Proof.
  destruct x as [s|[|]| |[|] m e]; cbn; split; intro H;
    try reflexivity; try discriminate; try exact I; try contradiction.
Qed.

Lemma SFleb_refl_finite (m : positive) (e : Z) :
  SFleb (S754_finite false m e) (S754_finite false m e) = true.
Proof.
  unfold SFleb, SFcompare. rewrite Z.compare_refl, Pos.compare_cont_refl. reflexivity.
Qed.

Lemma SF64add_nonneg_ge (x y : spec_float) :
  valid_binary x = true -> SFnonneg x -> SFnonneg y ->
  SFnonneg (SF64add x y) /\ SFleb x (SF64add x y) = true.
Proof.
  intros Hv Hx Hy.
  destruct x as [sx|sx| |sx mx ex]; cbn in Hx; try contradiction;
    destruct y as [sy|sy| |sy my ey]; cbn in Hy; try contradiction; subst.
  - destruct sx, sy; cbn; auto.
  - cbn. auto.
  - cbn. auto.
  - cbn. auto.
  - cbn. auto.
  - cbn. auto.
  - split; [exact eq_refl|]. apply SFleb_refl_finite.
  - cbn. auto.
  - pose proof (SF64add_finite_ge mx my ex ey Hv) as H.
    destruct (SF64add (S754_finite false mx ex) (S754_finite false my ey))
      as [s|s| |s m e]; try contradiction.
    + subst s. split; reflexivity.
    + destruct H as (-> & He). split; [reflexivity|].
      unfold SFleb, SFcompare.
      destruct He as [Hlt|(<- & Hm)].
      * apply Z.compare_lt_iff in Hlt. rewrite Hlt. reflexivity.
      * rewrite Z.compare_refl. fold (Pos.compare mx m).
        destruct (Pos.compare mx m) eqn:Hc; try reflexivity.
        apply Pos.compare_gt_iff in Hc. lia.
Qed.

Lemma Prim2SF_zero : Prim2SF 0%float = S754_zero false.
Proof. reflexivity. Qed.

Lemma nonneg_Prim2SF (x : float) : (0 <=? x)%float = true <-> SFnonneg (Prim2SF x).
Proof. rewrite FloatAxioms.leb_spec, Prim2SF_zero. apply SFnonneg_leb. Qed.

(** Adding a non-negative number to a non-negative number does not make it
    smaller, and the sum is non-negative again. *)
Lemma add_nonneg_ge (x y : float) :
  (0 <=? x)%float = true -> (0 <=? y)%float = true ->
  (0 <=? x + y)%float = true /\ (x <=? x + y)%float = true.
Proof.
  rewrite !nonneg_Prim2SF, FloatAxioms.leb_spec, FloatAxioms.add_spec. intros Hx Hy.
  apply SF64add_nonneg_ge; [apply Prim2SF_valid|assumption|assumption].
Qed.

Lemma SFunsigned_nonneg (x : spec_float) : SFunsigned x -> SFnonneg x.
Proof. destruct x; cbn; auto. Qed.

Lemma binary_round_aux_unsigned (m e : Z) (l : location) :
  0 <= m -> SFunsigned (binary_round_aux prec emax false m e l).
Proof.
  intro Hm. pose proof (binary_round_aux_spec false m e l Hm) as H. cbv zeta in H.
  destruct (binary_round_aux prec emax false m e l); cbn; tauto.
Qed.

(** A positive number divided by one with a clear sign bit has a clear sign
    bit. *)
Lemma SF64div_unsigned (mx : positive) (ex : Z) (y : spec_float) :
  SFunsigned y -> SFunsigned (SF64div (S754_finite false mx ex) y).
Proof.
  intro Hy. destruct y as [sy|sy| |sy my ey]; cbn in Hy; try contradiction; subst.
  - reflexivity.
  - reflexivity.
  - unfold SF64div, SFdiv. cbn [xorb].
    unfold SFdiv_core_binary. cbv zeta.
    match goal with
    | |- context [Z.div_eucl ?a ?b] =>
        pose proof (Z_div_mod a b ltac:(lia)) as Hdm;
        assert (Ha : 0 <= a);
        [|destruct (Z.div_eucl a b) as [q r]]
    end.
    + match goal with
      | |- 0 <= match ?s with _ => _ end => destruct s eqn:Hs
      end; try lia. apply Z.shiftl_nonneg. lia.
    + apply binary_round_aux_unsigned. nia.
Qed.

(** The float of a 63-bit unsigned integer has a clear sign bit. *)
Lemma of_uint63_unsigned (i : int) : SFunsigned (Prim2SF (of_uint63 i)).
Proof.
  rewrite FloatAxioms.of_uint63_spec. pose proof (Uint63.to_Z_bounded i) as Hi.
  destruct (Uint63.to_Z i) as [|m|m]; try lia.
  - reflexivity.
  - cbn [binary_normalize]. unfold binary_round.
    destruct (shl_align m 0 _) as [mz ez].
    apply binary_round_aux_unsigned. lia.
Qed.

(** [c / float(i)] is non-negative for a positive constant [c]. *)
Lemma div_of_uint63_nonneg (c : float) (i : int) (m : positive) (e : Z) :
  Prim2SF c = S754_finite false m e ->
  (0 <=? c / of_uint63 i)%float = true.
Proof.
  intro Hc. rewrite nonneg_Prim2SF, FloatAxioms.div_spec, Hc.
  apply SFunsigned_nonneg, SF64div_unsigned, of_uint63_unsigned.
Qed.

Lemma Prim2SF_50 : Prim2SF 50%float = S754_finite false 7036874417766400 (-47).
Proof. reflexivity. Qed.

Lemma Prim2SF_100 : Prim2SF 100%float = S754_finite false 7036874417766400 (-46).
Proof. reflexivity. Qed.

(** *** The order of binary64 numbers *)

Lemma SFleb_finite_pos (m1 m2 : positive) (e1 e2 : Z) :
  SFleb (S754_finite false m1 e1) (S754_finite false m2 e2) = true <->
  (e1 < e2 \/ e1 = e2 /\ (m1 <= m2)%positive).
Proof.
  unfold SFleb, SFcompare. change (Pos.compare_cont Eq m1 m2) with (Pos.compare m1 m2).
  destruct (Z.compare_spec e1 e2); [destruct (Pos.compare_spec m1 m2)| |];
    split; intro H'; try reflexivity; try discriminate; lia.
Qed.

Lemma SFleb_finite_neg (m1 m2 : positive) (e1 e2 : Z) :
  SFleb (S754_finite true m1 e1) (S754_finite true m2 e2) = true <->
  (e2 < e1 \/ e1 = e2 /\ (m2 <= m1)%positive).
Proof.
  unfold SFleb, SFcompare. change (Pos.compare_cont Eq m1 m2) with (Pos.compare m1 m2).
  destruct (Z.compare_spec e1 e2); [destruct (Pos.compare_spec m1 m2)| |];
    cbn [CompOpp]; split; intro H'; try reflexivity; try discriminate; lia.
Qed.

Lemma SFleb_trans (x y z : spec_float) :
  SFleb x y = true -> SFleb y z = true -> SFleb x z = true.
Proof.
  destruct x as [sx|sx| |sx mx ex], y as [sy|sy| |sy my ey], z as [sz|sz| |sz mz ez];
    try (destruct sx); try (destruct sy); try (destruct sz);
    try reflexivity; try discriminate;
    try (intros _ H; exact H); try (intros H _; exact H);
    rewrite ?SFleb_finite_pos, ?SFleb_finite_neg; try lia;
    cbn; try discriminate; try reflexivity.
Qed.

Lemma leb_trans (x y z : float) :
  (x <=? y)%float = true -> (y <=? z)%float = true -> (x <=? z)%float = true.
Proof. rewrite !FloatAxioms.leb_spec. apply SFleb_trans. Qed.

Lemma add_zero_le (t : float) :
  (0 <=? t)%float = true -> (t + 0 <=? t)%float = true.
Proof.
  rewrite nonneg_Prim2SF, FloatAxioms.leb_spec, FloatAxioms.add_spec, Prim2SF_zero.
  destruct (Prim2SF t) as [s|s| |s m e]; cbn; intro H; try contradiction; subst.
  - destruct s; reflexivity.
  - reflexivity.
  - apply SFleb_refl_finite.
Qed.

(** ** Running the monad *)

Lemma bind_Normal {A B} (c : M A) (k : A -> M B) (w w1 : world) (a : A) :
  c w = (Normal a, w1) -> bind c k w = k a w1.
Proof. intro H. unfold bind. rewrite H. reflexivity. Qed.

Lemma bind_Raised {A B} (c : M A) (k : A -> M B) (w w1 : world) (e : exn) :
  c w = (Raised e, w1) -> bind c k w = (Raised e, w1).
Proof. intro H. unfold bind. rewrite H. reflexivity. Qed.

Lemma bind_Returned {A B} (c : M A) (k : A -> M B) (w w1 : world) (v : bool) :
  c w = (Returned v, w1) -> bind c k w = (Returned v, w1).
Proof. intro H. unfold bind. rewrite H. reflexivity. Qed.

Lemma range_nil (lo hi : Z) : hi <= lo -> range lo hi = [].
Proof.
  intro H. unfold range. replace (Z.to_nat (hi - lo)) with O by lia. reflexivity.
Qed.

Lemma range_cons (lo hi : Z) : lo < hi -> range lo hi = lo :: range (lo + 1) hi.
Proof.
  intro H. unfold range.
  replace (Z.to_nat (hi - lo)) with (S (Z.to_nat (hi - (lo + 1)))) by lia.
  cbn [seq map]. f_equal.
  - lia.
  - rewrite <- seq_shift, map_map. apply map_ext. intro i. lia.
Qed.

Section Reads.

Variable E : environment.

Lemma consume_fs f k dt w : fs (consume f k dt w) = fs w.
Proof. destruct f; reflexivity. Qed.

Lemma consume_progress f k dt w : progress (consume f k dt w) = progress w.
Proof. destruct f; reflexivity. Qed.

Lemma consume_exit_status f k dt w : exit_status (consume f k dt w) = exit_status w.
Proof. destruct f; reflexivity. Qed.

Lemma consume_stdout k dt w : p_stdout (consume Stdout k dt w) = skipn k (p_stdout w).
Proof. reflexivity. Qed.

Lemma add_op_fs op w : fs (add_op op w) = fs w ++ [op].
Proof. reflexivity. Qed.

Lemma add_op_progress op w : progress (add_op op w) = progress w.
Proof. reflexivity. Qed.

Lemma add_op_stdout op w : p_stdout (add_op op w) = p_stdout w.
Proof. reflexivity. Qed.

Lemma add_reports_fs rs w : fs (add_reports rs w) = fs w.
Proof. reflexivity. Qed.

Lemma add_reports_progress rs w : progress (add_reports rs w) = progress w ++ rs.
Proof. reflexivity. Qed.

Lemma add_reports_stdout rs w : p_stdout (add_reports rs w) = p_stdout w.
Proof. reflexivity. Qed.

(** The exact read, spelled out on the pipe's answer. *)
Lemma read_bytes_exact_run (f : fd) (size : Z) (timeout : float) (w : world) :
  read_bytes E f size timeout true w =
  let k := Nat.min (fst (pipe E (clock w) (stream f w) size timeout)) (Z.to_nat size) in
  let dt := snd (pipe E (clock w) (stream f w) size timeout) in
  if len (firstn k (stream f w)) =? size
  then (Normal (firstn k (stream f w)), consume f k dt w)
  else (Raised (ValueError "Did not receive exact number of bytes"), consume f k dt w).
Proof.
  unfold read_bytes, bind, nonblocking_read, consume.
  destruct (pipe E (clock w) (stream f w) size timeout) as [arrived dt].
  cbn [fst snd andb].
  destruct (len (firstn (Nat.min arrived (Z.to_nat size)) (stream f w)) =? size);
    reflexivity.
Qed.

(** Every outcome of an exact read: the first [size] bytes of the stream, or
    [ValueError] with the world untouched but for the stream and the clock. *)
Lemma read_bytes_exact_cases (f : fd) (size : Z) (timeout : float) (w : world) :
  (exists dt,
      0 <= size /\ size <= len (stream f w) /\
      read_bytes E f size timeout true w =
      (Normal (firstn (Z.to_nat size) (stream f w)), consume f (Z.to_nat size) dt w))
  \/ (exists k dt,
         read_bytes E f size timeout true w =
         (Raised (ValueError "Did not receive exact number of bytes"),
          consume f k dt w)).
Proof.
  rewrite read_bytes_exact_run. cbv zeta.
  set (k := Nat.min _ _). set (dt := snd _).
  destruct (len (firstn k (stream f w)) =? size) eqn:Hlen.
  - left. exists dt. apply Z.eqb_eq in Hlen. unfold len in *.
    rewrite length_firstn in Hlen.
    assert (Hk : k = Z.to_nat size) by (subst k; lia).
    rewrite Hk in *. repeat split; try lia.
  - right. exists k, dt. reflexivity.
Qed.

Lemma read_bytes_exact_prompt (f : fd) (size : Z) (timeout : float) (w : world) :
  prompt E -> 0 <= size <= len (stream f w) ->
  exists dt,
    read_bytes E f size timeout true w =
    (Normal (firstn (Z.to_nat size) (stream f w)), consume f (Z.to_nat size) dt w).
Proof.
  intros Hp Hsize. rewrite read_bytes_exact_run. cbv zeta.
  unfold len in Hsize.
  specialize (Hp (clock w) (stream f w) size timeout ltac:(lia)).
  set (dt := snd _). exists dt.
  replace (Nat.min _ _) with (Z.to_nat size) by lia.
  replace (len (firstn (Z.to_nat size) (stream f w)) =? size) with true.
  - reflexivity.
  - symmetry. apply Z.eqb_eq. unfold len. rewrite length_firstn. lia.
Qed.

(** [read_int] on top of the exact read. *)
Lemma read_int_run (f : fd) (timeout : float) (w : world) :
  read_int E f timeout w =
  match read_bytes E f 2 timeout true w with
  | (Normal buf, w') => (Normal (int_from_bytes buf), w')
  | (Returned v, w') => (Returned v, w')
  | (Raised e, w') => (Raised e, w')
  end.
Proof. reflexivity. Qed.

Lemma firstn_two_bound (s : bytes) :
  2 <= len s -> 0 <= int_from_bytes (firstn 2 s) <= 65535.
Proof.
  intro H. destruct s as [|b0 [|b1 s]]; unfold len in H; simpl in H; try lia.
  cbn [firstn]. rewrite int_from_bytes_two.
  pose proof (byte_val_range b0). pose proof (byte_val_range b1). lia.
Qed.

Lemma read_int_cases (f : fd) (timeout : float) (w : world) :
  (exists dt,
      2 <= len (stream f w) /\
      0 <= int_from_bytes (firstn 2 (stream f w)) <= 65535 /\
      read_int E f timeout w =
      (Normal (int_from_bytes (firstn 2 (stream f w))), consume f 2 dt w))
  \/ (exists k dt,
         read_int E f timeout w =
         (Raised (ValueError "Did not receive exact number of bytes"),
          consume f k dt w)).
Proof.
  rewrite read_int_run.
  destruct (read_bytes_exact_cases f 2 timeout w) as [(dt & _ & Hl & Hr)|(k & dt & Hr)];
    rewrite Hr.
  - left. exists dt. change (Z.to_nat 2) with 2%nat.
    repeat split; try apply firstn_two_bound; assumption.
  - right. exists k, dt. reflexivity.
Qed.

End Reads.

(** ** Pages on the wire and in the staging area *)

Section Pages.

Variable E : environment.

Lemma firstn_two_length (s : bytes) : 2 <= len s -> List.length (firstn 2 s) = 2%nat.
Proof. unfold len. intro H. rewrite length_firstn. lia. Qed.

Lemma be_digits_firstn_two (s : bytes) :
  2 <= len s -> be_digits 2 (int_from_bytes (firstn 2 s)) = firstn 2 s.
Proof.
  intro H. rewrite <- (firstn_two_length s H) at 1.
  apply be_digits_int_from_bytes.
Qed.

(** One turn of the loop, every outcome.  Either the three reads succeed: the
    page on the front of the stream is consumed, well formed, written to its
    three files and reported; or one of them is short: [ValueError], and
    nothing is written or reported. *)
Lemma _convert_page_cases (n_pages : Z) (inc : float) (sw : Stopwatch)
  (i : Z) (pct : float) (w : world) :
  (exists pg w',
      _convert_page E n_pages inc sw i pct w = (Normal (pct + inc)%float, w') /\
      well_formed pg /\
      p_stdout w = encode_page pg ++ p_stdout w' /\
      fs w' = fs w ++ page_files i pg /\
      progress w' = progress w ++ [page_report n_pages i (pct + inc)%float])
  \/ (exists w' consumed,
         _convert_page E n_pages inc sw i pct w =
         (Raised (ValueError "Did not receive exact number of bytes"), w') /\
         p_stdout w = consumed ++ p_stdout w' /\
         fs w' = fs w /\ progress w' = progress w).
Proof.
  cbv beta iota zeta delta [_convert_page bind remaining].
  cbn [stream].
  destruct (read_int_cases E Stdout (Stopwatch_remaining E (sw_timeout sw) (sw_start sw) (clock w)) w)
    as [(dt1 & Hl1 & Hv1 & Hr1)|(k & dt & Hr1)]; rewrite Hr1; cbv beta iota;
    cbn [stream] in *.
  2:{ right. exists (consume Stdout k dt w), (firstn k (p_stdout w)).
      rewrite consume_stdout, consume_fs, consume_progress.
      repeat split. symmetry. apply firstn_skipn. }
  set (w1 := consume Stdout 2 dt1 w).
  assert (Hs1 : p_stdout w1 = skipn 2 (p_stdout w)) by reflexivity.
  assert (Hf1 : fs w1 = fs w) by reflexivity.
  assert (Hp1 : progress w1 = progress w) by reflexivity.
  clearbody w1.
  destruct (read_int_cases E Stdout (Stopwatch_remaining E (sw_timeout sw) (sw_start sw) (clock w1)) w1)
    as [(dt2 & Hl2 & Hv2 & Hr2)|(k & dt & Hr2)]; rewrite Hr2; cbv beta iota;
    cbn [stream] in *; rewrite ?Hs1 in *.
  2:{ right. exists (consume Stdout k dt w1), (firstn 2 (p_stdout w) ++ firstn k (skipn 2 (p_stdout w))).
      rewrite consume_stdout, consume_fs, consume_progress, Hs1, Hf1, Hp1.
      repeat split.
      rewrite <- app_assoc, !firstn_skipn. reflexivity. }
  set (w2 := consume Stdout 2 dt2 w1).
  assert (Hs2 : p_stdout w2 = skipn 2 (skipn 2 (p_stdout w))) by (rewrite <- Hs1; reflexivity).
  assert (Hf2 : fs w2 = fs w) by (rewrite <- Hf1; reflexivity).
  assert (Hp2 : progress w2 = progress w) by (rewrite <- Hp1; reflexivity).
  clearbody w2.
  set (width := int_from_bytes (firstn 2 (p_stdout w))) in *.
  set (height := int_from_bytes (firstn 2 (skipn 2 (p_stdout w)))) in *.
  destruct (read_bytes_exact_cases E Stdout (width * height * 3)
              (Stopwatch_remaining E (sw_timeout sw) (sw_start sw) (clock w2)) w2)
    as [(dt3 & H0 & Hl3 & Hr3)|(k & dt & Hr3)]; rewrite Hr3; cbv beta iota.
  2:{ right. exists (consume Stdout k dt w2),
        (firstn 2 (p_stdout w) ++ firstn 2 (skipn 2 (p_stdout w)) ++ firstn k (skipn 2 (skipn 2 (p_stdout w)))).
      rewrite consume_stdout, consume_fs, consume_progress, Hs2, Hf2, Hp2.
      repeat split.
      rewrite <- !app_assoc. rewrite !firstn_skipn. reflexivity. }
  cbn [stream] in *. rewrite Hs2 in *.
  set (px := firstn (Z.to_nat (width * height * 3)) (skipn 2 (skipn 2 (p_stdout w)))).
  cbv beta iota delta [fs_do print_progress_trusted ret].
  left. exists (mkPage width height px).
  eexists. split; [reflexivity|].
  rewrite add_reports_stdout, add_reports_fs, add_reports_progress.
  rewrite !add_op_stdout, !add_op_fs, !add_op_progress.
  rewrite consume_stdout, consume_fs, consume_progress, Hs2, Hf2, Hp2.
  repeat split; cbn [pg_width pg_height pg_pixels]; try lia.
  - subst px. unfold len in *. rewrite length_firstn. lia.
  - unfold encode_page. cbn [pg_width pg_height pg_pixels].
    subst width height. rewrite !be_digits_firstn_two by assumption.
    subst px. rewrite <- !app_assoc.
    rewrite !firstn_skipn. reflexivity.
  - unfold page_files. cbn [pg_width pg_height pg_pixels].
    rewrite <- !app_assoc. reflexivity.
Qed.

Lemma encode_pages_cons (pg : page) (pgs : list page) :
  encode_pages (pg :: pgs) = encode_page pg ++ encode_pages pgs.
Proof. reflexivity. Qed.

(** The loop over [range(lo, hi)], every outcome: some pages [pgs] from the
    front of the stream were consumed whole, staged and reported, in order;
    the loop ends normally only when there is one for every index, and
    otherwise with the short read of the next one. *)
Lemma pages_loop_cases (n_pages : Z) (inc : float) (sw : Stopwatch) :
  forall (k : nat) (lo hi : Z) (pct : float) (w : world) (r : outcome float) (w' : world),
    Z.to_nat (hi - lo) = k ->
    for_each (range lo hi) (_convert_page E n_pages inc sw) pct w = (r, w') ->
    exists (pgs : list page) (tail : bytes),
      Forall well_formed pgs /\
      p_stdout w = encode_pages pgs ++ tail /\
      fs w' = fs w ++ staged lo pgs /\
      progress w' = progress w ++ page_reports n_pages inc lo pct (List.length pgs) /\
      match r with
      | Normal pct' =>
          List.length pgs = k /\ pct' = accumulate inc pct k /\ tail = p_stdout w'
      | Raised e =>
          e = ValueError "Did not receive exact number of bytes" /\
          (List.length pgs < k)%nat /\
          exists consumed, tail = consumed ++ p_stdout w'
      | Returned _ => False
      end.
Proof.
  induction k as [|k IH]; intros lo hi pct w r w' Hk Hrun.
  - rewrite range_nil in Hrun by lia. cbn in Hrun. inversion Hrun; subst.
    exists [], (p_stdout w'). cbn. rewrite !app_nil_r. repeat split. constructor.
  - rewrite range_cons in Hrun by lia. cbn [for_each] in Hrun.
    destruct (_convert_page_cases n_pages inc sw lo pct w)
      as [(pg & w1 & Hstep & Hwf & Hs & Hf & Hp)|(w1 & consumed & Hstep & Hs & Hf & Hp)].
    + rewrite (bind_Normal _ _ _ _ _ Hstep) in Hrun.
      destruct (IH (lo + 1) hi _ w1 r w' ltac:(lia) Hrun)
        as (pgs & tail & Hwfs & Hs' & Hf' & Hp' & Hr).
      exists (pg :: pgs), tail. repeat split.
      * constructor; assumption.
      * rewrite encode_pages_cons, <- app_assoc, <- Hs'. exact Hs.
      * rewrite Hf', Hf, <- app_assoc. reflexivity.
      * rewrite Hp', Hp, <- app_assoc. reflexivity.
      * destruct r as [pct'|v|e]; cbn [List.length accumulate].
        -- destruct Hr as (Hl & Hacc & Ht). repeat split; [lia|assumption|assumption].
        -- exact Hr.
        -- destruct Hr as (He & Hl & Hc). repeat split; [assumption|lia|assumption].
    + rewrite (bind_Raised _ _ _ _ _ Hstep) in Hrun. inversion Hrun; subst.
      exists [], (p_stdout w). cbn. rewrite !app_nil_r. repeat split.
      * constructor.
      * assumption.
      * assumption.
      * lia.
      * exists consumed. assumption.
Qed.

Lemma p_wait_run (w : world) :
  exists w1, p_wait w = (Normal (exit_status w), w1) /\
             waited w1 = true /\ fs w1 = fs w /\ progress w1 = progress w /\
             p_stdout w1 = p_stdout w /\ exit_status w1 = exit_status w.
Proof. eexists. split; [reflexivity|]. repeat split. Qed.

(** The pixel stage, every outcome. *)
Lemma _convert_pixels_cases (document : Document) (ocr_lang : option string)
  (pct : float) (w : world) (r : outcome float) (w' : world) :
  _convert_pixels E document ocr_lang pct w = (r, w') ->
  (* the page count is short: diagnosis from the exit code *)
  ((exists k dt,
       read_int E Stdout (initial_timeout E document) w =
       (Raised (ValueError "Did not receive exact number of bytes"),
        consume Stdout k dt w)) /\
   r = Raised (exception_from_error_code E (exit_status w)) /\
   waited w' = true /\ fs w' = fs w /\ progress w' = progress w)
  \/
  (* the page count is zero: [return False] *)
  (2 <= len (p_stdout w) /\ page_count w = 0 /\ r = Returned false /\
   p_stdout w' = skipn 2 (p_stdout w) /\ waited w' = waited w /\
   fs w' = fs w /\ progress w' = progress w)
  \/
  (* pages follow *)
  (2 <= len (p_stdout w) /\ 1 <= page_count w <= 65535 /\
   exists (pgs : list page) (tail : bytes),
     Forall well_formed pgs /\
     skipn 2 (p_stdout w) = encode_pages pgs ++ tail /\
     fs w' = fs w ++ staged 1 pgs /\
     progress w' =
     progress w ++
     page_reports (page_count w) (increment ocr_lang (page_count w)) 1 pct
       (List.length pgs) /\
     match r with
     | Normal pct' =>
         List.length pgs = Z.to_nat (page_count w) /\
         pct' = accumulate (increment ocr_lang (page_count w)) pct
                  (Z.to_nat (page_count w)) /\
         tail = p_stdout w'
     | Raised e =>
         e = ValueError "Did not receive exact number of bytes" /\
         (List.length pgs < Z.to_nat (page_count w))%nat /\
         exists consumed, tail = consumed ++ p_stdout w'
     | Returned _ => False
     end).
Proof.
  unfold _convert_pixels. fold (initial_timeout E document).
  cbv zeta. intro Hrun.
  destruct (read_int_cases E Stdout (initial_timeout E document) w)
    as [(dt & Hl & Hv & Hr)|(k & dt & Hr)]; cbn [stream] in *.
  - fold (page_count w) in Hv, Hr.
    erewrite bind_Normal in Hrun
      by (unfold try_except_ValueError; rewrite Hr; reflexivity).
    destruct (page_count w =? 0) eqn:Hz.
    + right; left. apply Z.eqb_eq in Hz. inversion Hrun; subst.
      repeat split; assumption.
    + right; right. apply Z.eqb_neq in Hz.
      split; [assumption|]. split; [lia|].
      unfold bind, Stopwatch_start in Hrun.
      apply (pages_loop_cases _ _ _ (Z.to_nat (page_count w))) in Hrun; [|lia].
      destruct Hrun as (pgs & tail & Hwf & Hs & Hf & Hp & Hres).
      exists pgs, tail. repeat split; assumption.
  - left. destruct (p_wait_run (consume Stdout k dt w))
      as (w1 & Hw & Hwaited & Hf & Hp & _ & He).
    erewrite bind_Raised in Hrun.
    2:{ unfold try_except_ValueError. rewrite Hr.
        erewrite bind_Normal by exact Hw. reflexivity. }
    inversion Hrun; subst.
    rewrite consume_fs in Hf. rewrite consume_progress in Hp.
    split; [exists k, dt; exact Hr|]. repeat split; assumption.
Qed.

Lemma teleport_dz_module_run (w : world) :
  (len (dz_module_zip E) < 256 ^ 4 /\
   exists w1,
     teleport_dz_module E w = (Normal tt, w1) /\
     p_stdin w1 = p_stdin w ++ sidecar (dz_module_zip E) /\
     fs w1 = fs w /\ progress w1 = progress w /\ p_stdout w1 = p_stdout w /\
     exit_status w1 = exit_status w /\ waited w1 = waited w)
  \/ (256 ^ 4 <= len (dz_module_zip E) /\
      teleport_dz_module E w = (Raised OverflowError, w)).
Proof.
  unfold teleport_dz_module, int_to_bytes.
  assert (H0 : 0 <= len (dz_module_zip E)) by (unfold len; lia).
  apply Z.leb_le in H0. rewrite H0. cbn [andb].
  change (Z.of_nat 4) with 4.
  destruct (len (dz_module_zip E) <? 256 ^ 4) eqn:Hlt.
  - left. apply Z.ltb_lt in Hlt. split; [assumption|].
    eexists. split; [reflexivity|]. cbn. unfold sidecar.
    rewrite <- app_assoc. repeat split.
  - right. apply Z.ltb_ge in Hlt. split; [assumption|reflexivity].
Qed.

Lemma _convert_spawn_cases (document : Document) (w : world) :
  (exists w1,
      _convert_spawn E document w = (Normal tt, w1) /\
      p_stdin w1 = p_stdin w ++ sent E document /\
      fs w1 = fs w ++ reset_ops /\ progress w1 = progress w /\
      p_stdout w1 = p_stdout w /\ exit_status w1 = exit_status w)
  \/ (dangerzone_dev E = true /\ 256 ^ 4 <= len (dz_module_zip E) /\
      exists w1,
        _convert_spawn E document w = (Raised OverflowError, w1) /\
        p_stdin w1 = p_stdin w /\
        fs w1 = fs w ++ reset_ops /\ progress w1 = progress w).
Proof.
  unfold _convert_spawn, sent.
  destruct (dangerzone_dev E) eqn:Hdev.
  - set (w0 := add_op (Remove CONVERTED_FILE_PATH)
                 (add_op (Mkdir out_dir) (add_op (Rmtree out_dir) w))).
    set (w0' := snd (Popen ["/usr/bin/qrexec-client-vm"; "@dispvm:dz-dvm"; "dz.ConvertDev"] w0)).
    destruct (teleport_dz_module_run w0')
      as [(Hlt & w1 & Hrun & Hin & Hf & Hp & Hs & He & _)|(Hge & Hrun)].
    + left. eexists. split.
      * cbv beta iota delta [bind fs_do Popen]. fold w0.
        cbv beta iota delta [Popen snd] in w0'. fold w0'.
        rewrite Hrun. reflexivity.
      * cbn. rewrite Hin, Hf, Hp, Hs, He. cbn.
        rewrite <- !app_assoc. repeat split.
    + right. split; [reflexivity|]. split; [assumption|].
      eexists. split.
      * cbv beta iota delta [bind fs_do Popen]. fold w0.
        cbv beta iota delta [Popen snd] in w0'. fold w0'.
        rewrite Hrun. reflexivity.
      * cbn. rewrite <- !app_assoc. repeat split.
  - left. eexists. split; [reflexivity|]. cbn.
    rewrite <- !app_assoc. repeat split.
Qed.

Lemma read_debug_text_run (f : fd) (size : Z) (w : world) :
  exists txt k dt,
    read_debug_text E f size w = (Normal txt, consume f k dt w).
Proof.
  unfold read_debug_text, read_bytes, bind, nonblocking_read.
  destruct (pipe E (clock w) (stream f w) size _) as [arrived dt].
  cbn [andb]. do 3 eexists. reflexivity.
Qed.

(** The last stage, every outcome: the stream-consumed report, the PDF
    stage's own reports, and on success the final report and the move. *)
Lemma _convert_finish_run (document : Document) (ocr_lang : option string)
  (pct : float) (w : world) :
  exists w',
    let pdf := PixelsToPDF_convert E ocr_lang (fs w) in
    _convert_finish E document ocr_lang pct w =
      (match snd pdf with None => Normal true | Some e => Raised e end, w') /\
    progress w' =
      progress w ++ [converted_report pct] ++ fst pdf ++
      match snd pdf with None => [final_report] | Some _ => [] end /\
    fs w' =
      fs w ++
      match snd pdf with
      | None => [Move CONVERTED_FILE_PATH (output_filename document)]
      | Some _ => []
      end /\
    stdout_closed w' = true /\ p_stdout w' = p_stdout w.
Proof.
  unfold _convert_finish.
  destruct (dangerzone_dev E).
  - destruct (read_debug_text_run Stderr (MAX_CONVERSION_LOG_CHARS E)
                (add_reports [converted_report pct] (set_closed Stdout w)))
      as (txt & k & dt & Hrd).
    cbv beta iota zeta delta [bind close print_progress_trusted].
    fold (converted_report pct). rewrite Hrd.
    cbv beta iota zeta delta [close log_info run_PixelsToPDF fs_do ret].
    cbn [fs consume set_stream advance set_closed add_reports stream].
    destruct (PixelsToPDF_convert E ocr_lang (fs w)) as [reports [e|]];
      eexists; (split; [reflexivity|]); cbn;
      rewrite <- ?app_assoc, ?app_nil_r; repeat split.
  - cbv beta iota zeta delta [bind close print_progress_trusted ret run_PixelsToPDF fs_do].
    cbn [fs set_closed add_reports].
    destruct (PixelsToPDF_convert E ocr_lang (fs w)) as [reports [e|]];
      eexists; (split; [reflexivity|]); cbn;
      rewrite <- ?app_assoc, ?app_nil_r; repeat split.
Qed.

(** *** Decoding is unambiguous *)

Lemma firstn_exact {A} (n : nat) (a b : list A) :
  List.length a = n -> firstn n (a ++ b) = a.
Proof.
  intros <-. rewrite firstn_app, Nat.sub_diag, firstn_all. cbn. apply app_nil_r.
Qed.

Lemma skipn_exact {A} (n : nat) (a b : list A) :
  List.length a = n -> skipn n (a ++ b) = b.
Proof.
  intros <-. rewrite skipn_app, Nat.sub_diag, skipn_all. reflexivity.
Qed.

Lemma app_inv_length {A} (a a' b b' : list A) :
  List.length a = List.length a' -> a ++ b = a' ++ b' -> a = a' /\ b = b'.
Proof.
  revert a'. induction a as [|x a IH]; intros [|x' a'] Hl H; simpl in *;
    try discriminate.
  - split; [reflexivity|assumption].
  - injection H as Hx H. injection Hl as Hl.
    destruct (IH a' Hl H) as [-> ->]. subst. split; reflexivity.
Qed.

Lemma be_digits_two_inj (a b : Z) :
  0 <= a <= 65535 -> 0 <= b <= 65535 -> be_digits 2 a = be_digits 2 b -> a = b.
Proof.
  intros Ha Hb H.
  rewrite <- (int_from_bytes_be_digits 2 a), <- (int_from_bytes_be_digits 2 b), H;
    [reflexivity| |]; change (256 ^ Z.of_nat 2) with 65536; lia.
Qed.

Lemma encode_page_inj (pg pg' : page) (t t' : bytes) :
  well_formed pg -> well_formed pg' ->
  encode_page pg ++ t = encode_page pg' ++ t' -> pg = pg' /\ t = t'.
Proof.
  intros (Hw & Hh & Hp) (Hw' & Hh' & Hp') H.
  destruct pg as [wd ht px], pg' as [wd' ht' px'].
  unfold encode_page in H. cbn [pg_width pg_height pg_pixels] in *.
  rewrite <- !app_assoc in H.
  apply app_inv_length in H; [|rewrite !be_digits_length; reflexivity].
  destruct H as [H1 H].
  apply app_inv_length in H; [|rewrite !be_digits_length; reflexivity].
  destruct H as [H2 H].
  apply be_digits_two_inj in H1; [|assumption..].
  apply be_digits_two_inj in H2; [|assumption..]. subst wd' ht'.
  apply app_inv_length in H; [|unfold len in *; lia].
  destruct H as [-> ->]. split; reflexivity.
Qed.

Lemma encode_pages_inj (pgs pgs' : list page) (t t' : bytes) :
  Forall well_formed pgs -> Forall well_formed pgs' ->
  List.length pgs = List.length pgs' ->
  encode_pages pgs ++ t = encode_pages pgs' ++ t' -> pgs = pgs' /\ t = t'.
Proof.
  revert pgs'. induction pgs as [|pg pgs IH]; intros [|pg' pgs'] Hwf Hwf' Hl H;
    simpl in Hl; try discriminate.
  - split; [reflexivity|exact H].
  - inversion Hwf; inversion Hwf'; subst.
    rewrite !encode_pages_cons, <- !app_assoc in H.
    apply encode_page_inj in H; [|assumption..].
    destruct H as [-> H].
    apply IH in H; [|assumption|assumption|lia].
    destruct H as [-> ->]. split; reflexivity.
Qed.

Lemma encode_pages_length (pgs : list page) :
  Forall well_formed pgs ->
  len (encode_pages pgs) = pixel_bytes pgs + 4 * len pgs.
Proof.
  induction 1 as [|pg pgs (Hw & Hh & Hp) Hwf IH].
  - reflexivity.
  - rewrite encode_pages_cons. unfold len in *. rewrite length_app.
    unfold encode_page. rewrite !length_app, !be_digits_length.
    cbn [pixel_bytes fold_right List.length]. fold (pixel_bytes pgs). lia.
Qed.

Lemma page_count_encode_stream (n : Z) (pgs : list page) (rest : bytes) (w : world) :
  0 <= n <= 65535 -> p_stdout w = encode_stream n pgs ++ rest ->
  2 <= len (p_stdout w) /\ page_count w = n /\
  skipn 2 (p_stdout w) = encode_pages pgs ++ rest.
Proof.
  intros Hn Hs. unfold page_count. rewrite Hs. unfold encode_stream.
  rewrite <- app_assoc.
  assert (Hl : List.length (be_digits 2 n) = 2%nat) by apply be_digits_length.
  split; [|split].
  - unfold len. rewrite length_app. lia.
  - rewrite (firstn_exact 2 _ _ Hl).
    apply int_from_bytes_be_digits. change (256 ^ Z.of_nat 2) with 65536. lia.
  - apply (skipn_exact 2 _ _ Hl).
Qed.

(** *** A worker that keeps up is decoded to the end *)

Lemma read_int_prompt (f : fd) (timeout : float) (w : world) :
  prompt E -> 2 <= len (stream f w) ->
  exists dt,
    read_int E f timeout w =
    (Normal (int_from_bytes (firstn 2 (stream f w))), consume f 2 dt w).
Proof.
  intros Hp Hl. rewrite read_int_run.
  destruct (read_bytes_exact_prompt E f 2 timeout w Hp ltac:(lia)) as (dt & Hr).
  rewrite Hr. exists dt. reflexivity.
Qed.

Lemma _convert_page_prompt (n_pages : Z) (inc : float) (sw : Stopwatch)
  (i : Z) (pct : float) (w : world) (pg : page) (tail : bytes) :
  prompt E -> well_formed pg -> p_stdout w = encode_page pg ++ tail ->
  exists w', _convert_page E n_pages inc sw i pct w = (Normal (pct + inc)%float, w').
Proof.
  intros Hprompt (Hw & Hh & Hpx) Hs.
  destruct pg as [wd ht px]. unfold encode_page in Hs.
  cbn [pg_width pg_height pg_pixels] in *.
  assert (Hl1 : List.length (be_digits 2 wd) = 2%nat) by apply be_digits_length.
  assert (Hl2 : List.length (be_digits 2 ht) = 2%nat) by apply be_digits_length.
  assert (H1 : firstn 2 (p_stdout w) = be_digits 2 wd).
  { rewrite Hs, <- !app_assoc. apply (firstn_exact 2 _ _ Hl1). }
  assert (H2 : skipn 2 (p_stdout w) = be_digits 2 ht ++ px ++ tail).
  { rewrite Hs, <- !app_assoc. apply (skipn_exact 2 _ _ Hl1). }
  assert (H3 : firstn 2 (skipn 2 (p_stdout w)) = be_digits 2 ht).
  { rewrite H2. apply (firstn_exact 2 _ _ Hl2). }
  assert (H4 : skipn 2 (skipn 2 (p_stdout w)) = px ++ tail).
  { rewrite H2. apply (skipn_exact 2 _ _ Hl2). }
  cbv beta iota zeta delta [_convert_page bind remaining].
  destruct (read_int_prompt Stdout
              (Stopwatch_remaining E (sw_timeout sw) (sw_start sw) (clock w)) w Hprompt)
    as (dt1 & Hr1).
  { cbn [stream]. rewrite Hs. unfold len. rewrite !length_app, Hl1. lia. }
  rewrite Hr1. cbv beta iota. cbn [stream]. rewrite H1.
  set (w1 := consume Stdout 2 dt1 w).
  assert (Hs1 : p_stdout w1 = skipn 2 (p_stdout w)) by reflexivity.
  clearbody w1.
  destruct (read_int_prompt Stdout
              (Stopwatch_remaining E (sw_timeout sw) (sw_start sw) (clock w1)) w1 Hprompt)
    as (dt2 & Hr2).
  { cbn [stream]. rewrite Hs1, H2. unfold len. rewrite !length_app, Hl2. lia. }
  rewrite Hr2. cbv beta iota. cbn [stream]. rewrite Hs1, H3.
  set (w2 := consume Stdout 2 dt2 w1).
  assert (Hs2 : p_stdout w2 = skipn 2 (skipn 2 (p_stdout w)))
    by (rewrite <- Hs1; reflexivity).
  clearbody w2.
  rewrite !int_from_bytes_be_digits
    by (change (256 ^ Z.of_nat 2) with 65536; lia).
  destruct (read_bytes_exact_prompt E Stdout (wd * ht * 3)
              (Stopwatch_remaining E (sw_timeout sw) (sw_start sw) (clock w2)) w2 Hprompt)
    as (dt3 & Hr3).
  { cbn [stream]. rewrite Hs2, H4. unfold len in *. rewrite length_app. lia. }
  rewrite Hr3. cbv beta iota.
  eexists. reflexivity.
Qed.

Lemma pages_loop_prompt (n_pages : Z) (inc : float) (sw : Stopwatch) :
  prompt E ->
  forall (pgs : list page) (lo hi : Z) (pct : float) (w : world) (tail : bytes),
    Forall well_formed pgs -> hi - lo = len pgs ->
    p_stdout w = encode_pages pgs ++ tail ->
    exists pct' w',
      for_each (range lo hi) (_convert_page E n_pages inc sw) pct w = (Normal pct', w').
Proof.
  intro Hprompt. induction pgs as [|pg pgs IH]; intros lo hi pct w tail Hwf Hl Hs.
  - unfold len in Hl. cbn in Hl. rewrite range_nil by lia.
    do 2 eexists. reflexivity.
  - unfold len in Hl. cbn [List.length] in Hl.
    rewrite range_cons by lia. cbn [for_each].
    inversion Hwf as [|? ? Hpg Hrest]; subst.
    rewrite encode_pages_cons, <- app_assoc in Hs.
    destruct (_convert_page_prompt n_pages inc sw lo pct w pg _ Hprompt Hpg Hs)
      as (w1 & Hstep).
    rewrite (bind_Normal _ _ _ _ _ Hstep).
    destruct (_convert_page_cases n_pages inc sw lo pct w)
      as [(pg' & w1' & Hstep' & Hwf' & Hs' & _)|(w1' & c & Hstep' & _)];
      rewrite Hstep in Hstep'; inversion Hstep'; subst w1'.
    rewrite Hs in Hs'. apply encode_page_inj in Hs'; [|assumption..].
    destruct Hs' as [_ Hs'].
    apply (IH (lo + 1) hi _ w1 tail Hrest); [unfold len; lia|].
    symmetry. exact Hs'.
Qed.

(** *** The whole session, every outcome *)

Lemma call_run (body : M bool) (w : world) :
  call body w =
  match body w with
  | (Returned v, w') => (Normal v, w')
  | r => r
  end.
Proof. reflexivity. Qed.

Lemma _convert_cases (document : Document) (ocr_lang : option string)
  (w : world) (r : outcome bool) (w' : world) :
  _convert E document ocr_lang w = (r, w') ->
  let n := page_count w in
  let inc := increment ocr_lang n in
  (* the sidecar does not fit its length prefix *)
  (dangerzone_dev E = true /\ 256 ^ 4 <= len (dz_module_zip E) /\
   r = Raised OverflowError /\
   fs w' = fs w ++ reset_ops /\ progress w' = progress w)
  \/
  (* the page count is short *)
  ((exists w1 k dt,
       _convert_spawn E document w = (Normal tt, w1) /\
       read_int E Stdout (initial_timeout E document) w1 =
       (Raised (ValueError "Did not receive exact number of bytes"),
        consume Stdout k dt w1)) /\
   r = Raised (exception_from_error_code E (exit_status w)) /\
   waited w' = true /\
   fs w' = fs w ++ reset_ops /\ progress w' = progress w)
  \/
  (* the page count is zero *)
  (2 <= len (p_stdout w) /\ n = 0 /\ r = Normal false /\
   fs w' = fs w ++ reset_ops /\ progress w' = progress w)
  \/
  (* a page is short *)
  (2 <= len (p_stdout w) /\ 1 <= n <= 65535 /\
   exists (pgs : list page) (tail : bytes),
     Forall well_formed pgs /\
     skipn 2 (p_stdout w) = encode_pages pgs ++ tail /\
     (List.length pgs < Z.to_nat n)%nat /\
     r = Raised (ValueError "Did not receive exact number of bytes") /\
     fs w' = fs w ++ reset_ops ++ staged 1 pgs /\
     progress w' = progress w ++ page_reports n inc 1 0 (List.length pgs))
  \/
  (* every page is decoded; the PDF stage decides the rest *)
  (2 <= len (p_stdout w) /\ 1 <= n <= 65535 /\
   exists (pgs : list page),
     let pdf := PixelsToPDF_convert E ocr_lang (fs w ++ reset_ops ++ staged 1 pgs) in
     Forall well_formed pgs /\
     skipn 2 (p_stdout w) = encode_pages pgs ++ p_stdout w' /\
     List.length pgs = Z.to_nat n /\
     r = match snd pdf with None => Normal true | Some e => Raised e end /\
     fs w' =
       fs w ++ reset_ops ++ staged 1 pgs ++
       match snd pdf with
       | None => [Move CONVERTED_FILE_PATH (output_filename document)]
       | Some _ => []
       end /\
     progress w' =
       progress w ++ page_reports n inc 1 0 (Z.to_nat n) ++
       [converted_report (accumulate inc 0 (Z.to_nat n))] ++ fst pdf ++
       match snd pdf with None => [final_report] | Some _ => [] end).
Proof.
  intros Hrun n inc. subst n inc.
  unfold _convert in Hrun. rewrite call_run in Hrun. cbv zeta in Hrun.
  destruct (_convert_spawn_cases document w)
    as [(w1 & Hsp & _ & Hf1 & Hp1 & Hs1 & He1)
       |(Hdev & Hbig & w1 & Hsp & _ & Hf1 & Hp1)].
  2:{ left. rewrite (bind_Raised _ _ _ _ _ Hsp) in Hrun. inversion Hrun; subst.
      repeat split; assumption. }
  right. rewrite (bind_Normal _ _ _ _ _ Hsp) in Hrun.
  assert (Hn : page_count w1 = page_count w) by (unfold page_count; rewrite Hs1; reflexivity).
  destruct (_convert_pixels E document ocr_lang 0%float w1) as [r2 w2] eqn:Hpx.
  destruct (_convert_pixels_cases document ocr_lang _ w1 r2 w2 Hpx)
    as [(Hshort & -> & Hw & Hf2 & Hp2)
       |[(Hl & Hz & -> & Hs2 & _ & Hf2 & Hp2)
        |(Hl & Hrange & pgs & tail & Hwf & Hs2 & Hf2 & Hp2 & Hres)]].
  - left. rewrite (bind_Raised _ _ _ _ _ Hpx) in Hrun. inversion Hrun; subst.
    destruct Hshort as (k & dt & Hshort).
    rewrite He1, Hf2, Hf1, Hp2, Hp1.
    split; [exists w1, k, dt; split; assumption|]. repeat split. assumption.
  - right; left. rewrite (bind_Returned _ _ _ _ _ Hpx) in Hrun.
    inversion Hrun; subst. rewrite <- Hs1, <- Hn, Hf2, Hf1, Hp2, Hp1.
    repeat split; assumption.
  - right; right. rewrite Hs1, Hn in *. rewrite Hf1 in Hf2. rewrite Hp1 in Hp2.
    rewrite <- app_assoc in Hf2.
    destruct r2 as [pct'|v|e].
    + right. destruct Hres as (Hlen & -> & ->).
      rewrite (bind_Normal _ _ _ _ _ Hpx) in Hrun.
      destruct (_convert_finish_run document ocr_lang
                  (accumulate (increment ocr_lang (page_count w)) 0
                     (Z.to_nat (page_count w))) w2)
        as (w3 & Hfin & Hp3 & Hf3 & _ & Hs3).
      cbv zeta in Hfin, Hp3, Hf3.
      rewrite Hfin in Hrun. rewrite Hf2 in *.
      split; [assumption|]. split; [assumption|].
      exists pgs. cbv zeta.
      destruct (snd (PixelsToPDF_convert E ocr_lang (fs w ++ reset_ops ++ staged 1 pgs)))
        as [e|]; inversion Hrun; subst;
        rewrite Hs3, Hf3, Hp3, Hp2, Hlen, <- ?app_assoc;
        repeat split; assumption.
    + destruct Hres.
    + left. destruct Hres as (-> & Hlen & _).
      rewrite (bind_Raised _ _ _ _ _ Hpx) in Hrun. inversion Hrun; subst.
      split; [assumption|]. split; [assumption|].
      exists pgs, tail. repeat split; assumption.
Qed.

(** *** Only the launch writes to the worker's input *)

Lemma keeps_ret {A} (a : A) : keeps_stdin (ret a).
Proof. intro w. reflexivity. Qed.

Lemma keeps_raise {A} (e : exn) : keeps_stdin (@raise A e).
Proof. intro w. reflexivity. Qed.

Lemma keeps_return_ {A} (v : bool) : keeps_stdin (@return_ A v).
Proof. intro w. reflexivity. Qed.

Lemma keeps_bind {A B} (c : M A) (k : A -> M B) :
  keeps_stdin c -> (forall a, keeps_stdin (k a)) -> keeps_stdin (bind c k).
Proof.
  intros Hc Hk w. unfold bind. specialize (Hc w).
  destruct (c w) as [[a|v|e] w1]; cbn [snd] in *.
  - rewrite Hk. exact Hc.
  - exact Hc.
  - exact Hc.
Qed.

Lemma keeps_try {A} (c h : M A) :
  keeps_stdin c -> keeps_stdin h -> keeps_stdin (try_except_ValueError c h).
Proof.
  intros Hc Hh w. unfold try_except_ValueError. specialize (Hc w).
  destruct (c w) as [[a|v|[m| | |]] w1]; cbn [snd] in *; try exact Hc.
  rewrite Hh. exact Hc.
Qed.

Lemma keeps_for_each {X A} (xs : list X) (body : X -> A -> M A) :
  (forall x a, keeps_stdin (body x a)) -> forall a, keeps_stdin (for_each xs body a).
Proof.
  intro Hb. induction xs as [|x xs IH]; intro a; cbn [for_each].
  - apply keeps_ret.
  - apply keeps_bind; [apply Hb|exact IH].
Qed.

Lemma keeps_if {A} (b : bool) (c d : M A) :
  keeps_stdin c -> keeps_stdin d -> keeps_stdin (if b then c else d).
Proof. destruct b; auto. Qed.

Lemma keeps_nonblocking_read f size timeout :
  keeps_stdin (nonblocking_read E f size timeout).
Proof.
  intro w. unfold nonblocking_read.
  destruct (pipe E (clock w) (stream f w) size timeout). destruct f; reflexivity.
Qed.

Lemma keeps_fs_do op : keeps_stdin (fs_do op).
Proof. intro w. reflexivity. Qed.

Lemma keeps_print_progress_trusted b t pct : keeps_stdin (print_progress_trusted b t pct).
Proof. intro w. reflexivity. Qed.

Lemma keeps_log_info msg : keeps_stdin (log_info msg).
Proof. intro w. reflexivity. Qed.

Lemma keeps_close f : keeps_stdin (close f).
Proof. intro w. destruct f; reflexivity. Qed.

Lemma keeps_p_wait : keeps_stdin p_wait.
Proof. intro w. reflexivity. Qed.

Lemma keeps_remaining sw : keeps_stdin (remaining E sw).
Proof. intro w. reflexivity. Qed.

Lemma keeps_Stopwatch_start t : keeps_stdin (Stopwatch_start t).
Proof. intro w. reflexivity. Qed.

Lemma keeps_run_PixelsToPDF ocr_lang : keeps_stdin (run_PixelsToPDF E ocr_lang).
Proof.
  intro w. unfold run_PixelsToPDF.
  destruct (PixelsToPDF_convert E ocr_lang (fs w)) as [reports [e|]]; reflexivity.
Qed.

Create HintDb frame.
#[local] Hint Resolve keeps_ret keeps_raise keeps_return_ keeps_nonblocking_read
  keeps_fs_do keeps_print_progress_trusted keeps_log_info keeps_close
  keeps_p_wait keeps_remaining keeps_Stopwatch_start keeps_run_PixelsToPDF : frame.
#[local] Hint Extern 2 (keeps_stdin (bind _ _)) => apply keeps_bind; [|intro] : frame.
#[local] Hint Extern 2 (keeps_stdin (if _ then _ else _)) => apply keeps_if : frame.
#[local] Hint Extern 2 (keeps_stdin (try_except_ValueError _ _)) => apply keeps_try : frame.
#[local] Hint Extern 2 (keeps_stdin (for_each _ _ _)) => apply keeps_for_each; intros : frame.

Lemma keeps_read_bytes f size timeout exact :
  keeps_stdin (read_bytes E f size timeout exact).
Proof. unfold read_bytes. auto 10 with frame. Qed.

Lemma keeps_read_int f timeout : keeps_stdin (read_int E f timeout).
Proof. unfold read_int. pose proof keeps_read_bytes. auto 10 with frame. Qed.

Lemma keeps__convert_page n inc sw i pct :
  keeps_stdin (_convert_page E n inc sw i pct).
Proof.
  unfold _convert_page.
  pose proof keeps_read_bytes. pose proof keeps_read_int. auto 30 with frame.
Qed.

Lemma keeps__convert_pixels document ocr_lang pct :
  keeps_stdin (_convert_pixels E document ocr_lang pct).
Proof.
  unfold _convert_pixels.
  pose proof keeps_read_int. pose proof keeps__convert_page. auto 30 with frame.
Qed.

Lemma keeps__convert_finish document ocr_lang pct :
  keeps_stdin (_convert_finish E document ocr_lang pct).
Proof.
  unfold _convert_finish, read_debug_text.
  pose proof keeps_read_bytes. auto 30 with frame.
Qed.

(** Whatever the outcome, the worker's input after the session is what the
    launch sent. *)
Lemma _convert_stdin (document : Document) (ocr_lang : option string) (w w1 : world) :
  _convert_spawn E document w = (Normal tt, w1) ->
  p_stdin (snd (_convert E document ocr_lang w)) = p_stdin w1.
Proof.
  intro Hsp. unfold _convert. rewrite call_run. cbv zeta.
  rewrite (bind_Normal _ _ _ _ _ Hsp).
  assert (H : keeps_stdin
                (bind (_convert_pixels E document ocr_lang 0%float)
                   (fun pct => _convert_finish E document ocr_lang pct))).
  { apply keeps_bind; [apply keeps__convert_pixels|intro; apply keeps__convert_finish]. }
  specialize (H w1). destruct (bind _ _ w1) as [[b|v|e] w2]; exact H.
Qed.

End Pages.

(** ** Progress over a session *)

Lemma leb_refl_nonneg (x : float) :
  (0 <=? x)%float = true -> (x <=? x)%float = true.
Proof.
  rewrite nonneg_Prim2SF, FloatAxioms.leb_spec.
  destruct (Prim2SF x) as [s|[|]| |[|] m e]; cbn; intro H;
    try reflexivity; try discriminate; try contradiction.
  apply SFleb_refl_finite.
Qed.

(** From a non-negative percentage and with a non-negative increment, the
    percentages after 1, 2, ... [k] pages, and the last of them once more,
    never go down. *)
Lemma accumulate_non_decreasing (inc : float) :
  (0 <=? inc)%float = true ->
  forall (k : nat) (pct : float),
    (0 <=? pct)%float = true ->
    non_decreasing
      (pct :: map (accumulate inc pct) (seq 1 k) ++ [accumulate inc pct k]) = true.
Proof.
  intro Hinc. induction k as [|k IH]; intros pct Hpct.
  - cbn. rewrite leb_refl_nonneg by assumption. reflexivity.
  - destruct (add_nonneg_ge pct inc Hpct Hinc) as [Hsum Hle].
    specialize (IH (pct + inc)%float Hsum).
    cbn [seq map app]. rewrite <- seq_shift, map_map.
    change (accumulate inc pct 1) with (pct + inc)%float.
    change (accumulate inc pct (S k)) with (accumulate inc (pct + inc)%float k).
    cbn [non_decreasing]. rewrite Hle. cbn [andb].
    erewrite map_ext; [exact IH|]. intro j. reflexivity.
Qed.

Lemma non_decreasing_tail (x : float) (l : list float) :
  non_decreasing (x :: l) = true -> non_decreasing l = true.
Proof.
  destruct l as [|y l]; [reflexivity|]. cbn [non_decreasing].
  intro H. apply andb_true_iff in H. tauto.
Qed.

Lemma non_decreasing_app_l (l l' : list float) :
  non_decreasing (l ++ l') = true -> non_decreasing l = true.
Proof.
  induction l as [|x [|y l] IH]; try reflexivity.
  cbn [app non_decreasing] in *. intro H.
  apply andb_true_iff in H. destruct H as [Hxy H].
  rewrite Hxy, IH by exact H. reflexivity.
Qed.

Lemma increment_nonneg (ocr_lang : option string) (n : Z) :
  (0 <=? increment ocr_lang n)%float = true.
Proof.
  unfold increment, float_of_int. destruct (truthy ocr_lang).
  - exact (div_of_uint63_nonneg _ _ _ _ Prim2SF_50).
  - exact (div_of_uint63_nonneg _ _ _ _ Prim2SF_100).
Qed.

(** ** The session, stage by stage *)

Section Stages.

Variable E : environment.

(** The session, stage by stage. *)
Lemma _convert_stages (document : Document) (ocr_lang : option string) (w : world) :
  _convert E document ocr_lang w =
  match _convert_spawn E document w with
  | (Normal _, w1) =>
      match _convert_pixels E document ocr_lang 0%float w1 with
      | (Normal pct, w2) => _convert_finish E document ocr_lang pct w2
      | (Returned v, w2) => (Normal v, w2)
      | (Raised e, w2) => (Raised e, w2)
      end
  | (Returned v, w1) => (Normal v, w1)
  | (Raised e, w1) => (Raised e, w1)
  end.
Proof.
  unfold _convert. rewrite call_run. cbv zeta. unfold bind at 1.
  destruct (_convert_spawn E document w) as [[[]|v|e] w1]; try reflexivity.
  unfold bind.
  destruct (_convert_pixels E document ocr_lang 0%float w1) as [[pct|v|e] w2];
    try reflexivity.
  destruct (_convert_finish_run E document ocr_lang pct w2) as (w3 & Hfin & _).
  cbv zeta in Hfin. rewrite Hfin.
  destruct (snd (PixelsToPDF_convert E ocr_lang (fs w2))); reflexivity.
Qed.

(** The launch, whatever its outcome: one process, with the service of the
    mode; nothing waited for, closed, logged or read. *)
Lemma _convert_spawn_resources (document : Document) (w : world) :
  let w1 := snd (_convert_spawn E document w) in
  spawned w1 = spawned w ++ [worker_argv (dangerzone_dev E)] /\
  waited w1 = waited w /\ stdout_closed w1 = stdout_closed w /\
  stderr_closed w1 = stderr_closed w /\ logged w1 = logged w /\
  p_stderr w1 = p_stderr w /\ p_stdout w1 = p_stdout w.
Proof.
  unfold _convert_spawn, worker_argv.
  destruct (dangerzone_dev E).
  - cbv beta iota zeta delta [bind fs_do Popen].
    set (w0 := mkWorld _ _ _ _ _ _ _ _ _ _ _ _).
    destruct (teleport_dz_module_run E w0)
      as [(_ & w1 & Hrun & _)|(_ & Hrun)]; rewrite Hrun.
    + unfold teleport_dz_module in Hrun.
      destruct (int_to_bytes (len (dz_module_zip E)) 4); [|discriminate].
      inversion Hrun; subst. cbn. repeat split.
    + cbn. repeat split.
  - cbn. repeat split.
Qed.

(** The last stage, whatever its outcome: nothing is launched or waited for;
    outside dev mode nothing is logged and stderr is left alone; in dev mode
    at most [MAX_CONVERSION_LOG_CHARS] bytes of stderr are read and logged,
    and stderr is closed. *)
Lemma _convert_finish_resources (document : Document) (ocr_lang : option string)
  (pct : float) (w : world) :
  let w' := snd (_convert_finish E document ocr_lang pct w) in
  spawned w' = spawned w /\ waited w' = waited w /\ p_stdin w' = p_stdin w /\
  if dangerzone_dev E
  then exists k, (k <= Z.to_nat (MAX_CONVERSION_LOG_CHARS E))%nat /\
                 logged w' = logged w ++ [conversion_log E (firstn k (p_stderr w))] /\
                 p_stderr w' = skipn k (p_stderr w) /\
                 stderr_closed w' = true
  else logged w' = logged w /\ p_stderr w' = p_stderr w /\
       stderr_closed w' = stderr_closed w.
Proof.
  unfold _convert_finish.
  destruct (dangerzone_dev E).
  - cbv beta iota zeta delta [bind close print_progress_trusted read_debug_text
                              read_bytes nonblocking_read].
    cbn [stream set_closed add_reports p_stderr clock].
    destruct (pipe E (clock w) (p_stderr w) (MAX_CONVERSION_LOG_CHARS E) _)
      as [arrived dt].
    cbn [andb].
    cbv beta iota zeta delta [ret close log_info run_PixelsToPDF fs_do].
    match goal with
    | |- context [PixelsToPDF_convert E ocr_lang ?x] =>
        destruct (PixelsToPDF_convert E ocr_lang x) as [reports [e|]]
    end;
      (split; [reflexivity|split; [reflexivity|split; [reflexivity|]]]);
      exists (Nat.min arrived (Z.to_nat (MAX_CONVERSION_LOG_CHARS E)));
      (split; [lia|split; [reflexivity|split; reflexivity]]).
  - cbv beta iota zeta delta [bind close print_progress_trusted ret run_PixelsToPDF fs_do].
    match goal with
    | |- context [PixelsToPDF_convert E ocr_lang ?x] =>
        destruct (PixelsToPDF_convert E ocr_lang x) as [reports [e|]]
    end; repeat split.
Qed.

End Stages.

(** ** The clock over a session *)

Section Budget.

Variable E : environment.
Hypothesis Hpipe : returns_in_time E.
Hypothesis Hremaining : remaining_is_time_left E.

Lemma read_bytes_clock (f : fd) (size : Z) (timeout : float) (exact : bool) (w : world) :
  clock (snd (read_bytes E f size timeout exact w)) =
  (clock w + snd (pipe E (clock w) (stream f w) size timeout))%float.
Proof.
  unfold read_bytes, bind, nonblocking_read.
  destruct (pipe E (clock w) (stream f w) size timeout) as [arrived dt].
  cbn [snd].
  destruct (exact && negb (len (firstn (Nat.min arrived (Z.to_nat size)) (stream f w)) =? size));
    destruct f; reflexivity.
Qed.

Lemma read_int_clock (f : fd) (timeout : float) (w : world) :
  clock (snd (read_int E f timeout w)) =
  (clock w + snd (pipe E (clock w) (stream f w) 2 timeout))%float.
Proof.
  rewrite read_int_run, <- (read_bytes_clock f 2 timeout true w).
  destruct (read_bytes E f 2 timeout true w) as [[buf|v|e] w']; reflexivity.
Qed.

(** A read never moves the clock back. *)
Lemma read_moves_on (t0 : float) (pending : bytes) (size : Z) (timeout : float) :
  (0 <=? t0)%float = true ->
  (0 <=? t0 + snd (pipe E t0 pending size timeout))%float = true /\
  (t0 <=? t0 + snd (pipe E t0 pending size timeout))%float = true.
Proof.
  intro H0. destruct (Hpipe t0 pending size timeout H0) as [Hdt _].
  apply add_nonneg_ge; assumption.
Qed.

(** The stopwatch of the pages: started at [s] with the budget [T]. *)
Variables (T s : float).
Hypothesis Hs : (0 <=? s)%float = true.

Lemma within_nonneg (t : float) : within T s t -> (0 <=? t)%float = true.
Proof. intros [H _]. exact (leb_trans _ _ _ Hs H). Qed.

(** A read that is given what remains of the budget returns by the deadline. *)
Lemma timed_read_within (pending : bytes) (size : Z) (t : float) :
  within T s t ->
  within T s (t + snd (pipe E t pending size (Stopwatch_remaining E T s t)))%float.
Proof.
  intros Hw. pose proof (within_nonneg t Hw) as H0. destruct Hw as [Hlo Hhi].
  destruct (read_moves_on t pending size (Stopwatch_remaining E T s t) H0) as [_ Hge].
  destruct (Hpipe t pending size (Stopwatch_remaining E T s t) H0) as [_ Hby].
  split; [exact (leb_trans _ _ _ Hlo Hge)|].
  destruct (0 <=? Stopwatch_remaining E T s t)%float eqn:Hr.
  - exact (leb_trans _ _ _ Hby (Hremaining T s t H0 Hhi Hr)).
  - exact (leb_trans _ _ _ Hby Hhi).
Qed.

Lemma _convert_page_within (n_pages : Z) (inc : float) (i : Z) (pct : float) (w : world) :
  within T s (clock w) ->
  within T s (clock (snd (_convert_page E n_pages inc (mkStopwatch T s) i pct w))).
Proof.
  intro Hw. unfold _convert_page.
  cbv beta iota zeta delta [bind remaining sw_timeout sw_start].
  pose proof (timed_read_within (stream Stdout w) 2 (clock w) Hw) as H1.
  rewrite <- read_int_clock in H1.
  destruct (read_int E Stdout (Stopwatch_remaining E T s (clock w)) w)
    as [[width|v|e] w1]; cbn [snd] in *; try exact H1.
  pose proof (timed_read_within (stream Stdout w1) 2 (clock w1) H1) as H2.
  rewrite <- read_int_clock in H2.
  destruct (read_int E Stdout (Stopwatch_remaining E T s (clock w1)) w1)
    as [[height|v|e] w2]; cbn [snd] in *; try exact H2.
  pose proof (timed_read_within (stream Stdout w2) (width * height * 3) (clock w2) H2) as H3.
  rewrite <- (read_bytes_clock Stdout _ _ true) in H3.
  destruct (read_bytes E Stdout (width * height * 3)
              (Stopwatch_remaining E T s (clock w2)) true w2)
    as [[px|v|e] w3]; cbn [snd] in *; exact H3.
Qed.

Lemma pages_loop_within (n_pages : Z) (inc : float) (pages : list Z) :
  forall (pct : float) (w : world),
    within T s (clock w) ->
    within T s (clock (snd (for_each pages (_convert_page E n_pages inc (mkStopwatch T s)) pct w))).
Proof.
  induction pages as [|i pages IH]; intros pct w Hw; [exact Hw|].
  cbn [for_each]. unfold bind.
  pose proof (_convert_page_within n_pages inc i pct w Hw) as H1.
  destruct (_convert_page E n_pages inc (mkStopwatch T s) i pct w) as [[pct'|v|e] w1];
    cbn [snd] in *; try exact H1.
  apply IH. exact H1.
Qed.

End Budget.

Lemma within_start (T s : float) :
  (0 <=? s)%float = true -> (0 <=? T)%float = true -> within T s s.
Proof.
  intros Hs HT. split; [apply leb_refl_nonneg; exact Hs|].
  apply add_nonneg_ge; assumption.
Qed.

Lemma _convert_spawn_clock (E : environment) (document : Document) (w : world) :
  clock (snd (_convert_spawn E document w)) = clock w.
Proof.
  unfold _convert_spawn.
  destruct (dangerzone_dev E).
  - cbv beta iota zeta delta [bind fs_do Popen].
    set (w0 := mkWorld _ _ _ _ _ _ _ _ _ _ _ _).
    destruct (teleport_dz_module_run E w0)
      as [(_ & w1 & Hrun & _)|(_ & Hrun)]; rewrite Hrun.
    + unfold teleport_dz_module in Hrun.
      destruct (int_to_bytes (len (dz_module_zip E)) 4); [|discriminate].
      inversion Hrun; subst. reflexivity.
    + reflexivity.
  - reflexivity.
Qed.

Lemma _convert_finish_clock (E : environment) (document : Document)
  (ocr_lang : option string) (pct : float) (w : world) :
  clock (snd (_convert_finish E document ocr_lang pct w)) =
  if dangerzone_dev E
  then (clock w +
        snd (pipe E (clock w) (p_stderr w) (MAX_CONVERSION_LOG_CHARS E)
               (debug_timeout E)))%float
  else clock w.
Proof.
  unfold _convert_finish, debug_timeout.
  destruct (dangerzone_dev E).
  - cbv beta iota zeta delta [bind close print_progress_trusted read_debug_text
                              read_bytes nonblocking_read].
    cbn [stream set_closed add_reports p_stderr clock].
    destruct (pipe E (clock w) (p_stderr w) (MAX_CONVERSION_LOG_CHARS E) _)
      as [arrived dt].
    cbn [andb snd].
    cbv beta iota zeta delta [ret close log_info run_PixelsToPDF fs_do].
    match goal with
    | |- context [PixelsToPDF_convert E ocr_lang ?x] =>
        destruct (PixelsToPDF_convert E ocr_lang x) as [reports [e|]]
    end; reflexivity.
  - cbv beta iota zeta delta [bind close print_progress_trusted ret run_PixelsToPDF fs_do].
    match goal with
    | |- context [PixelsToPDF_convert E ocr_lang ?x] =>
        destruct (PixelsToPDF_convert E ocr_lang x) as [reports [e|]]
    end; reflexivity.
Qed.

(** The pixel stage: the count read returns within the initial timeout, and
    from then on the clock stays within the budget of the pages. *)
Lemma _convert_pixels_clock (E : environment) (document : Document)
  (ocr_lang : option string) (pct : float) (w : world) :
  returns_in_time E -> remaining_is_time_left E ->
  (forall size pages, (0 <=? calculate_timeout E size pages)%float = true) ->
  (0 <=? clock w)%float = true ->
  exists started : float,
    (clock w <=? started)%float = true /\
    (started <=? clock w + initial_timeout E document)%float = true /\
    (0 <=? started)%float = true /\
    within (page_budget E document (page_count w)) started
      (clock (snd (_convert_pixels E document ocr_lang pct w))).
Proof.
  intros Hpipe Hrem Hto H0.
  set (t0 := initial_timeout E document).
  assert (Ht0 : (0 <=? t0)%float = true).
  { unfold t0, initial_timeout. apply add_nonneg_ge; [apply Hto|reflexivity]. }
  pose proof (read_int_clock E Stdout t0 w) as Hclk. cbn [stream] in Hclk.
  destruct (read_moves_on E Hpipe (clock w) (p_stdout w) 2 t0 H0) as [Hs0 Hge].
  destruct (Hpipe (clock w) (p_stdout w) 2 t0 H0) as [_ Hby]. rewrite Ht0 in Hby.
  exists (clock w + snd (pipe E (clock w) (p_stdout w) 2 t0))%float.
  split; [exact Hge|]. split; [exact Hby|]. split; [exact Hs0|].
  rewrite <- Hclk in *. clear Hge Hby.
  pose proof (within_start (page_budget E document (page_count w)) _ Hs0 (Hto _ _))
    as Hstart.
  unfold _convert_pixels. cbv zeta. fold (initial_timeout E document). fold t0.
  unfold bind at 1. unfold try_except_ValueError.
  destruct (read_int_cases E Stdout t0 w) as [(dt & _ & _ & Hr)|(k & dt & Hr)];
    rewrite Hr in *; cbn [snd stream] in *.
  - fold (page_count w).
    destruct (page_count w =? 0); [exact Hstart|].
    unfold bind, Stopwatch_start. fold (page_budget E document (page_count w)).
    apply (pages_loop_within E Hpipe Hrem); [exact Hs0|exact Hstart].
  - exact Hstart.
Qed.

(** ** The staging convention *)

(** The files the loop writes are the ones the staging convention names. *)
Lemma staged_persisted (i : Z) (pgs : list page) : staged i pgs = persisted i pgs.
Proof.
  revert i. induction pgs as [|pg pgs IH]; intro i; [reflexivity|].
  cbn [staged persisted]. rewrite IH. reflexivity.
Qed.

(** * The properties the specification states *)

(** C1.  For every page count [n >= 1] and every sequence of [n] well-formed
    page records on the worker's output, a decode that succeeds consumes
    exactly [sum(width_i * height_i * 3) + 2 + 4n] bytes of it, leaves what
    follows the last page unread, and persists exactly the [n] pages, in
    stream order: the files written are [page-1.width], [page-1.height],
    [page-1.rgb], then those of [page-2], and so on up to [page-n], each with
    the page's own dimensions (in decimal) and pixel buffer; and when the
    worker keeps up, the decode does succeed. *)
Theorem decode_consumes_exactly :
  forall (E : environment) (document : Document) (ocr_lang : option string)
         (pct : float) (w : world) (n : Z) (pgs : list page) (rest : bytes),
    1 <= n <= 65535 -> len pgs = n -> Forall well_formed pgs ->
    p_stdout w = encode_stream n pgs ++ rest ->
    (forall pct' w',
        _convert_pixels E document ocr_lang pct w = (Normal pct', w') ->
        len (p_stdout w) - len (p_stdout w') = pixel_bytes pgs + 2 + 4 * n /\
        p_stdout w' = rest /\
        fs w' = fs w ++ persisted 1 pgs)
    /\ (prompt E ->
        exists pct' w',
          _convert_pixels E document ocr_lang pct w = (Normal pct', w')).
Proof.
  intros E document ocr_lang pct w n pgs rest Hn Hlen Hwf Hs.
  destruct (page_count_encode_stream n pgs rest w ltac:(lia) Hs) as (Hl & Hcount & Hskip).
  split.
  - intros pct' w' Hrun.
    destruct (_convert_pixels_cases E document ocr_lang pct w _ _ Hrun)
      as [(_ & Hr & _)|[(_ & _ & Hr & _)
                       |(_ & _ & pgs' & tail & Hwf' & Hs' & Hf & _ & Hl' & _ & Ht)]];
      try discriminate.
    rewrite Hskip in Hs'. rewrite Hcount in Hl'.
    apply encode_pages_inj in Hs'; [|assumption|assumption|unfold len in Hlen; lia].
    destruct Hs' as [<- <-]. rewrite staged_persisted in Hf.
    split; [|split; [symmetry; assumption|assumption]].
    rewrite Hs, <- Ht. unfold len, encode_stream.
    rewrite !length_app, be_digits_length.
    pose proof (encode_pages_length pgs Hwf) as He. unfold len in *. lia.
  - intro Hprompt. unfold _convert_pixels. cbv zeta.
    destruct (read_int_prompt E Stdout (initial_timeout E document) w Hprompt Hl)
      as (dt & Hr).
    cbn [stream] in Hr. fold (page_count w) in Hr. rewrite Hcount in Hr.
    erewrite bind_Normal
      by (unfold try_except_ValueError; unfold initial_timeout in Hr; rewrite Hr; reflexivity).
    replace (n =? 0) with false by (symmetry; apply Z.eqb_neq; lia).
    unfold bind, Stopwatch_start.
    apply (pages_loop_prompt E _ _ _ Hprompt pgs 1 (n + 1) pct _ rest Hwf); [lia|].
    exact Hskip.
Qed.

(** C2 (the code departs from the specification).  When the decoded page count is 0,
    [_convert] returns [False]: no exception is raised, no progress is
    reported and nothing is staged; the failure has no name. *)
Theorem zero_pages_returns_false :
  forall (E : environment) (document : Document) (ocr_lang : option string)
         (w w1 w2 : world),
    _convert_spawn E document w = (Normal tt, w1) ->
    read_int E Stdout (initial_timeout E document) w1 = (Normal 0, w2) ->
    _convert E document ocr_lang w = (Normal false, w2).
Proof.
  intros E document ocr_lang w w1 w2 Hsp Hrd.
  unfold _convert. rewrite call_run. cbv zeta.
  rewrite (bind_Normal _ _ _ _ _ Hsp).
  unfold _convert_pixels. cbv zeta. unfold initial_timeout in Hrd.
  unfold bind at 1. unfold bind at 1. unfold try_except_ValueError. rewrite Hrd.
  reflexivity.
Qed.

(** C3.  Whenever the read of the 2-byte page count is short, the session
    waits for the worker's exit status and raises what
    [exception_from_error_code] makes of that exit code; the [ValueError] of
    the short read does not leave [_convert]. *)
Theorem short_page_count_is_diagnosed :
  forall (E : environment) (document : Document) (ocr_lang : option string)
         (w w1 w2 : world) (msg : string),
    _convert_spawn E document w = (Normal tt, w1) ->
    read_int E Stdout (initial_timeout E document) w1 = (Raised (ValueError msg), w2) ->
    exists w',
      _convert E document ocr_lang w =
      (Raised (exception_from_error_code E (exit_status w)), w') /\
      waited w' = true /\ progress w' = progress w.
Proof.
  intros E document ocr_lang w w1 w2 msg Hsp Hrd.
  destruct (_convert_spawn_cases E document w)
    as [(w1' & Hsp' & _ & _ & Hp1 & _ & He1)|(_ & _ & w1' & Hsp' & _)];
    rewrite Hsp in Hsp'; inversion Hsp'; subst w1'.
  destruct (read_int_cases E Stdout (initial_timeout E document) w1)
    as [(dt & _ & _ & Hr)|(k & dt & Hr)]; rewrite Hrd in Hr; inversion Hr; subst.
  eexists. split.
  - unfold _convert. rewrite call_run. cbv zeta.
    rewrite (bind_Normal _ _ _ _ _ Hsp).
    unfold _convert_pixels. cbv zeta. unfold initial_timeout in Hrd.
    unfold bind at 1. unfold bind at 1. unfold try_except_ValueError. rewrite Hrd.
    replace (exit_status w) with (exit_status (consume Stdout k dt w1))
      by (rewrite consume_exit_status; exact He1).
    reflexivity.
  - split; [reflexivity|]. rewrite <- Hp1. reflexivity.
Qed.



(** C5.  Whatever the outcome of a session, the files it has written to the
    staging area are those of whole pages only, numbered from 1 and in stream
    order: each [page-i.rgb] holds exactly [width * height * 3] bytes for the
    width and height written beside it, taken verbatim from the worker's
    output; a page whose buffer came short has none of its three files
    written.  A session that returns [True] has staged every page. *)
Theorem staged_pages_are_complete :
  forall (E : environment) (document : Document) (ocr_lang : option string)
         (w : world),
    exists (pgs : list page) (before after : bytes) (last : list fs_op),
      fs (snd (_convert E document ocr_lang w)) =
        fs w ++ reset_ops ++ staged 1 pgs ++ last /\
      (last = [] \/ last = [Move CONVERTED_FILE_PATH (output_filename document)]) /\
      Forall (fun pg => len (pg_pixels pg) = pg_width pg * pg_height pg * 3) pgs /\
      p_stdout w = before ++ encode_pages pgs ++ after /\
      match fst (_convert E document ocr_lang w) with
      | Normal true => len pgs = page_count w
      | _ => len pgs <= page_count w
      end.
Proof.
  intros E document ocr_lang w.
  destruct (_convert E document ocr_lang w) as [r w'] eqn:Hrun. cbn [fst snd].
  assert (Hweak : forall pgs, Forall well_formed pgs ->
            Forall (fun pg => len (pg_pixels pg) = pg_width pg * pg_height pg * 3) pgs).
  { intros pgs H. eapply Forall_impl; [|exact H]. intros pg (_ & _ & Hp). exact Hp. }
  assert (Hpc : 0 <= page_count w).
  { unfold page_count. apply int_from_bytes_bound. }
  destruct (_convert_cases E document ocr_lang w r w' Hrun)
    as [(_ & _ & -> & Hf & _)
       |[(_ & -> & _ & Hf & _)
        |[(_ & _ & -> & Hf & _)
         |[(Hl & Hn & pgs & tail & Hwf & Hs & Hlt & -> & Hf & _)
          |(Hl & Hn & pgs & Hwf & Hs & Hlen & -> & Hf & _)]]]].
  - exists [], (p_stdout w), [], []. cbn. rewrite !app_nil_r.
    repeat split; try assumption; auto.
  - exists [], (p_stdout w), [], []. cbn. rewrite !app_nil_r.
    repeat split; try assumption; auto.
  - exists [], (p_stdout w), [], []. cbn. rewrite !app_nil_r.
    repeat split; try assumption; auto.
  - exists pgs, (firstn 2 (p_stdout w)), tail, []. rewrite app_nil_r.
    repeat split; auto.
    + rewrite <- Hs. symmetry. apply firstn_skipn.
    + unfold len. lia.
  - cbv zeta in Hf.
    exists pgs, (firstn 2 (p_stdout w)), (p_stdout w').
    eexists. split; [exact Hf|].
    split; [destruct (snd (PixelsToPDF_convert E ocr_lang _)); auto|].
    split; [auto|]. split.
    + rewrite <- Hs. symmetry. apply firstn_skipn.
    + destruct (snd (PixelsToPDF_convert E ocr_lang _)); unfold len; lia.
Qed.

Lemma accumulate_S (inc pct : float) (k : nat) :
  accumulate inc pct (S k) = (accumulate inc pct k + inc)%float.
Proof.
  revert pct. induction k as [|k IH]; intro pct.
  - reflexivity.
  - change (accumulate inc pct (S (S k))) with (accumulate inc (pct + inc)%float (S k)).
    rewrite IH. reflexivity.
Qed.

Lemma page_reports_percentages (n : Z) (inc : float) (i : Z) (pct : float) (k : nat) :
  map percentage (page_reports n inc i pct k) = map (accumulate inc pct) (seq 1 k).
Proof.
  revert i pct. induction k as [|k IH]; intros i pct.
  - reflexivity.
  - cbn [page_reports map seq percentage page_report]. f_equal.
    rewrite IH, <- (seq_shift k 1), map_map. reflexivity.
Qed.

(** C7.  For every decoded page count [n >= 1] the per-page increment is
    [50.0 / n] when the caller gave an OCR language (a non-empty string) and
    [100.0 / n] otherwise (no language, or the empty string), and the report
    made after the [j]-th decoded page carries the starting percentage
    advanced [j] times by this increment, one floating-point addition per
    page; a pixel stage that ends normally has reported all [n] pages. *)
Theorem page_progress_increment :
  forall (E : environment) (document : Document) (ocr_lang : option string)
         (pct : float) (w w1 : world) (n : Z),
    read_int E Stdout (initial_timeout E document) w = (Normal n, w1) ->
    1 <= n ->
    let inc := match ocr_lang with
               | Some (String _ _) => (50 / float_of_int n)%float
               | Some EmptyString | None => (100 / float_of_int n)%float
               end in
    let run := _convert_pixels E document ocr_lang pct w in
    exists reports : list report,
      progress (snd run) = progress w ++ reports /\
      (List.length reports <= Z.to_nat n)%nat /\
      map percentage reports =
        map (accumulate inc pct) (seq 1 (List.length reports)) /\
      (forall j, accumulate inc pct (S j) = (accumulate inc pct j + inc)%float) /\
      match fst run with
      | Normal pct' =>
          List.length reports = Z.to_nat n /\ pct' = accumulate inc pct (Z.to_nat n)
      | Returned _ => False
      | Raised _ => True
      end.
Proof.
  intros E document ocr_lang pct w w1 n Hrd Hn inc run. subst run.
  destruct (read_int_cases E Stdout (initial_timeout E document) w)
    as [(dt & Hl & _ & Hr)|(k & dt & Hr)]; rewrite Hrd in Hr; [|discriminate].
  cbn [stream] in Hr.
  assert (Hcount : n = page_count w) by (unfold page_count; congruence).
  clear Hr.
  destruct (_convert_pixels E document ocr_lang pct w) as [r w'] eqn:Hrun.
  cbn [fst snd].
  destruct (_convert_pixels_cases E document ocr_lang pct w r w' Hrun)
    as [((k & dt' & Hshort) & _)
       |[(_ & Hz & _)
        |(_ & _ & pgs & tail & _ & _ & _ & Hp & Hres)]].
  - rewrite Hrd in Hshort. discriminate.
  - lia.
  - rewrite <- Hcount in *.
    assert (Hinc : increment ocr_lang n = inc)
      by (subst inc; destruct ocr_lang as [[|c lang]|]; reflexivity).
    rewrite Hinc in *.
    exists (page_reports n inc 1 pct (List.length pgs)).
    assert (Hk : List.length (page_reports n inc 1 pct (List.length pgs))
                 = List.length pgs).
    { rewrite <- (length_map percentage), page_reports_percentages,
        length_map, length_seq. reflexivity. }
    rewrite Hk. split; [exact Hp|].
    split; [destruct r; [destruct Hres as (-> & _)|destruct Hres|destruct Hres as (_ & ? & _)]; lia|].
    split; [apply page_reports_percentages|].
    split; [intro j; apply accumulate_S|].
    destruct r as [pct'|v|e]; [|exact Hres|exact I].
    destruct Hres as (Hlen & Hacc & _). split; congruence.
Qed.

(** C9.  In a dev-mode session whose archive fits a 4-byte length, what the
    worker receives on its input is: the length of the archive as 4 bytes,
    unsigned and big-endian, then the archive, then the document, and nothing
    else, whatever the outcome of the session.  For an archive of 10 bytes
    the prefix is [0, 0, 0, 10]. *)
Theorem dev_mode_input_stream :
  forall (E : environment) (document : Document) (ocr_lang : option string)
         (w : world),
    dangerzone_dev E = true ->
    len (dz_module_zip E) < 2 ^ 32 ->
    let prefix := be_digits 4 (len (dz_module_zip E)) in
    p_stdin (snd (_convert E document ocr_lang w)) =
      p_stdin w ++ prefix ++ dz_module_zip E ++ input_bytes document
    /\ int_to_bytes (len (dz_module_zip E)) 4 = Some prefix
    /\ len prefix = 4
    /\ int_from_bytes prefix = len (dz_module_zip E)
    /\ (len (dz_module_zip E) = 10 -> prefix = [x00; x00; x00; x0a]).
Proof.
  intros E document ocr_lang w Hdev Hfit prefix. subst prefix.
  assert (H0 : 0 <= len (dz_module_zip E)) by (unfold len; lia).
  change (2 ^ 32) with (256 ^ 4) in Hfit.
  split; [|split; [|split; [|split]]].
  - destruct (_convert_spawn_cases E document w)
      as [(w1 & Hsp & Hin & _)|(_ & Hbig & _)]; [|lia].
    rewrite (_convert_stdin E document ocr_lang w w1 Hsp), Hin.
    unfold sent, sidecar. rewrite Hdev, <- app_assoc. reflexivity.
  - unfold int_to_bytes. change (Z.of_nat 4) with 4.
    apply Z.leb_le in H0. apply Z.ltb_lt in Hfit. rewrite H0, Hfit. reflexivity.
  - unfold len at 1. rewrite be_digits_length. reflexivity.
  - apply int_from_bytes_be_digits. change (Z.of_nat 4) with 4. lia.
  - intros ->. reflexivity.
Qed.

Lemma read_bytes_zero (E : environment) (f : fd) (timeout : float) (w : world) :
  exists dt, read_bytes E f 0 timeout true w = (Normal [], consume f 0 dt w).
Proof.
  rewrite read_bytes_exact_run. cbv zeta.
  change (Z.to_nat 0) with 0%nat. rewrite Nat.min_0_r. cbn [firstn].
  eexists. reflexivity.
Qed.


(** C8.  An exact read ([read_bytes] with [exact=True]) of [size] bytes
    either returns a buffer of exactly [size] bytes or raises the short-read
    [ValueError]; it never returns a shorter buffer.  [read_int] is the exact
    read of 2 bytes decoded as an unsigned big-endian integer
    ([256 * b0 + b1]), so whatever it returns lies in [0, 65535]. *)
Theorem read_exact_or_short_read :
  forall (E : environment) (f : fd) (size : Z) (timeout : float) (w : world),
    match read_bytes E f size timeout true w with
    | (Normal buf, _) => len buf = size
    | (Raised e, _) => e = ValueError "Did not receive exact number of bytes"
    | (Returned _, _) => False
    end
    /\ read_int E f timeout w =
       bind (read_bytes E f 2 timeout true) (fun buf => ret (int_from_bytes buf)) w
    /\ (forall b0 b1 : byte, int_from_bytes [b0; b1] = 256 * byte_val b0 + byte_val b1)
    /\ match read_int E f timeout w with
       | (Normal v, _) => 0 <= v <= 65535
       | (Raised e, _) => e = ValueError "Did not receive exact number of bytes"
       | (Returned _, _) => False
       end.
Proof.
  intros E f size timeout w. repeat split.
  - destruct (read_bytes_exact_cases E f size timeout w)
      as [(dt & H0 & Hl & Hr)|(k & dt & Hr)]; rewrite Hr.
    + unfold len in *. rewrite length_firstn. lia.
    + reflexivity.
  - apply int_from_bytes_two.
  - destruct (read_int_cases E f timeout w)
      as [(dt & Hl & Hv & Hr)|(k & dt & Hr)]; rewrite Hr.
    + exact Hv.
    + reflexivity.
Qed.

(** The reports of a session, whatever its outcome.  They are, in order: one
    per decoded page, with the percentage accumulated so far; once every page
    is decoded, the stream-consumed report, with the percentage of the last
    page; then whatever the PDF stage reports; and, in a session that returns
    [True], the final report, whose percentage is exactly 100.  The
    percentages up to and including the stream-consumed report never go
    down. *)
Lemma progress_of_session :
  forall (E : environment) (document : Document) (ocr_lang : option string)
         (w : world),
    let n := page_count w in
    let inc := increment ocr_lang n in
    exists (k : nat) (pixel_stage later : list report),
      progress (snd (_convert E document ocr_lang w)) =
        progress w ++ pixel_stage ++ later /\
      (k <= Z.to_nat n)%nat /\
      (pixel_stage = page_reports n inc 1 0 k \/
       pixel_stage =
         page_reports n inc 1 0 k ++ [converted_report (accumulate inc 0 k)]) /\
      non_decreasing (map percentage pixel_stage) = true /\
      match fst (_convert E document ocr_lang w) with
      | Normal true =>
          k = Z.to_nat n /\
          percentage final_report = 100%float /\
          exists staged_files,
            later = fst (PixelsToPDF_convert E ocr_lang staged_files) ++ [final_report]
      | _ =>
          later = [] \/
          exists staged_files,
            later = fst (PixelsToPDF_convert E ocr_lang staged_files)
      end.
Proof.
  intros E document ocr_lang w n inc.
  assert (Hpages : forall k,
             non_decreasing (map percentage (page_reports n inc 1 0 k)) = true).
  { intro k. rewrite page_reports_percentages.
    apply (non_decreasing_tail 0%float), (non_decreasing_app_l _ [accumulate inc 0 k]).
    apply (accumulate_non_decreasing inc (increment_nonneg ocr_lang n) k 0%float).
    reflexivity. }
  assert (Hall : forall k,
             non_decreasing
               (map percentage
                  (page_reports n inc 1 0 k ++ [converted_report (accumulate inc 0 k)]))
             = true).
  { intro k. rewrite map_app, page_reports_percentages.
    apply (non_decreasing_tail 0%float).
    apply (accumulate_non_decreasing inc (increment_nonneg ocr_lang n) k 0%float).
    reflexivity. }
  destruct (_convert E document ocr_lang w) as [r w'] eqn:Hrun. cbn [fst snd].
  destruct (_convert_cases E document ocr_lang w r w' Hrun)
    as [(_ & _ & -> & _ & Hp)
       |[(_ & -> & _ & _ & Hp)
        |[(_ & _ & -> & _ & Hp)
         |[(_ & _ & pgs & tail & _ & _ & Hlt & -> & _ & Hp)
          |(_ & _ & pgs & _ & _ & _ & -> & _ & Hp)]]]];
    fold n in Hp; fold inc in Hp.
  - exists 0%nat, [], []. rewrite Hp, !app_nil_r.
    repeat split; auto. lia.
  - exists 0%nat, [], []. rewrite Hp, !app_nil_r.
    repeat split; auto. lia.
  - exists 0%nat, [], []. rewrite Hp, !app_nil_r.
    repeat split; auto. lia.
  - fold n in Hlt. exists (List.length pgs), (page_reports n inc 1 0 (List.length pgs)), [].
    rewrite Hp, !app_nil_r. repeat split; auto. lia.
  - cbv zeta in Hp |- *.
    exists (Z.to_nat n),
      (page_reports n inc 1 0 (Z.to_nat n)
         ++ [converted_report (accumulate inc 0 (Z.to_nat n))]).
    eexists. split; [rewrite Hp, <- !app_assoc; reflexivity|].
    split; [lia|]. split; [right; reflexivity|]. split; [apply Hall|].
    destruct (snd (PixelsToPDF_convert E ocr_lang (fs w ++ reset_ops ++ staged 1 pgs))).
    + right. eexists. rewrite app_nil_r. reflexivity.
    + split; [reflexivity|]. split; [reflexivity|]. eexists. reflexivity.
Qed.

(** C6 (the code departs from the specification).  Six pages of one pixel
    without an OCR language: the session returns [True], but its percentages
    do not form a non-decreasing sequence.  The increment [100.0 / 6] added six times in
    binary64 brings the accumulated percentage to 100.00000000000001, which
    is reported for the sixth page and for the consumed stream; the final
    report, set to 100, is below it. *)
Theorem progress_can_decrease :
  fst (_convert (Scenario.env false) Scenario.doc None
         (Scenario.fresh Scenario.six_pages 0)) = Normal true /\
  map percentage
    (progress (snd (_convert (Scenario.env false) Scenario.doc None
                      (Scenario.fresh Scenario.six_pages 0))))
  = [ 0x1.0aaaaaaaaaaabp+4; 0x1.0aaaaaaaaaaabp+5; 50; 0x1.0aaaaaaaaaaabp+6;
      0x1.4d55555555556p+6; 0x1.9000000000001p+6; 0x1.9000000000001p+6;
      100 ]%float /\
  (100 <? 0x1.9000000000001p+6)%float = true /\
  non_decreasing
    (map percentage
       (progress (snd (_convert (Scenario.env false) Scenario.doc None
                         (Scenario.fresh Scenario.six_pages 0))))) = false.
Proof. vm_compute. repeat split. Qed.

(** * Further properties of the code *)

(** ** What a stage leaves alone *)

Section Frames.

Variable E : environment.
Context {B : Type}.
Variable proj : world -> B.

Lemma keeps_bind_any {A C} (c : M A) (k : A -> M C) :
  keeps proj c -> (forall a, keeps proj (k a)) -> keeps proj (bind c k).
Proof.
  intros Hc Hk w. unfold bind. specialize (Hc w).
  destruct (c w) as [[a|v|e] w1]; cbn [snd] in *.
  - rewrite Hk. exact Hc.
  - exact Hc.
  - exact Hc.
Qed.

Lemma keeps_for_each_any {X A} (xs : list X) (body : X -> A -> M A) :
  (forall x a, keeps proj (body x a)) -> forall a, keeps proj (for_each xs body a).
Proof.
  intro Hb. induction xs as [|x xs IH]; intro a; cbn [for_each].
  - intro w. reflexivity.
  - apply keeps_bind_any; [apply Hb|exact IH].
Qed.

Hypothesis Hproj : beyond_decoding proj.

Lemma keeps_read_bytes_stdout size timeout exact :
  keeps proj (read_bytes E Stdout size timeout exact).
Proof.
  destruct Hproj as (Hreads & _ & _).
  intro w. unfold read_bytes, bind, nonblocking_read.
  destruct (pipe E (clock w) (stream Stdout w) size timeout) as [arrived dt].
  destruct (exact && _); cbn [snd]; apply Hreads.
Qed.

Lemma keeps_read_int_stdout timeout : keeps proj (read_int E Stdout timeout).
Proof.
  unfold read_int. apply keeps_bind_any; [apply keeps_read_bytes_stdout|].
  intros a w. reflexivity.
Qed.

Lemma keeps_fs_do_any op : keeps proj (fs_do op).
Proof. destruct Hproj as (_ & Hops & _). intro w. apply Hops. Qed.

Lemma keeps_print_any b t pct : keeps proj (print_progress_trusted b t pct).
Proof. destruct Hproj as (_ & _ & Hrs). intro w. apply Hrs. Qed.

(** Decoding one page, and decoding all of them, touch nothing beyond
    decoding. *)
Lemma keeps__convert_page_any n inc sw i pct :
  keeps proj (_convert_page E n inc sw i pct).
Proof.
  unfold _convert_page. cbv zeta.
  repeat first
    [ apply keeps_read_int_stdout
    | apply keeps_read_bytes_stdout
    | apply keeps_fs_do_any
    | apply keeps_print_any
    | apply keeps_bind_any; [|intro]
    | (intro w; reflexivity) ].
Qed.

Lemma keeps_pages_loop_any n inc sw pages pct :
  keeps proj (for_each pages (_convert_page E n inc sw) pct).
Proof.
  apply keeps_for_each_any. intros. apply keeps__convert_page_any.
Qed.

(** So does the pixel stage as a whole, for a component that [p.wait()]
    does not touch either. *)
Lemma keeps__convert_pixels_any document ocr_lang pct :
  (forall w, proj (snd (p_wait w)) = proj w) ->
  keeps proj (_convert_pixels E document ocr_lang pct).
Proof.
  intros Hwait w. unfold _convert_pixels. cbv zeta.
  set (t0 := (calculate_timeout E _ None + STARTUP_TIME_SECONDS)%float).
  pose proof (keeps_read_int_stdout t0 w) as Hrd.
  unfold bind at 1. unfold try_except_ValueError.
  destruct (read_int E Stdout t0 w) as [[n|v|e] w1] eqn:Hr; cbn [snd] in Hrd.
  - destruct (n =? 0); [exact Hrd|].
    unfold bind, Stopwatch_start.
    rewrite keeps_pages_loop_any. exact Hrd.
  - exact Hrd.
  - destruct e; try exact Hrd.
    unfold bind, raise. cbn [snd]. rewrite <- Hrd. apply Hwait.
Qed.

End Frames.

Lemma beyond_decoding_spawned : beyond_decoding spawned.
Proof. repeat split. Qed.

Lemma beyond_decoding_logged : beyond_decoding logged.
Proof. repeat split. Qed.

Lemma beyond_decoding_stdout_closed : beyond_decoding stdout_closed.
Proof. repeat split. Qed.

Lemma beyond_decoding_stderr_closed : beyond_decoding stderr_closed.
Proof. repeat split. Qed.

Lemma beyond_decoding_stderr : beyond_decoding p_stderr.
Proof. repeat split. Qed.

Lemma beyond_decoding_waited : beyond_decoding waited.
Proof. repeat split. Qed.

Lemma beyond_decoding_stdin : beyond_decoding p_stdin.
Proof. repeat split. Qed.


(** ** The properties *)

(** X1.  Every session launches the worker exactly once, as
    [qrexec-client-vm @dispvm:dz-dvm] with the service [dz.ConvertDev] in dev
    mode and [dz.Convert] otherwise, whatever happens afterwards. *)
Theorem worker_launched_once :
  forall (E : environment) (document : Document) (ocr_lang : option string)
         (w : world),
    spawned (snd (_convert E document ocr_lang w)) =
    spawned w ++ [worker_argv (dangerzone_dev E)].
Proof.
  intros E document ocr_lang w.
  pose proof (_convert_spawn_resources E document w) as (Hs & _). cbv zeta in Hs.
  rewrite _convert_stages.
  destruct (_convert_spawn E document w) as [[[]|v|e] w1]; cbn [snd] in *;
    try exact Hs.
  pose proof (keeps__convert_pixels_any E spawned beyond_decoding_spawned
                document ocr_lang 0%float (fun _ => eq_refl) w1) as Hpx.
  destruct (_convert_pixels E document ocr_lang 0%float w1) as [[pct|v|e] w2];
    cbn [snd] in *; try (rewrite Hpx; exact Hs).
  pose proof (_convert_finish_resources E document ocr_lang pct w2) as (Hf & _).
  cbv zeta in Hf. rewrite Hf, Hpx. exact Hs.
Qed.

(** X2.  Outside dev mode a session never reads the worker's stderr, never
    closes it and never logs anything. *)
Theorem production_session_leaves_stderr_alone :
  forall (E : environment) (document : Document) (ocr_lang : option string)
         (w : world),
    dangerzone_dev E = false ->
    let w' := snd (_convert E document ocr_lang w) in
    logged w' = logged w /\ p_stderr w' = p_stderr w /\
    stderr_closed w' = stderr_closed w.
Proof.
  intros E document ocr_lang w Hdev w'. subst w'.
  pose proof (_convert_spawn_resources E document w)
    as (_ & _ & _ & Hc & Hl & He & _). cbv zeta in Hc, Hl, He.
  rewrite _convert_stages.
  destruct (_convert_spawn E document w) as [[[]|v|e] w1]; cbn [snd] in *;
    try (repeat split; assumption).
  pose proof (keeps__convert_pixels_any E logged beyond_decoding_logged
                document ocr_lang 0%float (fun _ => eq_refl) w1) as Hpl.
  pose proof (keeps__convert_pixels_any E p_stderr beyond_decoding_stderr
                document ocr_lang 0%float (fun _ => eq_refl) w1) as Hpe.
  pose proof (keeps__convert_pixels_any E stderr_closed beyond_decoding_stderr_closed
                document ocr_lang 0%float (fun _ => eq_refl) w1) as Hpc.
  destruct (_convert_pixels E document ocr_lang 0%float w1) as [[pct|v|e] w2];
    cbn [snd] in *; try (rewrite Hpl, Hpe, Hpc; repeat split; assumption).
  pose proof (_convert_finish_resources E document ocr_lang pct w2) as (_ & _ & _ & Hf).
  rewrite Hdev in Hf. cbv zeta in Hf. destruct Hf as (Hfl & Hfe & Hfc).
  rewrite Hfl, Hfe, Hfc, Hpl, Hpe, Hpc. repeat split; assumption.
Qed.

(** X3.  In dev mode, once every page is decoded the session reads at most
    [MAX_CONVERSION_LOG_CHARS] bytes of the worker's stderr, closes it, and
    logs exactly one message: the fixed heading, a newline, and the sanitized
    ASCII decoding of those bytes. *)
Theorem dev_session_logs_stderr :
  forall (E : environment) (document : Document) (ocr_lang : option string)
         (w w1 w2 : world) (pct : float),
    dangerzone_dev E = true ->
    _convert_spawn E document w = (Normal tt, w1) ->
    _convert_pixels E document ocr_lang 0%float w1 = (Normal pct, w2) ->
    let w' := snd (_convert E document ocr_lang w) in
    exists k : nat,
      (k <= Z.to_nat (MAX_CONVERSION_LOG_CHARS E))%nat /\
      logged w' = logged w ++ [conversion_log E (firstn k (p_stderr w))] /\
      p_stderr w' = skipn k (p_stderr w) /\
      stderr_closed w' = true.
Proof.
  intros E document ocr_lang w w1 w2 pct Hdev Hsp Hpx w'. subst w'.
  pose proof (_convert_spawn_resources E document w)
    as (_ & _ & _ & _ & Hl & He & _). cbv zeta in Hl, He.
  rewrite _convert_stages, Hsp, Hpx. rewrite Hsp in Hl, He. cbn [snd] in Hl, He.
  pose proof (keeps__convert_pixels_any E logged beyond_decoding_logged
                document ocr_lang 0%float (fun _ => eq_refl) w1) as Hpl.
  pose proof (keeps__convert_pixels_any E p_stderr beyond_decoding_stderr
                document ocr_lang 0%float (fun _ => eq_refl) w1) as Hpe.
  rewrite Hpx in Hpl, Hpe. cbn [snd] in Hpl, Hpe.
  pose proof (_convert_finish_resources E document ocr_lang pct w2) as (_ & _ & _ & Hf).
  rewrite Hdev in Hf. cbv zeta in Hf. destruct Hf as (k & Hk & Hfl & Hfe & Hfc).
  exists k. rewrite Hfl, Hfe, Hfc, Hpl, Hpe, Hl, He. repeat split. exact Hk.
Qed.

(** X4.  Once the page count has been read, the session never waits for the
    worker's exit status, whatever goes wrong later: a short page, a failure
    of the PDF stage. *)
Theorem no_wait_after_page_count :
  forall (E : environment) (document : Document) (ocr_lang : option string)
         (w w1 w2 : world) (n : Z),
    _convert_spawn E document w = (Normal tt, w1) ->
    read_int E Stdout (initial_timeout E document) w1 = (Normal n, w2) ->
    waited (snd (_convert E document ocr_lang w)) = waited w.
Proof.
  intros E document ocr_lang w w1 w2 n Hsp Hrd.
  pose proof (_convert_spawn_resources E document w) as (_ & Hw & _).
  cbv zeta in Hw. rewrite Hsp in Hw. cbn [snd] in Hw.
  pose proof (keeps_read_int_stdout E waited beyond_decoding_waited
                (initial_timeout E document) w1) as Hw2.
  rewrite Hrd in Hw2. cbn [snd] in Hw2.
  rewrite _convert_stages, Hsp.
  assert (Hpx : waited (snd (_convert_pixels E document ocr_lang 0%float w1)) = waited w1).
  { unfold _convert_pixels. cbv zeta. unfold initial_timeout in Hrd.
    unfold bind at 1. unfold try_except_ValueError. rewrite Hrd.
    destruct (n =? 0); [exact Hw2|].
    unfold bind, Stopwatch_start.
    rewrite (keeps_pages_loop_any E waited beyond_decoding_waited). exact Hw2. }
  destruct (_convert_pixels E document ocr_lang 0%float w1) as [[pct|v|e] w3];
    cbn [snd] in *; try (rewrite Hpx; exact Hw).
  pose proof (_convert_finish_resources E document ocr_lang pct w3) as (_ & Hf & _).
  cbv zeta in Hf. rewrite Hf, Hpx. exact Hw.
Qed.

(** X5.  A worker that writes fewer than two bytes (nothing at all, say) always
    gets the exit-code diagnosis, however the pipe behaves: [_convert] waits
    for the exit status and raises [exception_from_error_code] of it, having
    staged and reported nothing. *)
Theorem silent_worker_is_diagnosed :
  forall (E : environment) (document : Document) (ocr_lang : option string)
         (w : world),
    (dangerzone_dev E = true -> len (dz_module_zip E) < 2 ^ 32) ->
    len (p_stdout w) < 2 ->
    let run := _convert E document ocr_lang w in
    fst run = Raised (exception_from_error_code E (exit_status w)) /\
    waited (snd run) = true /\
    fs (snd run) = fs w ++ reset_ops /\
    progress (snd run) = progress w.
Proof.
  intros E document ocr_lang w Hzip Hshort run. subst run.
  destruct (_convert E document ocr_lang w) as [r w'] eqn:Hrun. cbn [fst snd].
  change (2 ^ 32) with (256 ^ 4) in Hzip.
  destruct (_convert_cases E document ocr_lang w r w' Hrun)
    as [(Hdev & Hbig & _)
       |[(_ & -> & Hw & Hf & Hp)
        |[(Hl & _)|[(Hl & _)|(Hl & _)]]]]; try lia.
  - specialize (Hzip Hdev). lia.
  - repeat split; assumption.
Qed.

Lemma _convert_pixels_returns_false (E : environment) (document : Document)
  (ocr_lang : option string) (pct : float) (w w' : world) (v : bool) :
  _convert_pixels E document ocr_lang pct w = (Returned v, w') -> v = false.
Proof.
  intro Hrun.
  destruct (_convert_pixels_cases E document ocr_lang pct w _ _ Hrun)
    as [(_ & Hr & _)|[(_ & _ & Hr & _)|(_ & _ & pgs & tail & _ & _ & _ & _ & Hres)]].
  - discriminate.
  - congruence.
  - destruct Hres.
Qed.

(** X6.  [_convert] returns [True] only when the worker's output begins with a
    page count [n >= 1] followed by [n] complete, well-formed page records;
    those pages, all of them, are then staged, the worker's output is closed
    with whatever follows the last page left unread, and the converted file
    is the last thing moved into place. *)
Theorem success_means_well_formed_stream :
  forall (E : environment) (document : Document) (ocr_lang : option string)
         (w w' : world),
    _convert E document ocr_lang w = (Normal true, w') ->
    exists (n : Z) (pgs : list page),
      1 <= n <= 65535 /\ len pgs = n /\ Forall well_formed pgs /\
      p_stdout w = encode_stream n pgs ++ p_stdout w' /\
      fs w' = fs w ++ reset_ops ++ staged 1 pgs ++
              [Move CONVERTED_FILE_PATH (output_filename document)] /\
      stdout_closed w' = true.
Proof.
  intros E document ocr_lang w w' Hrun.
  assert (Hclosed : stdout_closed w' = true).
  { rewrite _convert_stages in Hrun.
    destruct (_convert_spawn E document w) as [[[]|v|e] w1] eqn:Hsp.
    - destruct (_convert_pixels E document ocr_lang 0%float w1) as [[pct|v|e] w2] eqn:Hpx.
      + destruct (_convert_finish_run E document ocr_lang pct w2)
          as (w3 & Hfin & _ & _ & Hc & _).
        cbv zeta in Hfin. rewrite Hfin in Hrun. inversion Hrun; subst. exact Hc.
      + apply _convert_pixels_returns_false in Hpx. subst v. discriminate.
      + discriminate.
    - destruct (_convert_spawn_cases E document w)
        as [(w1' & Hsp' & _)|(_ & _ & w1' & Hsp' & _)];
        rewrite Hsp in Hsp'; discriminate.
    - discriminate. }
  destruct (_convert_cases E document ocr_lang w _ w' Hrun)
    as [(_ & _ & Hr & _)
       |[(_ & Hr & _)
        |[(_ & _ & Hr & _)
         |[(_ & _ & pgs & tail & _ & _ & _ & Hr & _)
          |(Hl & Hn & pgs & Hwf & Hs & Hlen & Hr & Hf & _)]]]];
    try discriminate.
  cbv zeta in Hr, Hf.
  destruct (snd (PixelsToPDF_convert E ocr_lang (fs w ++ reset_ops ++ staged 1 pgs)));
    [discriminate|].
  exists (page_count w), pgs.
  split; [assumption|]. split; [unfold len; lia|]. split; [assumption|].
  split; [|split; assumption].
  unfold encode_stream, page_count.
  rewrite (be_digits_firstn_two _ Hl), <- app_assoc, <- Hs.
  symmetry. apply firstn_skipn.
Qed.

(** X7.  [_convert] returns [False] in one case only: the worker announced zero
    pages.  It then has read the two bytes of the count and nothing more,
    staged no page, reported no progress, and neither closed the worker's
    output nor waited for the worker. *)
Theorem false_means_zero_pages :
  forall (E : environment) (document : Document) (ocr_lang : option string)
         (w w' : world),
    _convert E document ocr_lang w = (Normal false, w') ->
    2 <= len (p_stdout w) /\ page_count w = 0 /\
    fs w' = fs w ++ reset_ops /\ progress w' = progress w /\
    stdout_closed w' = stdout_closed w /\ waited w' = waited w.
Proof.
  intros E document ocr_lang w w' Hrun.
  assert (Hres : stdout_closed w' = stdout_closed w /\ waited w' = waited w).
  { pose proof (_convert_spawn_resources E document w) as (_ & Hw & Hc & _).
    cbv zeta in Hw, Hc.
    rewrite _convert_stages in Hrun.
    destruct (_convert_spawn E document w) as [[[]|v|e] w1] eqn:Hsp; cbn [snd] in *.
    - pose proof (keeps__convert_pixels_any E stdout_closed beyond_decoding_stdout_closed
                    document ocr_lang 0%float (fun _ => eq_refl) w1) as Hpc.
      destruct (_convert_pixels E document ocr_lang 0%float w1) as [[pct|v|e] w2] eqn:Hpx;
        cbn [snd] in *.
      + destruct (_convert_finish_run E document ocr_lang pct w2) as (w3 & Hfin & _).
        cbv zeta in Hfin. rewrite Hfin in Hrun.
        destruct (snd (PixelsToPDF_convert E ocr_lang (fs w2))); discriminate.
      + inversion Hrun; subst. split; [congruence|].
        destruct (_convert_pixels_cases E document ocr_lang _ w1 _ _ Hpx)
          as [(_ & Hr & _)|[(_ & _ & _ & _ & Hwt & _)|(_ & _ & ? & ? & _ & _ & _ & _ & [])]].
        * discriminate.
        * congruence.
      + discriminate.
    - destruct (_convert_spawn_cases E document w)
        as [(w1' & Hsp' & _)|(_ & _ & w1' & Hsp' & _)];
        rewrite Hsp in Hsp'; discriminate.
    - discriminate. }
  destruct (_convert_cases E document ocr_lang w _ w' Hrun)
    as [(_ & _ & Hr & _)
       |[(_ & Hr & _)
        |[(Hl & Hz & _ & Hf & Hp)
         |[(_ & _ & pgs & tail & _ & _ & _ & Hr & _)
          |(_ & _ & pgs & _ & _ & _ & Hr & _)]]]];
    try discriminate.
  - destruct Hres. repeat split; assumption.
  - cbv zeta in Hr.
    destruct (snd (PixelsToPDF_convert E ocr_lang (fs w ++ reset_ops ++ staged 1 pgs)));
      discriminate.
Qed.

Lemma staged_only_writes (i : Z) (pgs : list page) (src dst : string) :
  ~ In (Move src dst) (staged i pgs).
Proof.
  revert i. induction pgs as [|pg pgs IH]; intros i Hin; cbn in Hin.
  - exact Hin.
  - destruct Hin as [H|[H|[H|H]]]; try discriminate. exact (IH _ H).
Qed.

(** X8.  The converted file is moved to the document's output path in the
    sessions that return [True], as their last file operation, and in no
    other session: not after a diagnosis, a short page, a zero page count or
    a failure of the PDF stage. *)
Theorem output_moved_only_on_success :
  forall (E : environment) (document : Document) (ocr_lang : option string)
         (w : world),
    let run := _convert E document ocr_lang w in
    exists ops : list fs_op,
      fs (snd run) = fs w ++ ops /\
      (In (Move CONVERTED_FILE_PATH (output_filename document)) ops <->
       fst run = Normal true) /\
      (fst run = Normal true ->
       exists before, ops = before ++ [Move CONVERTED_FILE_PATH (output_filename document)]).
Proof.
  intros E document ocr_lang w run. subst run.
  destruct (_convert E document ocr_lang w) as [r w'] eqn:Hrun. cbn [fst snd].
  assert (Hreset : ~ In (Move CONVERTED_FILE_PATH (output_filename document)) reset_ops).
  { cbn. intros [H|[H|[H|H]]]; try discriminate. exact H. }
  destruct (_convert_cases E document ocr_lang w r w' Hrun)
    as [(_ & _ & -> & Hf & _)
       |[(_ & -> & _ & Hf & _)
        |[(_ & _ & -> & Hf & _)
         |[(_ & _ & pgs & tail & _ & _ & _ & -> & Hf & _)
          |(_ & _ & pgs & _ & _ & _ & -> & Hf & _)]]]].
  - exists reset_ops. split; [assumption|]. split; [split|]; intro H;
      [contradiction|discriminate|discriminate].
  - exists reset_ops. split; [assumption|]. split; [split|]; intro H;
      [contradiction|discriminate|discriminate].
  - exists reset_ops. split; [assumption|]. split; [split|]; intro H;
      [contradiction|discriminate|discriminate].
  - exists (reset_ops ++ staged 1 pgs). split; [assumption|].
    split; [split|]; intro H; try discriminate.
    apply in_app_or in H. destruct H as [H|H]; [contradiction|].
    exfalso. exact (staged_only_writes _ _ _ _ H).
  - cbv zeta in Hf |- *.
    destruct (snd (PixelsToPDF_convert E ocr_lang (fs w ++ reset_ops ++ staged 1 pgs))).
    + exists (reset_ops ++ staged 1 pgs).
      rewrite app_nil_r in Hf. split; [assumption|].
      split; [split|]; intro H; try discriminate.
      apply in_app_or in H. destruct H as [H|H]; [contradiction|].
      exfalso. exact (staged_only_writes _ _ _ _ H).
    + exists (reset_ops ++ staged 1 pgs ++
              [Move CONVERTED_FILE_PATH (output_filename document)]).
      split; [assumption|]. split; [split; intro H|intros _].
      * reflexivity.
      * apply in_or_app. right. apply in_or_app. right. left. reflexivity.
      * exists (reset_ops ++ staged 1 pgs). rewrite <- app_assoc. reflexivity.
Qed.

(** X9.  Outside dev mode the worker receives on its input the document's
    bytes and nothing else, whatever the outcome of the session. *)
Theorem production_input_is_the_document :
  forall (E : environment) (document : Document) (ocr_lang : option string)
         (w : world),
    dangerzone_dev E = false ->
    p_stdin (snd (_convert E document ocr_lang w)) =
    p_stdin w ++ input_bytes document.
Proof.
  intros E document ocr_lang w Hdev.
  destruct (_convert_spawn_cases E document w)
    as [(w1 & Hsp & Hin & _)|(Hdev' & _)]; [|congruence].
  rewrite (_convert_stdin E document ocr_lang w w1 Hsp), Hin.
  unfold sent. rewrite Hdev. reflexivity.
Qed.

(** X10.  A dev-mode archive of [2^32] bytes or more does not fit the 4-byte
    length: the session raises [OverflowError] after launching the worker,
    sends it nothing (no length, no archive, no document), reads nothing from
    it and reports nothing. *)
Theorem oversize_archive_overflows :
  forall (E : environment) (document : Document) (ocr_lang : option string)
         (w : world),
    dangerzone_dev E = true ->
    2 ^ 32 <= len (dz_module_zip E) ->
    let run := _convert E document ocr_lang w in
    fst run = Raised OverflowError /\
    p_stdin (snd run) = p_stdin w /\
    p_stdout (snd run) = p_stdout w /\
    progress (snd run) = progress w /\
    spawned (snd run) = spawned w ++ [worker_argv true].
Proof.
  intros E document ocr_lang w Hdev Hbig run. subst run.
  change (2 ^ 32) with (256 ^ 4) in Hbig.
  pose proof (_convert_spawn_resources E document w) as (Hs & _ & _ & _ & _ & _ & Ho).
  cbv zeta in Hs, Ho. rewrite Hdev in Hs.
  rewrite _convert_stages.
  destruct (_convert_spawn_cases E document w)
    as [(w1 & Hsp & _)|(_ & _ & w1 & Hsp & Hin & _ & Hp)].
  - exfalso. unfold _convert_spawn in Hsp. rewrite Hdev in Hsp.
    cbv beta iota zeta delta [bind fs_do Popen] in Hsp.
    match type of Hsp with
    | context [teleport_dz_module E ?x] =>
        destruct (teleport_dz_module_run E x) as [(Hlt & _)|(_ & Hrun)];
        [lia|rewrite Hrun in Hsp; discriminate]
    end.
  - rewrite Hsp in *. cbn [fst snd] in *. repeat split; assumption.
Qed.

Lemma sidecar_inj (zip1 zip2 doc1 doc2 : bytes) :
  len zip1 < 2 ^ 32 -> len zip2 < 2 ^ 32 ->
  sidecar zip1 ++ doc1 = sidecar zip2 ++ doc2 ->
  zip1 = zip2 /\ doc1 = doc2.
Proof.
  intros H1 H2 Heq. unfold sidecar in Heq.
  rewrite <- !app_assoc in Heq.
  apply app_inv_length in Heq; [|rewrite !be_digits_length; reflexivity].
  destruct Heq as [Hlen Heq].
  assert (Hl : len zip1 = len zip2).
  { rewrite <- (int_from_bytes_be_digits 4 (len zip1)),
            <- (int_from_bytes_be_digits 4 (len zip2)), Hlen; [reflexivity| |];
      change (256 ^ Z.of_nat 4) with (2 ^ 32); unfold len in *; lia. }
  apply app_inv_length in Heq; [exact Heq|unfold len in Hl; lia].
Qed.

(** X11.  The length prefix makes the dev-mode input self-delimiting: two
    dev-mode sessions, each started on an empty input pipe, that have sent
    their workers the same bytes have sent the same archive and the same
    document. *)
Theorem sidecar_framing_is_unambiguous :
  forall (E1 E2 : environment) (d1 d2 : Document) (o1 o2 : option string)
         (w1 w2 : world),
    dangerzone_dev E1 = true -> dangerzone_dev E2 = true ->
    len (dz_module_zip E1) < 2 ^ 32 -> len (dz_module_zip E2) < 2 ^ 32 ->
    p_stdin w1 = [] -> p_stdin w2 = [] ->
    p_stdin (snd (_convert E1 d1 o1 w1)) = p_stdin (snd (_convert E2 d2 o2 w2)) ->
    dz_module_zip E1 = dz_module_zip E2 /\ input_bytes d1 = input_bytes d2.
Proof.
  intros E1 E2 d1 d2 o1 o2 w1 w2 Hdev1 Hdev2 Hz1 Hz2 Hin1 Hin2 Heq.
  assert (Hsent : forall E d o w,
             dangerzone_dev E = true -> len (dz_module_zip E) < 2 ^ 32 ->
             p_stdin w = [] ->
             p_stdin (snd (_convert E d o w)) = sidecar (dz_module_zip E) ++ input_bytes d).
  { intros E d o w Hdev Hz Hin. change (2 ^ 32) with (256 ^ 4) in Hz.
    destruct (_convert_spawn_cases E d w)
      as [(w' & Hsp & Hs & _)|(_ & Hbig & _)]; [|lia].
    rewrite (_convert_stdin E d o w w' Hsp), Hs, Hin.
    unfold sent. rewrite Hdev. reflexivity. }
  rewrite (Hsent E1 d1 o1 w1), (Hsent E2 d2 o2 w2) in Heq by assumption.
  apply sidecar_inj; assumption.
Qed.

Lemma encode_pages_comparable (pgs pgs' : list page) (t t' : bytes) :
  Forall well_formed pgs -> Forall well_formed pgs' ->
  encode_pages pgs ++ t = encode_pages pgs' ++ t' ->
  (exists more, pgs' = pgs ++ more /\ t = encode_pages more ++ t') \/
  (exists more, pgs = pgs' ++ more /\ t' = encode_pages more ++ t).
Proof.
  revert pgs'. induction pgs as [|pg pgs IH]; intros pgs' Hwf Hwf' Heq.
  - left. exists pgs'. split; [reflexivity|exact Heq].
  - destruct pgs' as [|pg' pgs'].
    + right. exists (pg :: pgs). split; [reflexivity|]. symmetry. exact Heq.
    + inversion Hwf; inversion Hwf'; subst.
      rewrite !encode_pages_cons, <- !app_assoc in Heq.
      apply encode_page_inj in Heq; [|assumption..].
      destruct Heq as [-> Heq].
      destruct (IH pgs' ltac:(assumption) ltac:(assumption) Heq)
        as [(more & -> & Ht)|(more & -> & Ht)].
      * left. exists more. split; [reflexivity|exact Ht].
      * right. exists more. split; [reflexivity|exact Ht].
Qed.

Lemma cut_short_is_no_page (tail rest : bytes) (pg : page) :
  cut_short tail = true -> well_formed pg -> tail <> encode_page pg ++ rest.
Proof.
  intros Hcut (Hw & Hh & Hp) ->. unfold cut_short in Hcut.
  destruct pg as [wd ht px]. unfold encode_page in Hcut.
  cbn [pg_width pg_height pg_pixels] in *.
  assert (Hl1 : List.length (be_digits 2 wd) = 2%nat) by apply be_digits_length.
  assert (Hl2 : List.length (be_digits 2 ht) = 2%nat) by apply be_digits_length.
  rewrite <- !app_assoc in Hcut.
  pose proof (firstn_exact 2 (be_digits 2 wd) (be_digits 2 ht ++ px ++ rest) Hl1) as H1.
  pose proof (skipn_exact 2 (be_digits 2 wd) (be_digits 2 ht ++ px ++ rest) Hl1) as H2.
  pose proof (firstn_exact 2 (be_digits 2 ht) (px ++ rest) Hl2) as H3.
  rewrite H1, H2, H3 in Hcut.
  rewrite !int_from_bytes_be_digits in Hcut
    by (change (256 ^ Z.of_nat 2) with 65536; lia).
  unfold len in *. rewrite !length_app, Hl1, Hl2 in Hcut.
  apply orb_true_iff in Hcut. destruct Hcut as [H|H]; apply Z.ltb_lt in H; lia.
Qed.

(** X14.  A worker output that is cut off inside a page (after the count [n] and
    fewer than [n] whole pages comes something that cannot be a page) never
    gives a result: [_convert] raises, whatever the pipe does; only pages
    that arrived whole are staged, in order, and the worker's output is not
    closed. *)
Theorem truncated_stream_never_succeeds :
  forall (E : environment) (document : Document) (ocr_lang : option string)
         (w : world) (n : Z) (pgs : list page) (tail : bytes),
    1 <= n <= 65535 -> Forall well_formed pgs -> len pgs < n ->
    cut_short tail = true ->
    p_stdout w = encode_stream n pgs ++ tail ->
    let run := _convert E document ocr_lang w in
    (exists e, fst run = Raised e) /\
    (exists k : nat,
        fs (snd run) = fs w ++ reset_ops ++ staged 1 (firstn k pgs)) /\
    stdout_closed (snd run) = stdout_closed w.
Proof.
  intros E document ocr_lang w n pgs tail Hn Hwf Hlen Hcut Hs run. subst run.
  destruct (page_count_encode_stream n pgs tail w ltac:(lia) Hs) as (Hl & Hcount & Hskip).
  pose proof (_convert_spawn_resources E document w) as (_ & _ & Hc & _ & _ & _ & Ho).
  cbv zeta in Hc, Ho.
  rewrite _convert_stages.
  destruct (_convert_spawn_cases E document w)
    as [(w1 & Hsp & _ & Hf1 & _)|(_ & _ & w1 & Hsp & _ & Hf1 & _)];
    rewrite Hsp in *; cbn [fst snd] in *.
  2:{ split; [eexists; reflexivity|]. split; [|exact Hc].
      exists 0%nat. cbn [firstn staged]. rewrite app_nil_r. exact Hf1. }
  pose proof (keeps__convert_pixels_any E stdout_closed beyond_decoding_stdout_closed
                document ocr_lang 0%float (fun _ => eq_refl) w1) as Hpc.
  assert (Hcount1 : page_count w1 = n) by (unfold page_count in *; rewrite Ho; exact Hcount).
  destruct (_convert_pixels E document ocr_lang 0%float w1) as [r2 w2] eqn:Hpx.
  cbn [snd] in Hpc.
  destruct (_convert_pixels_cases E document ocr_lang _ w1 r2 w2 Hpx)
    as [(_ & -> & _ & Hf2 & _)
       |[(_ & Hz & _)
        |(_ & _ & pgs' & tail' & Hwf' & Hs' & Hf2 & _ & Hres)]].
  - cbn [fst snd]. split; [eexists; reflexivity|]. split; [|congruence].
    exists 0%nat. cbn [firstn staged]. rewrite app_nil_r, Hf2. exact Hf1.
  - lia.
  - rewrite Ho, Hskip in Hs'. rewrite Hcount1 in Hres.
    assert (Hprefix : exists k, pgs' = firstn k pgs /\ (List.length pgs' <= List.length pgs)%nat).
    { destruct (encode_pages_comparable pgs pgs' tail tail' Hwf Hwf' Hs')
        as [(more & -> & Ht)|(more & -> & Ht)].
      - destruct more as [|pg more].
        + exists (List.length pgs). rewrite app_nil_r, firstn_all. split; [reflexivity|lia].
        + exfalso. rewrite encode_pages_cons, <- app_assoc in Ht.
          apply Forall_app in Hwf'. destruct Hwf' as [_ Hwf'].
          apply Forall_inv in Hwf'.
          exact (cut_short_is_no_page _ _ pg Hcut Hwf' Ht).
      - exists (List.length pgs'). rewrite firstn_app, firstn_all, Nat.sub_diag.
        cbn [firstn]. rewrite app_nil_r, length_app. split; [reflexivity|lia]. }
    destruct Hprefix as (k & -> & Hk).
    destruct r2 as [pct|v|e]; [|destruct Hres|].
    + exfalso. destruct Hres as (Hall & _). unfold len in Hlen. lia.
    + cbn [fst snd]. split; [eexists; reflexivity|]. split; [|congruence].
      exists k. rewrite Hf2, Hf1, <- app_assoc. reflexivity.
Qed.

Lemma str_inj (i j : Z) : str i = str j -> i = j.
Proof.
  unfold str. intro H.
  assert (Hnn : forall z, Z.to_int z <> Decimal.Pos Decimal.Nil /\
                          Z.to_int z <> Decimal.Neg Decimal.Nil).
  { intros [|p|p]; cbn; split; try discriminate;
      intro Hp; injection Hp; apply DecimalPos.Unsigned.to_uint_nonnil. }
  apply DecimalZ.to_int_inj.
  assert (Hs : Some (Z.to_int i) = Some (Z.to_int j)).
  { rewrite <- (NilZero.isi (Z.to_int i)), <- (NilZero.isi (Z.to_int j)), H
      by apply Hnn. reflexivity. }
  congruence.
Qed.

Lemma string_of_uint_no_dot (d : Decimal.uint) :
  ~ In "."%char (list_ascii_of_string (NilEmpty.string_of_uint d)).
Proof.
  induction d; cbn [NilEmpty.string_of_uint list_ascii_of_string In];
    [intros []|intros [H|H]; [discriminate H|auto]..].
Qed.

Lemma str_no_dot (z : Z) : ~ In "."%char (list_ascii_of_string (str z)).
Proof.
  unfold str.
  assert (Hu : forall d, ~ In "."%char (list_ascii_of_string (NilZero.string_of_uint d))).
  { intro d. destruct d; try apply string_of_uint_no_dot.
    cbn. intros [H|[]]. discriminate H. }
  destruct (Z.to_int z) as [d|d]; cbn [NilZero.string_of_int list_ascii_of_string In].
  - apply Hu.
  - intros [H|H]; [discriminate H|exact (Hu d H)].
Qed.

Lemma append_dot_inj (a a' b b' : string) :
  ~ In "."%char (list_ascii_of_string a) ->
  ~ In "."%char (list_ascii_of_string a') ->
  String.append a (String "." b) = String.append a' (String "." b') ->
  a = a' /\ b = b'.
Proof.
  revert a'. induction a as [|c a IH]; intros [|c' a'] Ha Ha' H;
    cbn [String.append list_ascii_of_string In] in *.
  - injection H as ->. split; reflexivity.
  - injection H as <- _. exfalso. apply Ha'. left. reflexivity.
  - injection H as -> _. exfalso. apply Ha. left. reflexivity.
  - injection H as -> H.
    destruct (IH a' (fun x => Ha (or_intror x)) (fun x => Ha' (or_intror x)) H)
      as [-> ->].
    split; reflexivity.
Qed.

Lemma append_inj_l (p a b : string) :
  String.append p a = String.append p b -> a = b.
Proof.
  induction p as [|c p IH]; cbn [String.append]; intro H.
  - exact H.
  - injection H as H. exact (IH H).
Qed.

Lemma page_path_inj (i j : Z) (e e' : string) :
  page_path i (String "." e) = page_path j (String "." e') -> i = j /\ e = e'.
Proof.
  unfold page_path. intro H. apply append_inj_l in H.
  apply append_dot_inj in H; try apply str_no_dot.
  destruct H as [H ->]. split; [exact (str_inj _ _ H)|reflexivity].
Qed.

Lemma written_paths_app (a b : list fs_op) :
  written_paths (a ++ b) = written_paths a ++ written_paths b.
Proof. apply flat_map_app. Qed.

Lemma written_paths_staged_from (i : Z) (pgs : list page) (p : string) :
  In p (written_paths (staged i pgs)) ->
  exists k e, i <= k < i + len pgs /\ p = page_path k (String "." e).
Proof.
  revert i. induction pgs as [|pg pgs IH]; intros i H.
  - destruct H.
  - cbn [staged] in H. rewrite written_paths_app in H.
    apply in_app_or in H. unfold len in *. cbn [List.length].
    destruct H as [H|H].
    + cbn in H. destruct H as [<-|[<-|[<-|[]]]]; eexists i, _;
        (split; [lia|reflexivity]).
    + destruct (IH _ H) as (k & e & Hk & ->). exists k, e.
      split; [lia|reflexivity].
Qed.

Lemma written_paths_staged_NoDup (i : Z) (pgs : list page) :
  NoDup (written_paths (staged i pgs)).
Proof.
  revert i. induction pgs as [|pg pgs IH]; intro i.
  - constructor.
  - cbn [staged]. rewrite written_paths_app.
    change (written_paths (page_files i pg))
      with [page_path i ".width"; page_path i ".height"; page_path i ".rgb"].
    assert (Hfresh : forall e, ~ In (page_path i (String "." e))
                                    (written_paths (staged (i + 1) pgs))).
    { intros e H. apply written_paths_staged_from in H.
      destruct H as (k & e' & Hk & H). apply page_path_inj in H. lia. }
    cbn [app]. repeat constructor; cbn [In];
      try (intros H; repeat destruct H as [H|H];
           try (apply page_path_inj in H; destruct H as [_ H]; discriminate H);
           try exact (Hfresh _ H)).
    apply IH.
Qed.

Lemma staged_ops_from (i : Z) (pgs : list page) (op : fs_op) :
  In op (staged i pgs) ->
  exists k ext c,
    i <= k < i + len pgs /\ In ext ["width"; "height"; "rgb"] /\
    op = WriteFile (page_file k ext) c.
Proof.
  revert i. induction pgs as [|pg pgs IH]; intros i H.
  - destruct H.
  - cbn [staged] in H. apply in_app_or in H. unfold len in *. cbn [List.length].
    destruct H as [H|H].
    + cbn in H. destruct H as [<-|[<-|[<-|[]]]];
        [exists i, "width", (Text (str (pg_width pg)))
        |exists i, "height", (Text (str (pg_height pg)))
        |exists i, "rgb", (Binary (pg_pixels pg))];
        (split; [lia|split; [cbn; tauto|reflexivity]]).
    + destruct (IH _ H) as (k & e & c & Hk & He & ->). exists k, e, c.
      split; [lia|split; [exact He|reflexivity]].
Qed.


(** With a worker that keeps up, a stream that holds the count and that many
    well-formed pages is decoded to the end. *)
Lemma _convert_pixels_prompt (E : environment) (document : Document)
  (ocr_lang : option string) (pct : float) (w : world) (n : Z)
  (pgs : list page) (tail : bytes) :
  prompt E -> 1 <= n <= 65535 -> len pgs = n -> Forall well_formed pgs ->
  p_stdout w = encode_stream n pgs ++ tail ->
  exists pct' w',
    _convert_pixels E document ocr_lang pct w = (Normal pct', w') /\
    p_stdout w' = tail /\ fs w' = fs w ++ staged 1 pgs.
Proof.
  intros Hprompt Hn Hlen Hwf Hs.
  destruct (page_count_encode_stream n pgs tail w ltac:(lia) Hs) as (Hl & Hcount & Hskip).
  assert (Hrun : exists pct' w',
             _convert_pixels E document ocr_lang pct w = (Normal pct', w')).
  { unfold _convert_pixels. cbv zeta.
    destruct (read_int_prompt E Stdout (initial_timeout E document) w Hprompt Hl)
      as (dt & Hr).
    cbn [stream] in Hr. fold (page_count w) in Hr. rewrite Hcount in Hr.
    erewrite bind_Normal
      by (unfold try_except_ValueError; unfold initial_timeout in Hr; rewrite Hr;
          reflexivity).
    replace (n =? 0) with false by (symmetry; apply Z.eqb_neq; lia).
    unfold bind, Stopwatch_start.
    apply (pages_loop_prompt E _ _ _ Hprompt pgs 1 (n + 1) pct _ tail Hwf); [lia|].
    exact Hskip. }
  destruct Hrun as (pct' & w' & Hrun). exists pct', w'. split; [exact Hrun|].
  destruct (_convert_pixels_cases E document ocr_lang pct w _ _ Hrun)
    as [(_ & Hr & _)|[(_ & _ & Hr & _)
                     |(_ & _ & pgs' & tail' & Hwf' & Hs' & Hf & _ & Hl' & _ & Ht)]];
    try discriminate.
  rewrite Hskip in Hs'. rewrite Hcount in Hl'.
  apply encode_pages_inj in Hs'; [|assumption|assumption|unfold len in Hlen; lia].
  destruct Hs' as [<- <-]. split; [symmetry; exact Ht|exact Hf].
Qed.

(** X16.  The session succeeds whenever nothing stands in its way.  If the
    worker keeps up and its output holds a page count [n >= 1] followed by [n]
    well-formed pages, the archive of a dev-mode session fits its length
    prefix and the PDF stage raises nothing on the staged files, then
    [_convert] returns [True]: every page is staged, the converted file is
    moved to the document's output path as the last file operation, the
    worker's output is closed and what follows the last page is left unread. *)
Theorem well_formed_session_returns_true :
  forall (E : environment) (document : Document) (ocr_lang : option string)
         (w : world) (n : Z) (pgs : list page) (tail : bytes),
    prompt E ->
    (dangerzone_dev E = true -> len (dz_module_zip E) < 256 ^ 4) ->
    1 <= n <= 65535 -> len pgs = n -> Forall well_formed pgs ->
    p_stdout w = encode_stream n pgs ++ tail ->
    snd (PixelsToPDF_convert E ocr_lang (fs w ++ reset_ops ++ staged 1 pgs)) = None ->
    exists w',
      _convert E document ocr_lang w = (Normal true, w') /\
      fs w' = fs w ++ reset_ops ++ staged 1 pgs ++
              [Move CONVERTED_FILE_PATH (output_filename document)] /\
      stdout_closed w' = true /\ p_stdout w' = tail.
Proof.
  intros E document ocr_lang w n pgs tail Hprompt Hzip Hn Hlen Hwf Hs Hpdf.
  rewrite _convert_stages.
  destruct (_convert_spawn_cases E document w)
    as [(w1 & Hsp & _ & Hf1 & _ & Hs1 & _)|(Hdev & Hbig & _)];
    [|specialize (Hzip Hdev); lia].
  rewrite Hsp. rewrite <- Hs1 in Hs.
  destruct (_convert_pixels_prompt E document ocr_lang 0%float w1 n pgs tail
              Hprompt Hn Hlen Hwf Hs) as (pct & w2 & Hpx & Hs2 & Hf2).
  rewrite Hpx.
  destruct (_convert_finish_run E document ocr_lang pct w2)
    as (w3 & Hfin & _ & Hf3 & Hc3 & Hs3).
  cbv zeta in Hfin, Hf3.
  rewrite Hf2, Hf1 in Hfin, Hf3.
  rewrite <- !app_assoc in Hfin. rewrite <- !app_assoc in Hf3.
  rewrite Hpdf in Hfin, Hf3.
  exists w3. split; [exact Hfin|].
  split; [exact Hf3|].
  split; [exact Hc3|congruence].
Qed.

(** X17.  In a build that is not a development build no environment variable
    can switch the Qubes conversion on or off: [is_qubes_native_conversion]
    gives the same answer under any two environments. *)
Theorem production_build_ignores_environment :
  forall (h : host) (environ' : string -> option string),
    sys_dangerzone_dev h = false ->
    is_qubes_native_conversion
      (mkHost (running_on_qubes h) (sys_dangerzone_dev h) environ' (resource_exists h))
    = is_qubes_native_conversion h.
Proof.
  intros h environ' Hdev. unfold is_qubes_native_conversion.
  cbn [running_on_qubes sys_dangerzone_dev resource_exists].
  rewrite Hdev. reflexivity.
Qed.

(** X18.  In a development build the Qubes conversion is opt-in: the answer is
    [True] exactly on Qubes with [QUBES_CONVERSION] set to the string [1];
    an unset variable, or any other value, gives [False], and whether the
    container image is shipped plays no part. *)
Theorem dev_build_needs_explicit_opt_in :
  forall h : host,
    sys_dangerzone_dev h = true ->
    (is_qubes_native_conversion h = true <->
     running_on_qubes h = true /\ environ h "QUBES_CONVERSION" = Some "1").
Proof.
  intros h Hdev. unfold is_qubes_native_conversion, environ_get. rewrite Hdev.
  destruct (running_on_qubes h); [|split; [discriminate|intros [H _]; discriminate H]].
  destruct (environ h "QUBES_CONVERSION") as [v|].
  - rewrite String.eqb_eq. split.
    + intros ->. split; reflexivity.
    + intros [_ H]. congruence.
  - split; [discriminate|intros [_ H]; discriminate H].
Qed.

(** * Witnesses *)

Lemma keeps_up_prompt (E : environment) : pipe E = Scenario.keeps_up -> prompt E.
Proof. intros H t0 pending size timeout Hl. rewrite H. exact Hl. Qed.

(** Witness of C1: two pages, of 2 by 2 pixels and of 1 by 1, followed by a
    stray byte; the decode takes (12 + 3) + 2 + 4 * 2 bytes, leaves the stray
    byte and writes the three files of page 1, then those of page 2. *)
Lemma decode_consumes_exactly_witness :
  exists pct' w',
    _convert_pixels (Scenario.env false) Scenario.doc None 0%float
      (Scenario.fresh Scenario.two_pages 0) = (Normal pct', w') /\
    len Scenario.two_pages - len (p_stdout w') = (12 + 3) + 2 + 4 * 2 /\
    p_stdout w' = [x07] /\
    fs w' =
      [ WriteFile "/tmp/dangerzone/page-1.width" (Text "2");
        WriteFile "/tmp/dangerzone/page-1.height" (Text "2");
        WriteFile "/tmp/dangerzone/page-1.rgb"
          (Binary [xff; xff; xff; xff; xff; xff; xff; xff; xff; xff; xff; xff]);
        WriteFile "/tmp/dangerzone/page-2.width" (Text "1");
        WriteFile "/tmp/dangerzone/page-2.height" (Text "1");
        WriteFile "/tmp/dangerzone/page-2.rgb" (Binary [x0a; x0b; x0c]) ].
Proof.
  destruct (decode_consumes_exactly (Scenario.env false) Scenario.doc None 0%float
              (Scenario.fresh Scenario.two_pages 0) 2
              [Scenario.page_2x2; Scenario.page_1x1] [x07])
    as [Hconsumed Hsucceeds].
  - lia.
  - reflexivity.
  - repeat constructor; cbn; lia.
  - reflexivity.
  - destruct (Hsucceeds (keeps_up_prompt (Scenario.env false) eq_refl))
      as (pct' & w' & Hrun).
    exists pct', w'. split; [exact Hrun|]. exact (Hconsumed pct' w' Hrun).
Defined.

(** Witness of C2: the worker writes a page count of zero. *)
Lemma zero_pages_returns_false_witness :
  _convert (Scenario.env false) Scenario.doc None (Scenario.fresh [x00; x00] 0)
  = (Normal false,
     snd (read_int (Scenario.env false) Stdout
            (initial_timeout (Scenario.env false) Scenario.doc)
            (Scenario.launched [x00; x00] 0))).
Proof.
  apply (zero_pages_returns_false (Scenario.env false) Scenario.doc None
           (Scenario.fresh [x00; x00] 0) (Scenario.launched [x00; x00] 0));
    reflexivity.
Defined.

(** Witness of C3: the worker dies after one byte of the page count, with
    exit code 137. *)
Lemma short_page_count_is_diagnosed_witness :
  exists w',
    _convert (Scenario.env false) Scenario.doc None (Scenario.fresh [x00] 137)
    = (Raised (ConversionException 137 "the worker failed"), w') /\
    waited w' = true /\ progress w' = [].
Proof.
  apply (short_page_count_is_diagnosed (Scenario.env false) Scenario.doc None
           (Scenario.fresh [x00] 137) (Scenario.launched [x00] 137)
           (snd (read_int (Scenario.env false) Stdout
                   (initial_timeout (Scenario.env false) Scenario.doc)
                   (Scenario.launched [x00] 137)))
           "Did not receive exact number of bytes");
    reflexivity.
Defined.

Lemma waits_returns_in_time : returns_in_time Scenario.env_timed.
Proof.
  intros t0 pending size timeout H0.
  cbn [pipe Scenario.env_timed Scenario.waits snd].
  destruct (size <=? len pending).
  - split; [reflexivity|].
    destruct (0 <=? timeout)%float eqn:Ht.
    + exact (leb_trans _ _ _ (add_zero_le t0 H0) (proj2 (add_nonneg_ge t0 timeout H0 Ht))).
    + exact (add_zero_le t0 H0).
  - destruct (0 <=? timeout)%float eqn:Ht.
    + split; [exact Ht|]. apply leb_refl_nonneg. apply add_nonneg_ge; assumption.
    + split; [reflexivity|exact (add_zero_le t0 H0)].
Qed.

Lemma env_timed_remaining : remaining_is_time_left Scenario.env_timed.
Proof.
  intros T s t H0 Hhi Hr.
  cbn [Stopwatch_remaining Scenario.env_timed] in *.
  destruct (t + (T - (t - s)) <=? s + T)%float eqn:Hc.
  - exact Hc.
  - exact (leb_trans _ _ _ (add_zero_le t H0) Hhi).
Qed.

Lemma env_timed_timeouts (size : float) (pages : option Z) :
  (0 <=? calculate_timeout Scenario.env_timed size pages)%float = true.
Proof.
  cbn [calculate_timeout Scenario.env_timed].
  destruct pages; [reflexivity|]. destruct (size <? 1)%float; reflexivity.
Qed.


(** Witness of C7: one page without an OCR language gives one report, of
    100; two pages with the OCR language [eng] give two reports, of 25 and
    of 50. *)
Lemma page_progress_increment_witness :
  (exists reports : list report,
      progress (snd (_convert_pixels (Scenario.env false) Scenario.doc None 0%float
                       (Scenario.fresh Scenario.one_page 0))) = reports /\
      map percentage reports = [100%float]) /\
  (exists reports : list report,
      progress (snd (_convert_pixels (Scenario.env false) Scenario.doc (Some "eng")
                       0%float (Scenario.fresh Scenario.two_pages 0))) = reports /\
      map percentage reports = [25%float; 50%float]).
Proof.
  split.
  - destruct (page_progress_increment (Scenario.env false) Scenario.doc None 0%float
                (Scenario.fresh Scenario.one_page 0)
                (snd (read_int (Scenario.env false) Stdout
                        (initial_timeout (Scenario.env false) Scenario.doc)
                        (Scenario.fresh Scenario.one_page 0)))
                1 eq_refl ltac:(lia))
      as (reports & Hp & _ & Hmap & _ & Hres).
    exists reports. split; [exact Hp|].
    assert (Hfst : fst (_convert_pixels (Scenario.env false) Scenario.doc None 0%float
                          (Scenario.fresh Scenario.one_page 0)) = Normal 100%float)
      by (vm_compute; reflexivity).
    rewrite Hfst in Hres. destruct Hres as [Hlen _].
    rewrite Hmap, Hlen. reflexivity.
  - destruct (page_progress_increment (Scenario.env false) Scenario.doc (Some "eng")
                0%float (Scenario.fresh Scenario.two_pages 0)
                (snd (read_int (Scenario.env false) Stdout
                        (initial_timeout (Scenario.env false) Scenario.doc)
                        (Scenario.fresh Scenario.two_pages 0)))
                2 eq_refl ltac:(lia))
      as (reports & Hp & _ & Hmap & _ & Hres).
    exists reports. split; [exact Hp|].
    assert (Hfst : fst (_convert_pixels (Scenario.env false) Scenario.doc (Some "eng")
                          0%float (Scenario.fresh Scenario.two_pages 0))
                   = Normal 50%float)
      by (vm_compute; reflexivity).
    rewrite Hfst in Hres. destruct Hres as [Hlen _].
    rewrite Hmap, Hlen. reflexivity.
Defined.

(** Witness of C9: a dev-mode session with a ten-byte archive. *)
Lemma dev_mode_input_stream_witness :
  p_stdin (snd (_convert (Scenario.env true) Scenario.doc None
                  (Scenario.fresh Scenario.one_page 0)))
  = [x00; x00; x00; x0a] ++ Scenario.ten_bytes ++ [x25; x50; x44; x46].
Proof.
  destruct (dev_mode_input_stream (Scenario.env true) Scenario.doc None
              (Scenario.fresh Scenario.one_page 0) eq_refl ltac:(reflexivity))
    as (Hstream & _).
  exact Hstream.
Defined.


(** A run is settled by its outcome. *)
Lemma run_outcome {A} (c : M A) (w : world) (r : outcome A) :
  fst (c w) = r -> c w = (r, snd (c w)).
Proof. destruct (c w) as [r' w']. cbn. intros ->. reflexivity. Qed.

(** Witness of X2: a production session on a worker whose stderr holds three
    bytes leaves them there. *)
Lemma production_session_leaves_stderr_alone_witness :
  logged (snd (_convert (Scenario.env false) Scenario.doc None Scenario.noisy)) =
    logged Scenario.noisy /\
  p_stderr (snd (_convert (Scenario.env false) Scenario.doc None Scenario.noisy)) =
    p_stderr Scenario.noisy /\
  stderr_closed (snd (_convert (Scenario.env false) Scenario.doc None Scenario.noisy)) =
    stderr_closed Scenario.noisy.
Proof.
  exact (production_session_leaves_stderr_alone (Scenario.env false) Scenario.doc None
           Scenario.noisy eq_refl).
Defined.

(** Witness of X3: a dev-mode session on the same worker. *)
Lemma dev_session_logs_stderr_witness :
  exists k : nat,
    (k <= Z.to_nat (MAX_CONVERSION_LOG_CHARS (Scenario.env true)))%nat /\
    logged (snd (_convert (Scenario.env true) Scenario.doc None Scenario.noisy)) =
      logged Scenario.noisy ++
      [conversion_log (Scenario.env true) (firstn k (p_stderr Scenario.noisy))] /\
    p_stderr (snd (_convert (Scenario.env true) Scenario.doc None Scenario.noisy)) =
      skipn k (p_stderr Scenario.noisy) /\
    stderr_closed (snd (_convert (Scenario.env true) Scenario.doc None Scenario.noisy)) =
      true.
Proof.
  apply (dev_session_logs_stderr (Scenario.env true) Scenario.doc None Scenario.noisy
           (snd (_convert_spawn (Scenario.env true) Scenario.doc Scenario.noisy))
           (snd (_convert_pixels (Scenario.env true) Scenario.doc None 0%float
                   (snd (_convert_spawn (Scenario.env true) Scenario.doc Scenario.noisy))))
           100%float).
  - reflexivity.
  - apply run_outcome. vm_compute. reflexivity.
  - apply run_outcome. vm_compute. reflexivity.
Defined.

(** Witness of X4: the worker announces one page and sends it. *)
Lemma no_wait_after_page_count_witness :
  waited (snd (_convert (Scenario.env false) Scenario.doc None
                 (Scenario.fresh Scenario.one_page 0))) =
  waited (Scenario.fresh Scenario.one_page 0).
Proof.
  apply (no_wait_after_page_count (Scenario.env false) Scenario.doc None
           (Scenario.fresh Scenario.one_page 0) (Scenario.launched Scenario.one_page 0)
           (snd (read_int (Scenario.env false) Stdout
                   (initial_timeout (Scenario.env false) Scenario.doc)
                   (Scenario.launched Scenario.one_page 0)))
           1).
  - apply run_outcome. vm_compute. reflexivity.
  - apply run_outcome. vm_compute. reflexivity.
Defined.

(** Witness of X5: the worker exits with code 137 without a word. *)
Lemma silent_worker_is_diagnosed_witness :
  fst (_convert (Scenario.env false) Scenario.doc None (Scenario.fresh [] 137)) =
  Raised (exception_from_error_code (Scenario.env false)
            (exit_status (Scenario.fresh [] 137))).
Proof.
  destruct (silent_worker_is_diagnosed (Scenario.env false) Scenario.doc None
              (Scenario.fresh [] 137)) as (Hr & _).
  - intro H. discriminate H.
  - reflexivity.
  - exact Hr.
Defined.

(** Witness of X6: the session on one page of 2 by 2 pixels returns [True]. *)
Lemma success_means_well_formed_stream_witness :
  exists (n : Z) (pgs : list page),
    1 <= n <= 65535 /\ len pgs = n /\ Forall well_formed pgs /\
    p_stdout (Scenario.fresh Scenario.one_page 0) =
      encode_stream n pgs ++
      p_stdout (snd (_convert (Scenario.env false) Scenario.doc None
                       (Scenario.fresh Scenario.one_page 0))) /\
    fs (snd (_convert (Scenario.env false) Scenario.doc None
               (Scenario.fresh Scenario.one_page 0))) =
      fs (Scenario.fresh Scenario.one_page 0) ++ reset_ops ++ staged 1 pgs ++
      [Move CONVERTED_FILE_PATH (output_filename Scenario.doc)] /\
    stdout_closed (snd (_convert (Scenario.env false) Scenario.doc None
                          (Scenario.fresh Scenario.one_page 0))) = true.
Proof.
  apply (success_means_well_formed_stream (Scenario.env false) Scenario.doc None
           (Scenario.fresh Scenario.one_page 0)).
  apply run_outcome. vm_compute. reflexivity.
Defined.

(** Witness of X7: the worker announces zero pages. *)
Lemma false_means_zero_pages_witness :
  2 <= len (p_stdout (Scenario.fresh [x00; x00] 0)) /\
  page_count (Scenario.fresh [x00; x00] 0) = 0 /\
  fs (snd (_convert (Scenario.env false) Scenario.doc None
             (Scenario.fresh [x00; x00] 0))) =
    fs (Scenario.fresh [x00; x00] 0) ++ reset_ops /\
  progress (snd (_convert (Scenario.env false) Scenario.doc None
                   (Scenario.fresh [x00; x00] 0))) =
    progress (Scenario.fresh [x00; x00] 0) /\
  stdout_closed (snd (_convert (Scenario.env false) Scenario.doc None
                        (Scenario.fresh [x00; x00] 0))) =
    stdout_closed (Scenario.fresh [x00; x00] 0) /\
  waited (snd (_convert (Scenario.env false) Scenario.doc None
                 (Scenario.fresh [x00; x00] 0))) =
    waited (Scenario.fresh [x00; x00] 0).
Proof.
  apply (false_means_zero_pages (Scenario.env false) Scenario.doc None
           (Scenario.fresh [x00; x00] 0)).
  apply run_outcome. vm_compute. reflexivity.
Defined.

(** Witness of X9: the four bytes of the document. *)
Lemma production_input_is_the_document_witness :
  p_stdin (snd (_convert (Scenario.env false) Scenario.doc None
                  (Scenario.fresh Scenario.one_page 0))) =
  p_stdin (Scenario.fresh Scenario.one_page 0) ++ input_bytes Scenario.doc.
Proof.
  exact (production_input_is_the_document (Scenario.env false) Scenario.doc None
           (Scenario.fresh Scenario.one_page 0) eq_refl).
Defined.

(** Witness of X10: an archive of exactly [2^32] bytes. *)
Lemma oversize_archive_overflows_witness :
  fst (_convert Scenario.env_huge Scenario.doc None (Scenario.fresh Scenario.one_page 0)) =
  Raised OverflowError.
Proof.
  destruct (oversize_archive_overflows Scenario.env_huge Scenario.doc None
              (Scenario.fresh Scenario.one_page 0)) as (Hr & _).
  - reflexivity.
  - change (dz_module_zip Scenario.env_huge) with (repeat x00 (Z.to_nat 4294967296)).
    unfold len. rewrite repeat_length, Z2Nat.id by lia. change (2 ^ 32) with 4294967296. lia.
  - exact Hr.
Defined.

(** Witness of X11: two dev-mode sessions on different workers, with and
    without OCR, that send the same archive and the same document. *)
Lemma sidecar_framing_is_unambiguous_witness :
  dz_module_zip (Scenario.env true) = dz_module_zip (Scenario.env true) /\
  input_bytes Scenario.doc = input_bytes Scenario.doc.
Proof.
  apply (sidecar_framing_is_unambiguous (Scenario.env true) (Scenario.env true)
           Scenario.doc Scenario.doc None (Some "eng")
           (Scenario.fresh Scenario.one_page 0) (Scenario.fresh [] 137)).
  - reflexivity.
  - reflexivity.
  - reflexivity.
  - reflexivity.
  - reflexivity.
  - reflexivity.
  - vm_compute. reflexivity.
Defined.

(** Witness of X14: two pages are announced, the second one stops after two
    bytes. *)
Lemma truncated_stream_never_succeeds_witness :
  exists e,
    fst (_convert (Scenario.env false) Scenario.doc None
           (Scenario.fresh Scenario.cut_off 0)) = Raised e.
Proof.
  destruct (truncated_stream_never_succeeds (Scenario.env false) Scenario.doc None
              (Scenario.fresh Scenario.cut_off 0) 2 [Scenario.page_2x2] [x00; x01])
    as (Hr & _).
  - lia.
  - constructor; [|constructor]. repeat split; cbn; lia.
  - reflexivity.
  - reflexivity.
  - reflexivity.
  - exact Hr.
Defined.

(** Witness of X16: one page of 2 by 2 pixels, a worker that keeps up and a
    PDF stage that succeeds. *)
Lemma well_formed_session_returns_true_witness :
  exists w',
    _convert (Scenario.env false) Scenario.doc None (Scenario.fresh Scenario.one_page 0) =
      (Normal true, w') /\
    fs w' =
      fs (Scenario.fresh Scenario.one_page 0) ++ reset_ops ++
      staged 1 [Scenario.page_2x2] ++
      [Move CONVERTED_FILE_PATH (output_filename Scenario.doc)] /\
    stdout_closed w' = true /\ p_stdout w' = [x07].
Proof.
  apply (well_formed_session_returns_true (Scenario.env false) Scenario.doc None
           (Scenario.fresh Scenario.one_page 0) 1 [Scenario.page_2x2] [x07]).
  - exact (keeps_up_prompt (Scenario.env false) eq_refl).
  - intro H. discriminate H.
  - lia.
  - reflexivity.
  - constructor; [|constructor]. repeat split; cbn; lia.
  - reflexivity.
  - reflexivity.
Defined.

(** Witness of X17: setting [QUBES_CONVERSION=0] on a Qubes build changes
    nothing. *)
Lemma production_build_ignores_environment_witness :
  is_qubes_native_conversion
    (mkHost (running_on_qubes Scenario.qubes_build)
            (sys_dangerzone_dev Scenario.qubes_build)
            (fun _ => Some "0")
            (resource_exists Scenario.qubes_build))
  = is_qubes_native_conversion Scenario.qubes_build.
Proof.
  exact (production_build_ignores_environment Scenario.qubes_build
           (fun _ => Some "0") eq_refl).
Defined.

(** Witness of X18: a development build on Qubes with [QUBES_CONVERSION=1]. *)
Lemma dev_build_needs_explicit_opt_in_witness :
  is_qubes_native_conversion Scenario.qubes_dev = true <->
  running_on_qubes Scenario.qubes_dev = true /\
  environ Scenario.qubes_dev "QUBES_CONVERSION" = Some "1".
Proof.
  exact (dev_build_needs_explicit_opt_in Scenario.qubes_dev eq_refl).
Defined.
